(** * vsphere_folder: the folder resource of the vSphere provider

    A shallow embedding of [vsphere/resource_vsphere_folder.go] and of the
    Go standard-library string and path routines it calls, followed by the
    properties of path resolution, folder creation and bounded pruning.

    Go strings are byte sequences and are modelled by [string]; Go's [int]
    results that can be negative are modelled in [Z]. *)

From Stdlib Require Import String Ascii List ZArith Lia Bool Arith.
Import ListNotations.
Open Scope string_scope.

(** ** Byte-string helpers: slicing and indexing *)

(** [s[:i]] for [0 <= i <= len(s)]. *)
Fixpoint sliceTo (s : string) (i : nat) : string :=
  match i, s with
  | S i', String c r => String c (sliceTo r i')
  | _, _ => EmptyString
  end.

(** [s[i:]] for [0 <= i <= len(s)]. *)
Fixpoint sliceFrom (s : string) (i : nat) : string :=
  match i, s with
  | S i', String _ r => sliceFrom r i'
  | _, _ => s
  end.

Definition isSlash (c : ascii) : bool := Ascii.eqb c "/".
Definition isDot (c : ascii) : bool := Ascii.eqb c ".".
Arguments isSlash : simpl never.
Arguments isDot : simpl never.

(** [s[i] == '/'] (false when [i] is out of range). *)
Definition slashAt (s : string) (i : nat) : bool :=
  match String.get i s with
  | Some c => isSlash c
  | None => false
  end.

(** ** Package strings *)
Module strings.

(** [strings.LastIndex(s, sep)] for a one-byte separator: the index of the
    last occurrence of the byte, or -1. *)
Fixpoint LastIndexByte (s : string) (c : ascii) : Z :=
  match s with
  | EmptyString => (-1)%Z
  | String a r =>
      let i := LastIndexByte r c in
      if (0 <=? i)%Z then (i + 1)%Z
      else if Ascii.eqb a c then 0%Z else (-1)%Z
  end.

Definition LastIndex (s : string) (sep : ascii) : Z := LastIndexByte s sep.

Fixpoint inCutset (c : ascii) (cutset : string) : bool :=
  match cutset with
  | EmptyString => false
  | String k r => Ascii.eqb c k || inCutset c r
  end.

(** [strings.TrimRight(s, cutset)]: a byte goes away when it is in the cutset
    and everything to its right went away. *)
Fixpoint TrimRight (s cutset : string) : string :=
  match s with
  | EmptyString => EmptyString
  | String c r =>
      match TrimRight r cutset with
      | EmptyString => if inCutset c cutset then EmptyString else String c EmptyString
      | r' => String c r'
      end
  end.

(** [strings.Join(elems, sep)]. *)
Fixpoint Join (elems : list string) (sep : string) : string :=
  match elems with
  | [] => EmptyString
  | [e] => e
  | e :: rest => e ++ sep ++ Join rest sep
  end.

End strings.

(** ** Package path *)
Module path.

(** [r+1 == n || path[r+1] == '/'], on the bytes that follow. *)
Definition endOrSlash (s : string) : bool :=
  match s with
  | EmptyString => true
  | String c _ => isSlash c
  end.

(** [path[r+1] == '.' && (r+2 == n || path[r+2] == '/')]. *)
Definition dotThenEnd (s : string) : bool :=
  match s with
  | String c r => isDot c && endOrSlash r
  | EmptyString => false
  end.

(** [for ; r < n && path[r] != '/'; r++ { out.append(path[r]) }]: the element
    copied and the unread rest. *)
Fixpoint elemSpan (s : string) : string * string :=
  match s with
  | EmptyString => (EmptyString, EmptyString)
  | String c r =>
      if isSlash c then (EmptyString, s)
      else let (e, t) := elemSpan r in (String c e, t)
  end.

(** [for out.w > dotdot && out.index(out.w) != '/' { out.w-- }]. *)
Fixpoint backtrack (out : string) (dotdot w : nat) : nat :=
  match w with
  | O => O
  | S w' =>
      if (dotdot <? w)%nat && negb (slashAt out w) then backtrack out dotdot w'
      else w
  end.

(** [rooted && out.w != 1 || !rooted && out.w != 0]: the next element needs
    a slash in front. *)
Definition slashNeeded (rooted : bool) (out : string) : bool :=
  (rooted && negb (String.length out =? 1)%nat)
  || (negb rooted && negb (String.length out =? 0)%nat).

(** The main loop of [Clean]. [rest] is [path[r:]], [out] the bytes written
    so far ([out.w] is its length). One unit of [fuel] per iteration; every
    iteration reads at least one byte. *)
Fixpoint cleanLoop (fuel : nat) (rooted : bool) (rest out : string)
         (dotdot : nat) : string :=
  match fuel with
  | O => out
  | S fuel' =>
      match rest with
      | EmptyString => out
      | String c r1 =>
          if isSlash c then
            cleanLoop fuel' rooted r1 out dotdot
          else if isDot c && endOrSlash r1 then
            cleanLoop fuel' rooted r1 out dotdot
          else if isDot c && dotThenEnd r1 then
            let r2 := sliceFrom r1 1 in
            if (dotdot <? String.length out)%nat then
              let w := backtrack out dotdot (String.length out - 1) in
              cleanLoop fuel' rooted r2 (sliceTo out w) dotdot
            else if negb rooted then
              let out1 := if (0 <? String.length out)%nat then out ++ "/" else out in
              let out2 := out1 ++ ".." in
              cleanLoop fuel' rooted r2 out2 (String.length out2)
            else
              cleanLoop fuel' rooted r2 out dotdot
          else
            let out1 := if slashNeeded rooted out then out ++ "/" else out in
            let (e, r') := elemSpan rest in
            cleanLoop fuel' rooted r' (out1 ++ e) dotdot
      end
  end.

(** [path.Clean]. *)
Definition Clean (p : string) : string :=
  match p with
  | EmptyString => "."
  | String c r =>
      let out :=
        if isSlash c then cleanLoop (String.length p) true r "/" 1
        else cleanLoop (String.length p) false p "" 0 in
      if (String.length out =? 0)%nat then "." else out
  end.

(** [path.Split]: [i := strings.LastIndex(path, "/"); path[:i+1], path[i+1:]]. *)
Definition Split (p : string) : string * string :=
  let i := strings.LastIndex p "/" in
  (sliceTo p (Z.to_nat (i + 1)), sliceFrom p (Z.to_nat (i + 1))).

(** [path.Dir]. *)
Definition Dir (p : string) : string :=
  let (dir, _) := Split p in Clean dir.

(** [path.Base], used by [object.Common.Name]. *)
Fixpoint stripTrailingSlashes (p : string) : string :=
  match p with
  | EmptyString => EmptyString
  | String c r =>
      match stripTrailingSlashes r with
      | EmptyString => if isSlash c then EmptyString else String c EmptyString
      | r' => String c r'
      end
  end.

Definition Base (p : string) : string :=
  match p with
  | EmptyString => "."
  | _ =>
      let p1 := stripTrailingSlashes p in
      let i := strings.LastIndex p1 "/" in
      let p2 := if (0 <=? i)%Z then sliceFrom p1 (Z.to_nat (i + 1)) else p1 in
      match p2 with
      | EmptyString => "/"
      | _ => p2
      end
  end.

End path.

(** ** Package path/filepath, on a Unix host (separator '/', no volume names) *)
Module filepath.

Definition Clean (p : string) : string := path.Clean p.

(** [filepath.ToSlash] is the identity when the separator is '/'. *)
Definition ToSlash (p : string) : string := p.

(** [filepath.Join]: leading empty elements are skipped, the rest is joined
    with the separator and cleaned. *)
Fixpoint Join (elem : list string) : string :=
  match elem with
  | [] => EmptyString
  | e :: rest =>
      match e with
      | EmptyString => Join rest
      | _ => Clean (strings.Join elem "/")
      end
  end.

(** [filepath.Split]: scan back to the last separator. *)
Definition Split (p : string) : string * string :=
  let i := strings.LastIndex p "/" in
  (sliceTo p (Z.to_nat (i + 1)), sliceFrom p (Z.to_nat (i + 1))).

End filepath.

(** ** The inventory service (govmomi) as seen by the resource

    The resource talks to vSphere only through the finder, the search index
    and the folder and task objects. A Go result pair [(value, err)] is kept
    as a pair of options, so that the code's own nil tests decide what
    happens. Lookups read the inventory; [CreateFolder], [Destroy] and
    [Wait] change it. *)

Definition error := string.

(** [object.Common]: the managed object reference and the inventory path
    the object was found under (empty when the library did not fill it). *)
Record Common := { moref : nat; InventoryPath : string }.

Definition Folder := Common.
Definition Datacenter := Common.
Record Task := { task_id : nat }.

(** [object.Reference], by the concrete type behind the interface. *)
Inductive Reference :=
| IsFolder (f : Folder)
| IsDatacenter (dc : Datacenter)
| IsOther (o : Common).

(** The operations of the library the resource calls, over an inventory of
    type [W]. An absent object is [(nil, nil)] from [FindByInventoryPath];
    what comes with an error is up to the service (govmomi's
    [Folder.CreateFolder] and [Folder.Destroy] return nil with it). *)
Class InventoryService (W : Type) := {
  finder_DatacenterOrDefault : W -> string -> option Datacenter * option error;
  finder_Datacenter : W -> string -> option Datacenter * option error;
  finder_DefaultDatacenter : W -> option Datacenter * option error;
  si_FindByInventoryPath : W -> string -> option Reference * option error;
  folder_CreateFolder : W -> Folder -> string -> W * (option Folder * option error);
  folder_Children : W -> Folder -> list Reference * option error;
  folder_Destroy : W -> Folder -> W * (option Task * option error);
  task_Wait : W -> Task -> W * option error
}.

(** The calls a run issues, in order. *)
Inductive Call :=
| CallDatacenterOrDefault (name : string)
| CallDatacenter (name : string)
| CallDefaultDatacenter
| CallFindByInventoryPath (p : string)
| CallCreateFolder (parent : Folder) (name : string)
| CallChildren (f : Folder)
| CallDestroy (f : Folder)
| CallWait (t : Task).

Definition isCreate (c : Call) : bool :=
  match c with CallCreateFolder _ _ => true | _ => false end.
Definition isDestroy (c : Call) : bool :=
  match c with CallDestroy _ => true | _ => false end.
Definition isChildren (c : Call) : bool :=
  match c with CallChildren _ => true | _ => false end.
Definition isMutation (c : Call) : bool := isCreate c || isDestroy c.

(** The passes of the prune loop a run went into: each starts with its one
    children query. *)
Definition passes (cs : list Call) : nat := List.length (filter isChildren cs).

(** A children query or a destroy issued on the managed object of [fo]. *)
Definition touches (fo : Folder) (c : Call) : bool :=
  match c with
  | CallChildren x | CallDestroy x => Nat.eqb (moref x) (moref fo)
  | _ => false
  end.

Definition isLookup (c : Call) : bool :=
  match c with
  | CallDatacenterOrDefault _ | CallDatacenter _ | CallDefaultDatacenter
  | CallFindByInventoryPath _ => true
  | _ => false
  end.

(** How a Go function call ends: it returns, it panics, or (for the model's
    bounded loops only) the iteration budget ran out. *)
Inductive outcome (A : Type) :=
| Returns (a : A)
| Panics (msg : string)
| OutOfFuel.
Arguments Returns {A} a.
Arguments Panics {A} msg.
Arguments OutOfFuel {A}.

(** ** Terraform's [schema.ResourceData] for this resource *)
Record ResourceData := {
  d_datacenter : string;
  d_path : string;
  d_existing_path : string;
  d_id : string
}.

(** [d.GetOk(key)]: the value and whether it is set to a non-zero value. *)
Definition GetOk (v : string) : string * bool :=
  (v, negb (String.eqb v "")).

Definition Set_existing_path (d : ResourceData) (v : string) : ResourceData :=
  {| d_datacenter := d_datacenter d; d_path := d_path d;
     d_existing_path := v; d_id := d_id d |}.

Definition SetId (d : ResourceData) (v : string) : ResourceData :=
  {| d_datacenter := d_datacenter d; d_path := d_path d;
     d_existing_path := d_existing_path d; d_id := v |}.

(** [type folder struct]. *)
Record folder := {
  datacenter : string;
  existingPath : string;
  path : string
}.

Section Resource.

Context {W : Type} {svc : InventoryService W}.

(** The state a run threads: the inventory and the calls issued so far. *)
Record St := { world : W; calls : list Call }.

Definition M (A : Type) : Type := St -> outcome A * St.

Definition ret {A} (a : A) : M A := fun s => (Returns a, s).
Definition panic {A} (msg : string) : M A := fun s => (Panics msg, s).
Definition diverge {A} : M A := fun s => (OutOfFuel, s).

Definition bind {A B} (m : M A) (k : A -> M B) : M B :=
  fun s =>
    match m s with
    | (Returns a, s') => k a s'
    | (Panics msg, s') => (Panics msg, s')
    | (OutOfFuel, s') => (OutOfFuel, s')
    end.

Notation "x <- m ;; k" := (bind m (fun x => k))
  (at level 61, m at next level, right associativity).
Notation "' p <- m ;; k" := (bind m (fun x => let 'p := x in k))
  (at level 61, p pattern, m at next level, right associativity).

Definition logged (c : Call) (s : St) : St :=
  {| world := world s; calls := (calls s ++ [c])%list |}.

(** A read-only call. *)
Definition query {A} (c : Call) (q : W -> A) : M A :=
  fun s => (Returns (q (world s)), logged c s).

(** A call that changes the inventory. *)
Definition command {A} (c : Call) (q : W -> W * A) : M A :=
  fun s => let (w', a) := q (world s) in
           (Returns a, {| world := w'; calls := (calls s ++ [c])%list |}).

Definition DatacenterOrDefault (name : string) :=
  query (CallDatacenterOrDefault name) (fun w => finder_DatacenterOrDefault w name).
Definition FinderDatacenter (name : string) :=
  query (CallDatacenter name) (fun w => finder_Datacenter w name).
Definition DefaultDatacenter :=
  query CallDefaultDatacenter (fun w => finder_DefaultDatacenter w).
Definition FindByInventoryPath (p : string) :=
  query (CallFindByInventoryPath p) (fun w => si_FindByInventoryPath w p).
Definition CreateFolder (parent : Folder) (name : string) :=
  command (CallCreateFolder parent name) (fun w => folder_CreateFolder w parent name).
Definition Children (f : Folder) :=
  query (CallChildren f) (fun w => folder_Children w f).
Definition Destroy (f : Folder) :=
  command (CallDestroy f) (fun w => folder_Destroy w f).
Definition Wait (t : Task) :=
  command (CallWait t) (fun w => task_Wait w t).

(** Dereferencing a pointer: nil panics. *)
Definition deref {A} (p : option A) : M A :=
  match p with
  | Some a => ret a
  | None => panic "runtime error: invalid memory address or nil pointer dereference"
  end.

(** [ref.( *object.Folder)], the one-result type assertion: a nil interface
    and any other concrete type panic (the message for the latter names the
    concrete type, which the model does not keep). *)
Definition assertFolder (ref : option Reference) : M Folder :=
  match ref with
  | Some (IsFolder f) => ret f
  | Some _ => panic "interface conversion: object.Reference is not *object.Folder"
  | None => panic "interface conversion: object.Reference is nil, not *object.Folder"
  end.

(** [getDatacenter]. *)
Definition getDatacenter (dc : string) : M (option Datacenter * option error) :=
  if negb (String.eqb dc "") then FinderDatacenter dc
  else DefaultDatacenter.

(** The first loop of [createFolder] (lines 93-109): look the path up, and
    while it is absent remember its last element and go on with the prefix
    before the last slash. It returns either the error [createFolder]
    returns from inside the loop, or the reference found and the names
    collected. *)
Fixpoint createFolder_resolve (fuel : nat) (dc : Datacenter) (base p : string)
         (folders : list string) : M (error + Reference * list string) :=
  match fuel with
  | O => diverge
  | S fuel' =>
      '(ref, err) <- FindByInventoryPath p ;;
      match err with
      | Some e => ret (inl ("error " ++ e))
      | None =>
          match ref with
          | None =>
              let '(_, name) := filepath.Split p in
              let folders := (folders ++ [name])%list in
              let i := strings.LastIndex p "/" in
              if (i <? 0)%Z then panic "runtime error: slice bounds out of range"
              else
                let p := sliceTo p (Z.to_nat i) in
                if String.eqb p (InventoryPath dc) then
                  ret (inl ("vSphere base path " ++ filepath.ToSlash base ++ " not found"))
                else createFolder_resolve fuel' dc base p folders
          | Some r => ret (inr (r, folders))
          end
      end
  end.

(** The second loop of [createFolder] (lines 112-118), [n] being [i + 1]:
    [root, err = root.CreateFolder(ctx, folders[i])] overwrites [root] before
    the error test, so the message reads the path through the pointer the
    failed call returned. *)
Fixpoint createFolder_create (folders : list string) (n : nat)
         (root : option Folder) : M (option error) :=
  match n with
  | O => ret None
  | S i =>
      receiver <- deref root ;;
      '(root, err) <- CreateFolder receiver (nth i folders "") ;;
      match err with
      | Some e =>
          r <- deref root ;;
          ret (Some ("Failed to create folder at " ++ InventoryPath r ++ "; " ++ e))
      | None => createFolder_create folders i root
      end
  end.

(** [createFolder]. The struct behind [f] is returned with the error, as the
    caller reads it afterwards; no statement of the function assigns to it. *)
Definition createFolder (f : folder) : M (folder * option error) :=
  '(dc, err) <- DatacenterOrDefault (datacenter f) ;;
  match err with
  | Some e => ret (f, Some ("error " ++ e))
  | None =>
      dc <- deref dc ;;
      let base := filepath.Join [InventoryPath dc; "vm"] in
      let p := filepath.ToSlash (filepath.Join [base; path f]) in
      r <- createFolder_resolve (S (String.length p)) dc base p [] ;;
      match r with
      | inl e => ret (f, Some e)
      | inr (ref, folders) =>
          root <- assertFolder (Some ref) ;;
          err <- createFolder_create folders (List.length folders) (Some root) ;;
          ret (f, err)
      end
  end.

(** [resourceVSphereFolderRead]. *)
Definition resourceVSphereFolderRead (d : ResourceData)
  : M (ResourceData * option error) :=
  '(_, err) <- getDatacenter (d_datacenter d) ;;
  match err with
  | Some e => ret (d, Some e)
  | None =>
      '(ref, err) <- FindByInventoryPath (d_datacenter d ++ "/vm/" ++ d_path d) ;;
      match err with
      | Some e => ret (d, Some e)
      | None =>
          match ref with
          | None => ret (SetId d "", None)
          | Some _ => ret (d, None)
          end
      end
  end.

(** [resourceVSphereFolderCreate]. The client behind [meta] is the service
    instance; the log lines are left out. *)
Definition resourceVSphereFolderCreate (d : ResourceData)
  : M (ResourceData * option error) :=
  let f := {| datacenter := ""; existingPath := "";
              path := strings.TrimRight (d_path d) "/" |} in
  let f := let '(v, ok) := GetOk (d_datacenter d) in
           if ok then {| datacenter := v; existingPath := existingPath f;
                         path := path f |}
           else f in
  '(f, err) <- createFolder f ;;
  match err with
  | Some e => ret (d, Some e)
  | None =>
      let d := Set_existing_path d (existingPath f) in
      let d := SetId d (datacenter f ++ "/" ++ path f) in
      resourceVSphereFolderRead d
  end.

(** The variables the prune loop of [deleteFolder] carries. *)
Record pruneState := { cur_folder : Folder; currentPath : string }.

(** The parent path as lines 205-208 compute it. *)
Definition parentPath (p : string) : string :=
  let p' := path.Dir p in
  if String.eqb p' "." then "" else p'.

(** One pass through the body of the prune loop (lines 195-226): the state
    for the next pass, or the value [deleteFolder] returns from inside. *)
Definition deleteFolder_body (f : folder) (s : pruneState)
  : M (pruneState + option error) :=
  '(children, err) <- Children (cur_folder s) ;;
  match err with
  | Some e => ret (inr (Some e))
  | None =>
      if (0 <? List.length children)%nat then
        ret (inr (Some ("Folder " ++ currentPath s
                          ++ " is non-empty and will not be deleted")))
      else
        let cp := parentPath (currentPath s) in
        '(task, err) <- Destroy (cur_folder s) ;;
        match err with
        | Some e => ret (inr (Some e))
        | None =>
            task <- deref task ;;
            err <- Wait task ;;
            match err with
            | Some e => ret (inr (Some e))
            | None =>
                '(folderRef, err) <-
                   FindByInventoryPath (datacenter f ++ "/vm/" ++ cp) ;;
                match err with
                | Some e => ret (inr (Some e))
                | None =>
                    match folderRef with
                    | Some _ =>
                        fo <- assertFolder folderRef ;;
                        ret (inl {| cur_folder := fo; currentPath := cp |})
                    | None =>
                        ret (inl {| cur_folder := cur_folder s; currentPath := cp |})
                    end
                end
            end
        end
  end.

(** [for currentPath != f.existingPath { ... }]; [fuel] bounds the number of
    passes. *)
Fixpoint deleteFolder_loop (fuel : nat) (f : folder) (s : pruneState)
  : M (option error) :=
  if String.eqb (currentPath s) (existingPath f) then ret None
  else
    match fuel with
    | O => diverge
    | S fuel' =>
        r <- deleteFolder_body f s ;;
        match r with
        | inl s' => deleteFolder_loop fuel' f s'
        | inr e => ret e
        end
    end.

(** [deleteFolder]. *)
Definition deleteFolder (fuel : nat) (f : folder) : M (option error) :=
  '(_, err) <- getDatacenter (datacenter f) ;;
  match err with
  | Some e => ret (Some e)
  | None =>
      '(folderRef, err) <-
         FindByInventoryPath (datacenter f ++ "/vm/" ++ path f) ;;
      match err with
      | Some e =>
          ret (Some ("[ERROR] Could not locate folder " ++ path f ++ ": " ++ e))
      | None =>
          fo <- assertFolder folderRef ;;
          deleteFolder_loop fuel f {| cur_folder := fo; currentPath := path f |}
      end
  end.

(** [resourceVSphereFolderDelete]. *)
Definition resourceVSphereFolderDelete (fuel : nat) (d : ResourceData)
  : M (ResourceData * option error) :=
  let f := {| datacenter := ""; existingPath := d_existing_path d;
              path := strings.TrimRight (d_path d) "/" |} in
  let f := let '(v, ok) := GetOk (d_datacenter d) in
           if ok then {| datacenter := v; existingPath := existingPath f;
                         path := path f |}
           else f in
  err <- deleteFolder fuel f ;;
  match err with
  | Some e => ret (d, Some e)
  | None => ret (SetId d "", None)
  end.

(** What [getDatacenter] asks the finder, and the call it issues for it. *)
Definition lookupDatacenter (w : W) (name : string)
  : option Datacenter * option error :=
  if negb (String.eqb name "") then finder_Datacenter w name
  else finder_DefaultDatacenter w.

Definition datacenterCall (name : string) : Call :=
  if negb (String.eqb name "") then CallDatacenter name
  else CallDefaultDatacenter.

(** The prune loop after [k] complete passes: the loop variables and the
    state at the next test of the loop condition, when each of the [k]
    passes was entered and fell through to the end of the body. *)
Fixpoint prune_passes (k : nat) (f : folder) (s : pruneState) (st : St)
  : option (pruneState * St) :=
  match k with
  | O => Some (s, st)
  | S k' =>
      if String.eqb (currentPath s) (existingPath f) then None
      else
        match deleteFolder_body f s st with
        | (Returns (inl s'), st') => prune_passes k' f s' st'
        | _ => None
        end
  end.

End Resource.

Arguments St W : clear implicits.
Arguments M W A : clear implicits.

(** ** An in-memory inventory

    A small inventory tree that implements the service interface, used to
    run the resource on concrete inventories. Objects are kept by absolute
    inventory path; lookups accept a path with or without its leading slash.
    [denied] lists folder names the service refuses to create; a refused
    or otherwise failed creation returns a nil folder with the error, as
    govmomi does. A folder found by path carries that path, a folder just
    created carries none. *)
Module Sim.

Inductive kind := KDatacenter | KFolder | KOther.

Record node := { n_ref : nat; n_path : string; n_kind : kind }.

Record inventory := {
  nodes : list node;
  fresh : nat;
  defaultDC : string;
  denied : list string
}.

Definition canon (p : string) : string := path.Clean ("/" ++ p).

Definition lookup (w : inventory) (p : string) : option node :=
  find (fun n => String.eqb (n_path n) (canon p)) (nodes w).

Definition byRef (w : inventory) (r : nat) : option node :=
  find (fun n => Nat.eqb (n_ref n) r) (nodes w).

Definition toReference (n : node) (p : string) : Reference :=
  let c := {| moref := n_ref n; InventoryPath := p |} in
  match n_kind n with
  | KFolder => IsFolder c
  | KDatacenter => IsDatacenter c
  | KOther => IsOther c
  end.

Definition findByInventoryPath (w : inventory) (p : string)
  : option Reference * option error :=
  match lookup w p with
  | Some n => (Some (toReference n p), None)
  | None => (None, None)
  end.

Definition datacenterByName (w : inventory) (name : string)
  : option Datacenter * option error :=
  match find (fun n => match n_kind n with
                       | KDatacenter => String.eqb (path.Base (n_path n)) name
                                        || String.eqb (n_path n) name
                       | _ => false
                       end) (nodes w) with
  | Some n => (Some {| moref := n_ref n; InventoryPath := n_path n |}, None)
  | None => (None, Some ("datacenter '" ++ name ++ "' not found"))
  end.

Definition defaultDatacenter (w : inventory) : option Datacenter * option error :=
  match defaultDC w with
  | EmptyString => (None, Some "default datacenter not found")
  | name => datacenterByName w name
  end.

Definition datacenterOrDefault (w : inventory) (name : string) :=
  match name with
  | EmptyString => defaultDatacenter w
  | _ => datacenterByName w name
  end.

(** [c] is a direct child of [p]: [p/x] with no further slash in [x]. *)
Definition isChildOf (p c : string) : bool :=
  String.prefix (p ++ "/") c
  && (strings.LastIndex c "/" =? Z.of_nat (String.length p))%Z.

Definition isBelow (p c : string) : bool := String.prefix (p ++ "/") c.

Definition children (w : inventory) (f : Folder) : list Reference * option error :=
  match byRef w (moref f) with
  | Some n =>
      (map (fun c => toReference c (n_path c))
           (filter (fun c => isChildOf (n_path n) (n_path c)) (nodes w)), None)
  | None => ([], Some "managed object not found")
  end.

Definition createFolder (w : inventory) (parent : Folder) (name : string)
  : inventory * (option Folder * option error) :=
  match byRef w (moref parent) with
  | Some n =>
      if existsb (String.eqb name) (denied w) then
        (w, (None, Some "permission denied"))
      else
        let p := n_path n ++ "/" ++ name in
        match lookup w p with
        | Some _ => (w, (None, Some "duplicate name"))
        | None =>
            ({| nodes := nodes w ++ [{| n_ref := fresh w; n_path := p;
                                        n_kind := KFolder |}];
                fresh := S (fresh w); defaultDC := defaultDC w;
                denied := denied w |},
             (Some {| moref := fresh w; InventoryPath := "" |}, None))
        end
  | None => (w, (None, Some "managed object not found"))
  end.

(** Destroying a folder removes it and everything below it. *)
Definition destroy (w : inventory) (f : Folder)
  : inventory * (option Task * option error) :=
  match byRef w (moref f) with
  | Some n =>
      ({| nodes := filter (fun c => negb (String.eqb (n_path c) (n_path n)
                                          || isBelow (n_path n) (n_path c)))
                          (nodes w);
          fresh := S (fresh w); defaultDC := defaultDC w; denied := denied w |},
       (Some {| task_id := fresh w |}, None))
  | None => (w, (None, Some "managed object not found"))
  end.

Definition wait (w : inventory) (t : Task) : inventory * option error := (w, None).

#[global] Instance service : InventoryService inventory := {|
  finder_DatacenterOrDefault := datacenterOrDefault;
  finder_Datacenter := datacenterByName;
  finder_DefaultDatacenter := defaultDatacenter;
  si_FindByInventoryPath := findByInventoryPath;
  folder_CreateFolder := createFolder;
  folder_Children := children;
  folder_Destroy := destroy;
  task_Wait := wait
|}.

Definition start (w : inventory) : St inventory := {| world := w; calls := [] |}.

(** A datacenter DC0 with its VM root. *)
Definition dcOnly : inventory :=
  {| nodes := [ {| n_ref := 1; n_path := "/DC0"; n_kind := KDatacenter |};
                {| n_ref := 2; n_path := "/DC0/vm"; n_kind := KFolder |} ];
     fresh := 10; defaultDC := "DC0"; denied := [] |}.

(** The same with a folder [a] under the VM root. *)
Definition withA : inventory :=
  {| nodes := nodes dcOnly ++ [ {| n_ref := 3; n_path := "/DC0/vm/a"; n_kind := KFolder |} ];
     fresh := 10; defaultDC := "DC0"; denied := [] |}.

(** The tree [a/b/c] under the VM root. *)
Definition withABC : inventory :=
  {| nodes := nodes withA ++
              [ {| n_ref := 4; n_path := "/DC0/vm/a/b"; n_kind := KFolder |};
                {| n_ref := 5; n_path := "/DC0/vm/a/b/c"; n_kind := KFolder |} ];
     fresh := 10; defaultDC := "DC0"; denied := [] |}.

(** [a/b/c] with a virtual machine [x] next to [c] under [b]. *)
Definition withABCx : inventory :=
  {| nodes := nodes withABC ++
              [ {| n_ref := 6; n_path := "/DC0/vm/a/b/x"; n_kind := KOther |} ];
     fresh := 10; defaultDC := "DC0"; denied := [] |}.

(** The VM root only, on a service that refuses to create a folder [b]. *)
Definition refusesB : inventory :=
  {| nodes := nodes dcOnly; fresh := 10; defaultDC := "DC0"; denied := ["b"] |}.

(** The VM root of DC0, and next to DC0 a top-level folder [vm] whose
    folder [dev] holds a datacenter [team-a]. *)
Definition shadowed : inventory :=
  {| nodes := nodes dcOnly ++
              [ {| n_ref := 7; n_path := "/vm"; n_kind := KFolder |};
                {| n_ref := 8; n_path := "/vm/dev"; n_kind := KFolder |};
                {| n_ref := 9; n_path := "/vm/dev/team-a"; n_kind := KDatacenter |} ];
     fresh := 10; defaultDC := "DC0"; denied := [] |}.

(** A datacenter without a VM root. *)
Definition noVmRoot : inventory :=
  {| nodes := [ {| n_ref := 1; n_path := "/DC0"; n_kind := KDatacenter |} ];
     fresh := 10; defaultDC := "DC0"; denied := [] |}.

End Sim.

Definition mkData (dc p ep : string) : ResourceData :=
  {| d_datacenter := dc; d_path := p; d_existing_path := ep; d_id := "" |}.

(** The objects of the sample inventories, as the lookups of Create and of
    Delete return them. *)
Definition dc0 : Datacenter := {| moref := 1; InventoryPath := "/DC0" |}.
Definition folderA : Folder := {| moref := 3; InventoryPath := "/DC0/vm/a" |}.
(** The first folder a run creates on these inventories. *)
Definition firstCreated : Folder := {| moref := 10; InventoryPath := "" |}.
Definition foundA : Folder := {| moref := 3; InventoryPath := "DC0/vm/a" |}.
Definition foundB : Folder := {| moref := 4; InventoryPath := "DC0/vm/a/b" |}.
Definition foundC : Folder := {| moref := 5; InventoryPath := "DC0/vm/a/b/c" |}.

(** Pruning a/b/c back to a in datacenter DC0. *)
Definition pruneABC : folder :=
  {| datacenter := "DC0"; existingPath := "a"; path := "a/b/c" |}.

(** ** Well-formed folder paths *)

Fixpoint hasSlash (s : string) : bool :=
  match s with
  | EmptyString => false
  | String c r => isSlash c || hasSlash r
  end.

(** A folder name usable as one path element: not empty, without a slash,
    and neither "." nor "..". *)
Definition goodName (s : string) : bool :=
  negb (String.eqb s "") && negb (hasSlash s)
  && negb (String.eqb s ".") && negb (String.eqb s "..").

(** ["/s1/s2/.../sn"]. *)
Fixpoint slashed (segs : list string) : string :=
  match segs with
  | [] => EmptyString
  | s :: r => "/" ++ s ++ slashed r
  end.

(** The relative path with the given elements, ["s1/s2/.../sn"]. *)
Definition relPath (segs : list string) : string := strings.Join segs "/".

(** The inventory path of the object [name] in the container at [p]. *)
Definition child (p name : string) : string := p ++ "/" ++ name.

Notation "p // n" := (child p n) (at level 40, left associativity).

(** The inventory paths from [base] down to [base/s1/.../sn]. *)
Fixpoint pathsDownTo (base : string) (segs : list string) : list string :=
  base :: match segs with
          | [] => []
          | s :: r => pathsDownTo (base // s) r
          end.

(** ** Views of a run used by the further properties *)

Definition isWait (c : Call) : bool :=
  match c with CallWait _ => true | _ => false end.

(** The folder names of the [CreateFolder] calls of a run, in order. *)
Definition createdNames (cs : list Call) : list string :=
  flat_map (fun c => match c with
                     | CallCreateFolder _ n => [n]
                     | _ => []
                     end) cs.

(** The calls Create is made of, and those Delete is made of. *)
Definition createCall (c : Call) : bool := isLookup c || isCreate c.
Definition pruneCall (c : Call) : bool :=
  isLookup c || isChildren c || isDestroy c || isWait c.

(** DC0 with its VM root and a virtual machine [a] under it. *)
Definition withVmA : Sim.inventory :=
  {| Sim.nodes := Sim.nodes Sim.dcOnly ++
                  [ {| Sim.n_ref := 3; Sim.n_path := "/DC0/vm/a"; Sim.n_kind := Sim.KOther |} ];
     Sim.fresh := 10; Sim.defaultDC := "DC0"; Sim.denied := [] |}.

(** DC0 with its VM root and its host folder. *)
Definition withHost : Sim.inventory :=
  {| Sim.nodes := Sim.nodes Sim.dcOnly ++
                  [ {| Sim.n_ref := 3; Sim.n_path := "/DC0/host"; Sim.n_kind := Sim.KFolder |} ];
     Sim.fresh := 10; Sim.defaultDC := "DC0"; Sim.denied := [] |}.

(** A service whose lookups find a folder at a/b/c and nothing at a/b or a,
    and whose folders are empty and can be destroyed: the parent of a
    destroyed folder never resolves. *)
Definition orphan : InventoryService unit := {|
  finder_DatacenterOrDefault := fun _ _ => (Some dc0, None);
  finder_Datacenter := fun _ _ => (Some dc0, None);
  finder_DefaultDatacenter := fun _ => (Some dc0, None);
  si_FindByInventoryPath := fun _ p =>
    if String.eqb p "DC0/vm/a/b/c" then (Some (IsFolder foundC), None)
    else (None, None);
  folder_CreateFolder := fun w _ _ => (w, (None, Some "not supported"));
  folder_Children := fun _ _ => ([], None);
  folder_Destroy := fun w _ => (w, (Some {| task_id := 0 |}, None));
  task_Wait := fun w _ => (w, None)
|}.

(** The same lookups on a service that lets nothing be destroyed. *)
Definition readOnly : InventoryService unit := {|
  finder_DatacenterOrDefault := fun _ _ => (Some dc0, None);
  finder_Datacenter := fun _ _ => (Some dc0, None);
  finder_DefaultDatacenter := fun _ => (Some dc0, None);
  si_FindByInventoryPath := fun _ p =>
    if String.eqb p "DC0/vm/a/b/c" then (Some (IsFolder foundC), None)
    else (None, None);
  folder_CreateFolder := fun w _ _ => (w, (None, Some "not supported"));
  folder_Children := fun _ _ => ([], None);
  folder_Destroy := fun w _ => (w, (None, Some "permission denied"));
  task_Wait := fun w _ => (w, None)
|}.

(** Further objects of the sample inventories, as Create's lookups return
    them. *)
Definition folderC : Folder := {| moref := 5; InventoryPath := "/DC0/vm/a/b/c" |}.
Definition vmA : Reference := IsOther {| moref := 3; InventoryPath := "/DC0/vm/a" |}.
Definition hostFolder : Folder := {| moref := 3; InventoryPath := "/DC0/host" |}.

(** Pruning a/b/c with a recorded boundary that is no prefix of it. *)
Definition pruneOff : folder :=
  {| datacenter := "DC0"; existingPath := "x"; path := "a/b/c" |}.

(** Pruning the path /a, written with a leading slash, back to the boundary
    Create records for it. *)
Definition pruneAbs : folder :=
  {| datacenter := "DC0"; existingPath := ""; path := "/a" |}.

(** DC0 with its host folder and without a VM root. *)
Definition hostNoVm : Sim.inventory :=
  {| Sim.nodes := [ {| Sim.n_ref := 1; Sim.n_path := "/DC0"; Sim.n_kind := Sim.KDatacenter |};
                    {| Sim.n_ref := 3; Sim.n_path := "/DC0/host"; Sim.n_kind := Sim.KFolder |} ];
     Sim.fresh := 10; Sim.defaultDC := "DC0"; Sim.denied := [] |}.

(** Whether the service answers one pass of the prune loop from [s] so that
    the pass reaches the end of the body: no children, the destroy call
    gives a task and no error, the wait gives no error, and the lookup of
    the parent path gives no error and either nothing or a folder. *)
Definition passAnswered {W : Type} {svc : InventoryService W}
           (f : folder) (s : pruneState) (st : St W) : bool :=
  match folder_Children (world st) (cur_folder s) with
  | ([], None) =>
      match folder_Destroy (world st) (cur_folder s) with
      | (w1, (Some t, None)) =>
          match task_Wait w1 t with
          | (w2, None) =>
              match si_FindByInventoryPath w2
                      (datacenter f ++ "/vm/" ++ parentPath (currentPath s)) with
              | (None, None) => true
              | (Some (IsFolder _), None) => true
              | _ => false
              end
          | _ => false
          end
      | _ => false
      end
  | _ => false
  end.

(** * Properties *)

(** ** The Go library model on sample inputs *)

Example clean_t1 : map path.Clean
   ["a/c"; "a//c"; "a/c/."; "a/c/b/.."; "/../a/c"; "/../a/b/../././/c"; "";
    "abc/def/../../.."; "../../abc"; "abc/./../def"; "abc/../../././../def";
    "/"; "//"; "abc/"; ".."; "."; "abc/def/ghi/../jkl"; "/abc/def/../../..";
    "abc/def/../ghi/../jkl"; "/abc/def/../.."; "abc/def/.."; "a/../b:/../../c"]
  = ["a/c"; "a/c"; "a/c"; "a/c"; "/a/c"; "/a/c"; ".";
     ".."; "../../abc"; "def"; "../../def";
     "/"; "/"; "abc"; ".."; "."; "abc/def/jkl"; "/";
     "abc/jkl"; "/"; "abc"; "../c"].
Proof. reflexivity. Qed.

Example dir_t1 : map path.Dir ["a/b/c"; "a/b"; "a"; ""; "/a"; "/"; "a/"; "/a/b/"]
  = ["a/b"; "a"; "."; "."; "/"; "/"; "a"; "/a/b"].
Proof. reflexivity. Qed.

Example join_t1 :
  [filepath.Join ["/DC0"; "vm"]; filepath.Join ["/DC0/vm"; "a/b/c"];
   filepath.Join ["/DC0/vm"; ""]; filepath.Join [""; "a"]; filepath.Join ["a"; "../b"]]
  = ["/DC0/vm"; "/DC0/vm/a/b/c"; "/DC0/vm"; "a"; "b"].
Proof. reflexivity. Qed.

Example trim_t1 : map (fun s => strings.TrimRight s "/") ["a/b/"; "a//"; "/"; ""; "a/b"]
  = ["a/b"; "a"; ""; ""; "a/b"].
Proof. reflexivity. Qed.

Example split_t1 : map filepath.Split ["/DC0/vm/a"; "a"; "a/"; ""]
  = [("/DC0/vm/", "a"); ("", "a"); ("a/", ""); ("", "")].
Proof. reflexivity. Qed.

Example base_t1 : map path.Base ["/DC0"; "/f/DC0/"; ""; "/"; "x"]
  = ["DC0"; "DC0"; "."; "/"; "x"].
Proof. reflexivity. Qed.

(** ** Byte strings: append, length and slices *)

Lemma sapp_nil_r (s : string) : s ++ "" = s.
Proof. induction s; simpl; congruence. Qed.

Lemma sapp_assoc (a b c : string) : (a ++ b) ++ c = a ++ (b ++ c).
Proof. induction a; simpl; congruence. Qed.

Lemma slength_app (a b : string) :
  String.length (a ++ b) = String.length a + String.length b.
Proof. induction a; simpl; congruence. Qed.

Lemma sliceTo_app (a b : string) : sliceTo (a ++ b) (String.length a) = a.
Proof. induction a; simpl; [destruct b; reflexivity | congruence]. Qed.

Lemma sliceFrom_app (a b : string) : sliceFrom (a ++ b) (String.length a) = b.
Proof. induction a; simpl; [destruct b; reflexivity | assumption]. Qed.

(** ** Well-formed names and paths *)

Lemma goodName_spec (s : string) :
  goodName s = true ->
  s <> "" /\ hasSlash s = false /\ s <> "." /\ s <> "..".
Proof.
  unfold goodName. intros H.
  repeat (apply andb_true_iff in H; destruct H as [H ?]).
  repeat match goal with
         | X : negb _ = true |- _ => apply negb_true_iff in X
         end.
  repeat split; try (apply String.eqb_neq; assumption); assumption.
Qed.

Lemma goodName_length (s : string) : goodName s = true -> 1 <= String.length s.
Proof.
  intros H. apply goodName_spec in H. destruct H as [H _].
  destruct s; [congruence | simpl; lia].
Qed.

Lemma hasSlash_app (a b : string) : hasSlash (a ++ b) = hasSlash a || hasSlash b.
Proof. induction a; simpl; [reflexivity | rewrite IHa; apply orb_assoc]. Qed.

Lemma slashed_app (l1 l2 : list string) :
  slashed (l1 ++ l2) = slashed l1 ++ slashed l2.
Proof.
  induction l1 as [|s l1 IH]; simpl; [reflexivity|].
  rewrite IH, sapp_assoc. reflexivity.
Qed.

Lemma relPath_cons (s : string) (r : list string) :
  relPath (s :: r) = s ++ slashed r.
Proof.
  unfold relPath. revert s.
  induction r as [|t r IH]; intros s.
  - simpl. symmetry. apply sapp_nil_r.
  - change (strings.Join (s :: t :: r) "/") with (s ++ "/" ++ strings.Join (t :: r) "/").
    rewrite IH. reflexivity.
Qed.

Lemma relPath_snoc (segs : list string) (s : string) :
  segs <> [] -> relPath (segs ++ [s]) = relPath segs ++ "/" ++ s.
Proof.
  destruct segs as [|t r]; [congruence | intros _].
  change ((t :: r) ++ [s])%list with (t :: (r ++ [s]))%list.
  rewrite !relPath_cons, slashed_app, sapp_assoc. simpl.
  rewrite sapp_nil_r. reflexivity.
Qed.

Lemma slashed_length_ge (segs : list string) :
  Forall (fun s => goodName s = true) segs ->
  2 * List.length segs <= String.length (slashed segs).
Proof.
  induction 1 as [|s r Hs _ IH]; simpl; [lia|].
  rewrite slength_app. apply goodName_length in Hs. lia.
Qed.

Lemma sliceTo_length (s : string) (n : nat) : String.length (sliceTo s n) <= n.
Proof.
  revert s. induction n as [|n IH]; intros [|c r]; simpl; try lia.
  specialize (IH r). lia.
Qed.

(** ** strings.LastIndex and the Split functions on [p/name] *)

Lemma LastIndexByte_cons (a : ascii) (r : string) (c : ascii) :
  strings.LastIndexByte (String a r) c =
  if (0 <=? strings.LastIndexByte r c)%Z then (strings.LastIndexByte r c + 1)%Z
  else if Ascii.eqb a c then 0%Z else (-1)%Z.
Proof. reflexivity. Qed.

Lemma LastIndexByte_lt (s : string) (c : ascii) :
  (strings.LastIndexByte s c < Z.of_nat (String.length s))%Z.
Proof.
  induction s as [|a r IH]; [simpl; lia|].
  rewrite LastIndexByte_cons. simpl String.length. rewrite Nat2Z.inj_succ.
  destruct (0 <=? strings.LastIndexByte r c)%Z; [lia|].
  destruct (Ascii.eqb a c); lia.
Qed.

Lemma LastIndexByte_noSlash (s : string) :
  hasSlash s = false -> strings.LastIndexByte s "/" = (-1)%Z.
Proof.
  induction s as [|a r IH]; simpl; [reflexivity|].
  intros H. apply orb_false_iff in H. destruct H as [Ha Hr].
  rewrite (IH Hr). simpl. unfold isSlash in Ha. rewrite Ha. reflexivity.
Qed.

Lemma LastIndex_last_slash (p name : string) :
  hasSlash name = false ->
  strings.LastIndex (p ++ "/" ++ name) "/" = Z.of_nat (String.length p).
Proof.
  intros H. unfold strings.LastIndex.
  induction p as [|a r IH].
  - simpl. rewrite (LastIndexByte_noSlash _ H). reflexivity.
  - simpl String.length. rewrite Nat2Z.inj_succ.
    change ((String a r ++ "/" ++ name)) with (String a (r ++ "/" ++ name)).
    rewrite LastIndexByte_cons, IH.
    destruct (0 <=? Z.of_nat (String.length r))%Z eqn:E; [lia|].
    apply Z.leb_gt in E. lia.
Qed.

Lemma sliceTo_succ_slash (p rest : string) :
  sliceTo (p ++ "/" ++ rest) (S (String.length p)) = p ++ "/".
Proof.
  replace (S (String.length p)) with (String.length (p ++ "/"))
    by (rewrite slength_app; simpl; lia).
  replace (p ++ "/" ++ rest) with ((p ++ "/") ++ rest)
    by (rewrite sapp_assoc; reflexivity).
  apply sliceTo_app.
Qed.

Lemma sliceFrom_succ_slash (p rest : string) :
  sliceFrom (p ++ "/" ++ rest) (S (String.length p)) = rest.
Proof.
  replace (S (String.length p)) with (String.length (p ++ "/"))
    by (rewrite slength_app; simpl; lia).
  replace (p ++ "/" ++ rest) with ((p ++ "/") ++ rest)
    by (rewrite sapp_assoc; reflexivity).
  apply sliceFrom_app.
Qed.

Lemma filepath_Split_last (p name : string) :
  hasSlash name = false ->
  filepath.Split (p ++ "/" ++ name) = (p ++ "/", name).
Proof.
  intros H. unfold filepath.Split. rewrite (LastIndex_last_slash _ _ H).
  replace (Z.to_nat (Z.of_nat (String.length p) + 1)) with (S (String.length p)) by lia.
  rewrite sliceTo_succ_slash, sliceFrom_succ_slash. reflexivity.
Qed.

Lemma path_Split_last (p name : string) :
  hasSlash name = false ->
  path.Split (p ++ "/" ++ name) = (p ++ "/", name).
Proof. exact (filepath_Split_last p name). Qed.

Lemma path_Split_noSlash (name : string) :
  hasSlash name = false -> path.Split name = ("", name).
Proof.
  intros H. unfold path.Split, strings.LastIndex.
  rewrite (LastIndexByte_noSlash _ H). simpl.
  destruct name; reflexivity.
Qed.

(** ** path.Clean on clean paths *)

Lemma elemSpan_elem (s t : string) :
  hasSlash s = false -> path.endOrSlash t = true ->
  path.elemSpan (s ++ t) = (s, t).
Proof.
  intros Hs Ht. induction s as [|a r IH]; simpl.
  - destruct t as [|c t']; [reflexivity|]. simpl in Ht |- *. rewrite Ht. reflexivity.
  - simpl in Hs. apply orb_false_iff in Hs. destruct Hs as [Ha Hr].
    rewrite Ha, (IH Hr). reflexivity.
Qed.

(** The guards of the first three cases of the loop are false at the start
    of a well-formed name. *)
Lemma goodName_guards (s t : string) :
  goodName s = true ->
  exists c r, s = String c r /\ isSlash c = false
              /\ isDot c && path.endOrSlash (r ++ t) = false
              /\ isDot c && path.dotThenEnd (r ++ t) = false.
Proof.
  intros H. apply goodName_spec in H. destruct H as (Hne & Hns & Hd & Hdd).
  destruct s as [|c r]; [congruence|].
  exists c, r. simpl in Hns. apply orb_false_iff in Hns. destruct Hns as [Hc Hr].
  split; [reflexivity|]. split; [assumption|].
  destruct (isDot c) eqn:Ec; simpl; [|split; reflexivity].
  apply Ascii.eqb_eq in Ec. subst c.
  destruct r as [|c2 r2]; [congruence|].
  simpl in Hr. apply orb_false_iff in Hr. destruct Hr as [Hc2 Hr2].
  split; [simpl; assumption|].
  simpl. destruct (isDot c2) eqn:Ec2; simpl; [|reflexivity].
  apply Ascii.eqb_eq in Ec2. subst c2.
  destruct r2 as [|c3 r3]; [congruence|].
  simpl in Hr2. apply orb_false_iff in Hr2. destruct Hr2 as [Hc3 _].
  simpl. assumption.
Qed.

Lemma cleanLoop_elem (fuel : nat) (rooted : bool) (s t out : string) (dd : nat) :
  goodName s = true -> path.endOrSlash t = true ->
  path.cleanLoop (S fuel) rooted (s ++ t) out dd =
  path.cleanLoop fuel rooted t
    ((if path.slashNeeded rooted out then out ++ "/" else out) ++ s) dd.
Proof.
  intros Hs Ht.
  destruct (goodName_guards s t Hs) as (c & r & -> & Hc & Hg1 & Hg2).
  apply goodName_spec in Hs. destruct Hs as (_ & Hns & _).
  change (String c r ++ t) with (String c (r ++ t)).
  cbn [path.cleanLoop]. rewrite Hc, Hg1, Hg2.
  change (String c (r ++ t)) with (String c r ++ t).
  rewrite (elemSpan_elem _ _ Hns Ht). reflexivity.
Qed.

Lemma cleanLoop_slash (fuel : nat) (rooted : bool) (t out : string) (dd : nat) :
  path.cleanLoop (S fuel) rooted ("/" ++ t) out dd =
  path.cleanLoop fuel rooted t out dd.
Proof. reflexivity. Qed.

(** Once something is written (more than the leading slash of a rooted
    path), every further well-formed element is appended behind a slash;
    an optional trailing slash is dropped. *)
Lemma cleanLoop_slashed (segs : list string) :
  Forall (fun s => goodName s = true) segs ->
  forall (fuel : nat) (rooted trailing : bool) (out : string) (dd : nat),
    path.slashNeeded rooted out = true ->
    2 * List.length segs + (if trailing then 1 else 0) <= fuel ->
    path.cleanLoop fuel rooted (slashed segs ++ (if trailing then "/" else ""))
                   out dd
    = out ++ slashed segs.
Proof.
  induction 1 as [|s r Hs _ IH]; intros fuel rooted trailing out dd Hout Hfuel.
  - rewrite sapp_nil_r. destruct trailing; simpl in *.
    + destruct fuel as [|[|fuel]]; [lia | reflexivity | reflexivity].
    + destruct fuel; reflexivity.
  - simpl List.length in Hfuel.
    destruct fuel as [|[|fuel]]; try lia.
    cbn [slashed]. rewrite !sapp_assoc.
    change ("/" ++ s ++ slashed r ++ (if trailing then "/" else ""))
      with ("/" ++ (s ++ (slashed r ++ (if trailing then "/" else "")))).
    rewrite cleanLoop_slash.
    rewrite cleanLoop_elem; [|assumption|].
    + rewrite Hout, IH.
      * rewrite ?sapp_assoc. reflexivity.
      * unfold path.slashNeeded. rewrite !slength_app. apply goodName_length in Hs.
        destruct rooted; simpl.
        -- destruct (String.length out + 1 + String.length s) as [|[|n]] eqn:E;
             try lia; reflexivity.
        -- destruct (String.length out + 1 + String.length s) as [|n] eqn:E;
             try lia; reflexivity.
      * lia.
    + destruct r as [|s2 r2]; simpl; [destruct trailing|]; reflexivity.
Qed.

(** An absolute path of well-formed elements is its own [Clean], also with
    one trailing slash. *)
Lemma Clean_abs (s : string) (segs : list string) (trailing : bool) :
  Forall (fun s => goodName s = true) (s :: segs) ->
  path.Clean (slashed (s :: segs) ++ (if trailing then "/" else ""))
  = slashed (s :: segs).
Proof.
  intros H. inversion H as [|? ? Hs Hsegs]; subst.
  cbn [slashed]. rewrite !sapp_assoc.
  change ("/" ++ s ++ slashed segs ++ (if trailing then "/" else ""))
    with (String "/" (s ++ (slashed segs ++ (if trailing then "/" else "")))).
  unfold path.Clean. change (isSlash "/") with true. cbv iota.
  cbn [String.length].
  rewrite cleanLoop_elem; [|assumption|].
  - change (path.slashNeeded true "/") with false. cbv iota.
    rewrite cleanLoop_slashed; [| assumption | |].
    + rewrite slength_app, slength_app. simpl.
      apply goodName_length in Hs.
      destruct (String.length s + String.length (slashed segs)) eqn:E; [lia|].
      simpl. reflexivity.
    + unfold path.slashNeeded. simpl. apply goodName_length in Hs.
      destruct (String.length s) eqn:E; [lia | reflexivity].
    + rewrite !slength_app. pose proof (slashed_length_ge segs Hsegs).
      apply goodName_length in Hs. destruct trailing; simpl; lia.
  - destruct segs; simpl; [destruct trailing|]; reflexivity.
Qed.

(** The same for a relative path. *)
Lemma Clean_rel (s : string) (segs : list string) (trailing : bool) :
  Forall (fun s => goodName s = true) (s :: segs) ->
  path.Clean (relPath (s :: segs) ++ (if trailing then "/" else ""))
  = relPath (s :: segs).
Proof.
  intros H. inversion H as [|? ? Hs Hsegs]; subst.
  rewrite relPath_cons, sapp_assoc.
  destruct (goodName_guards s (slashed segs ++ (if trailing then "/" else "")) Hs)
    as (c & r & E & Hc & _).
  unfold path.Clean.
  destruct (s ++ slashed segs ++ (if trailing then "/" else "")) as [|c' r'] eqn:Ep.
  { subst s. discriminate. }
  assert (c' = c) by (subst s; simpl in Ep; congruence). subst c'.
  rewrite Hc. rewrite <- Ep.
  assert (Hlen : String.length (s ++ slashed segs ++ (if trailing then "/" else ""))
                 = S (String.length r + String.length (slashed segs ++ (if trailing then "/" else "")))).
  { subst s. simpl. rewrite slength_app. reflexivity. }
  rewrite Hlen.
  rewrite cleanLoop_elem; [|assumption|].
  - change (path.slashNeeded false "") with false. cbv iota.
    change ("" ++ s) with s.
    rewrite cleanLoop_slashed; [| assumption | |].
    + rewrite slength_app. apply goodName_length in Hs.
      destruct (String.length s + String.length (slashed segs)) eqn:E'; [lia|].
      reflexivity.
    + unfold path.slashNeeded. simpl. apply goodName_length in Hs.
      destruct (String.length s) eqn:E'; [lia | reflexivity].
    + rewrite slength_app. pose proof (slashed_length_ge segs Hsegs).
      destruct trailing; simpl; lia.
  - destruct segs; simpl; [destruct trailing|]; reflexivity.
Qed.

(** ** filepath.Join and the parent path on well-formed paths *)

Lemma slashed_snoc (l : list string) (s : string) :
  slashed (l ++ [s]) = slashed l // s.
Proof.
  unfold child. rewrite slashed_app. simpl. rewrite sapp_nil_r. reflexivity.
Qed.

Lemma Forall_goodName_app (l1 l2 : list string) :
  Forall (fun s => goodName s = true) l1 ->
  Forall (fun s => goodName s = true) l2 ->
  Forall (fun s => goodName s = true) (l1 ++ l2).
Proof. intros H1 H2. apply Forall_app. split; assumption. Qed.

Lemma Join_abs_rel (d : string) (ds segs : list string) :
  Forall (fun s => goodName s = true) (d :: ds) ->
  Forall (fun s => goodName s = true) segs ->
  filepath.Join [slashed (d :: ds); relPath segs] = slashed ((d :: ds) ++ segs).
Proof.
  intros Hd Hs.
  change (filepath.Join [slashed (d :: ds); relPath segs])
    with (path.Clean (slashed (d :: ds) ++ "/" ++ relPath segs)).
  destruct segs as [|s r].
  - rewrite app_nil_r. exact (Clean_abs d ds true Hd).
  - rewrite relPath_cons.
    change ("/" ++ s ++ slashed r) with (slashed (s :: r)).
    rewrite <- slashed_app.
    pose proof (Clean_abs d (ds ++ s :: r) false) as HC.
    rewrite sapp_nil_r in HC. apply HC.
    exact (Forall_goodName_app (d :: ds) (s :: r) Hd Hs).
Qed.

Lemma eqb_length_neq (a b : string) :
  String.length a <> String.length b -> String.eqb a b = false.
Proof. intros H. apply String.eqb_neq. intros ->. apply H. reflexivity. Qed.

Lemma relPath_not_dot (s : string) (r : list string) :
  goodName s = true -> String.eqb (relPath (s :: r)) "." = false.
Proof.
  intros Hs. apply String.eqb_neq. rewrite relPath_cons. intros E.
  apply goodName_spec in Hs. destruct Hs as (Hne & _ & Hd & _).
  destruct s as [|c [|c2 s2]]; try congruence.
  - simpl in E. destruct r; simpl in E; [congruence | discriminate].
  - simpl in E. discriminate.
Qed.

(** The parent of a well-formed relative path, as the prune loop computes
    it, is the path without its last element. *)
Lemma parentPath_snoc (segs : list string) (s : string) :
  Forall (fun s => goodName s = true) segs -> goodName s = true ->
  parentPath (relPath (segs ++ [s])) = relPath segs.
Proof.
  intros Hsegs Hs. unfold parentPath, path.Dir.
  pose proof (goodName_spec s Hs) as (_ & Hns & _).
  destruct segs as [|t r].
  - change (relPath ([] ++ [s])) with s.
    rewrite (path_Split_noSlash s Hns). reflexivity.
  - rewrite relPath_snoc by discriminate.
    rewrite (path_Split_last _ _ Hns).
    rewrite (Clean_rel t r true Hsegs).
    inversion Hsegs; subst.
    rewrite relPath_not_dot by assumption. reflexivity.
Qed.

Lemma relPath_snoc_longer (segs : list string) (s : string) :
  goodName s = true ->
  String.length (relPath segs) < String.length (relPath (segs ++ [s])).
Proof.
  intros Hs. apply goodName_length in Hs.
  destruct segs as [|t r].
  - simpl. change (relPath [s]) with s. lia.
  - rewrite relPath_snoc by discriminate. rewrite !slength_app. simpl. lia.
Qed.

Lemma slashed_fold_child (segs : list string) :
  forall l, slashed (l ++ segs) = fold_left child segs (slashed l).
Proof.
  induction segs as [|s r IH]; intros l.
  - rewrite app_nil_r. reflexivity.
  - change (l ++ s :: r)%list with (l ++ [s] ++ r)%list.
    rewrite app_assoc, IH, slashed_snoc. reflexivity.
Qed.

(** The absolute path [createFolder] starts its lookups from. *)
Lemma createFolder_path (dcPath d : string) (ds segs : list string) :
  Forall (fun s => goodName s = true) (d :: ds) ->
  Forall (fun s => goodName s = true) segs ->
  dcPath = slashed (d :: ds) ->
  filepath.Join [dcPath; "vm"] = dcPath // "vm"
  /\ filepath.ToSlash (filepath.Join [filepath.Join [dcPath; "vm"]; relPath segs])
     = fold_left child segs (dcPath // "vm").
Proof.
  intros Hd Hs ->.
  assert (Hvm : Forall (fun s => goodName s = true) ["vm"])
    by (repeat constructor).
  assert (Hb : filepath.Join [slashed (d :: ds); "vm"] = slashed (d :: ds) // "vm").
  { change "vm" with (relPath ["vm"]) at 1.
    rewrite (Join_abs_rel d ds ["vm"] Hd Hvm). apply slashed_snoc. }
  split; [exact Hb|].
  rewrite Hb. unfold filepath.ToSlash.
  rewrite <- slashed_snoc.
  change ((d :: ds) ++ ["vm"])%list with (d :: (ds ++ ["vm"]))%list.
  rewrite Join_abs_rel;
    [apply slashed_fold_child | | assumption].
  exact (Forall_goodName_app (d :: ds) ["vm"] Hd Hvm).
Qed.

Lemma fold_child_snoc (segs : list string) (s base : string) :
  fold_left child (segs ++ [s]) base = fold_left child segs base // s.
Proof. rewrite fold_left_app. reflexivity. Qed.

Lemma fold_child_length (segs : list string) :
  forall base, String.length base <= String.length (fold_left child segs base).
Proof.
  induction segs as [|s r IH]; intros base; simpl; [lia|].
  specialize (IH (base // s)).
  assert (String.length (base // s) = String.length base + 1 + String.length s)
    by (unfold child; rewrite !slength_app; simpl; lia).
  lia.
Qed.

Lemma pathsDownTo_snoc (segs : list string) (s : string) :
  forall base,
    pathsDownTo base (segs ++ [s])
    = (pathsDownTo base segs ++ [fold_left child (segs ++ [s]) base])%list.
Proof.
  induction segs as [|t r IH]; intros base; simpl; [reflexivity|].
  rewrite IH. reflexivity.
Qed.

Lemma folder_of_data (dcv ep p : string) :
  (let '(v, ok) := GetOk dcv in
   if ok then {| datacenter := v; existingPath := ep; path := p |}
   else {| datacenter := ""; existingPath := ep; path := p |})
  = {| datacenter := dcv; existingPath := ep; path := p |}.
Proof.
  unfold GetOk. destruct (String.eqb_spec dcv ""); simpl; [subst|]; reflexivity.
Qed.

Lemma child_length (p n : string) :
  String.length (p // n) = String.length p + 1 + String.length n.
Proof. unfold child. rewrite !slength_app. simpl. lia. Qed.

Lemma firstn_snoc_nth (segs : list string) :
  forall j, j < List.length segs ->
            firstn (S j) segs = (firstn j segs ++ [nth j segs ""])%list.
Proof.
  induction segs as [|s r IH]; intros j Hj; simpl in Hj; [lia|].
  destruct j as [|j]; [reflexivity|].
  change (firstn (S (S j)) (s :: r)) with (s :: firstn (S j) r).
  rewrite IH by lia. reflexivity.
Qed.

Lemma Forall_goodName_firstn (segs : list string) (j : nat) :
  Forall (fun s => goodName s = true) segs ->
  Forall (fun s => goodName s = true) (firstn j segs).
Proof.
  intros H. revert j. induction H as [|s r Hs _ IH]; intros [|j]; simpl;
    constructor; auto.
Qed.

Lemma goodName_nth (segs : list string) (j : nat) :
  Forall (fun s => goodName s = true) segs -> j < List.length segs ->
  goodName (nth j segs "") = true.
Proof.
  intros H Hj. rewrite Forall_forall in H. apply H. apply nth_In. exact Hj.
Qed.

(** The parent of the path with [S j] elements is the path with [j]
    elements, and it is strictly shorter. *)
Lemma parentPath_firstn (segs : list string) (j : nat) :
  Forall (fun s => goodName s = true) segs -> j < List.length segs ->
  parentPath (relPath (firstn (S j) segs)) = relPath (firstn j segs)
  /\ String.length (relPath (firstn j segs))
     < String.length (relPath (firstn (S j) segs)).
Proof.
  intros H Hj. rewrite firstn_snoc_nth by exact Hj. split.
  - apply parentPath_snoc;
      [apply Forall_goodName_firstn | apply goodName_nth]; assumption.
  - apply relPath_snoc_longer, goodName_nth; assumption.
Qed.

Lemma relPath_firstn_lt (segs : list string) (i : nat) :
  Forall (fun s => goodName s = true) segs ->
  forall m, i + S m <= List.length segs ->
    String.length (relPath (firstn i segs))
    < String.length (relPath (firstn (i + S m) segs)).
Proof.
  intros H. induction m as [|m IH]; intros Hle.
  - replace (i + 1) with (S i) by lia. apply parentPath_firstn; [assumption | lia].
  - replace (i + S (S m)) with (S (i + S m)) by lia.
    pose proof (parentPath_firstn segs (i + S m) H ltac:(lia)) as [_ Hlt].
    specialize (IH ltac:(lia)). lia.
Qed.

(** ** Running the resource: one lemma per way through a loop body *)

Ltac unfold_calls :=
  unfold FindByInventoryPath, CreateFolder, Children, Destroy, Wait,
    DatacenterOrDefault, FinderDatacenter, DefaultDatacenter, query, command.

Section Runs.

Context {W : Type} {svc : InventoryService W}.

Implicit Types (st : St W) (dc : Datacenter) (f : folder).

Lemma resolve_found fuel dc base p folders st r :
  si_FindByInventoryPath (world st) p = (Some r, None) ->
  createFolder_resolve (S fuel) dc base p folders st
  = (Returns (inr (r, folders)), logged (CallFindByInventoryPath p) st).
Proof.
  intros H. cbn [createFolder_resolve]. unfold bind. unfold_calls.
  rewrite H. reflexivity.
Qed.

Lemma resolve_error fuel dc base p folders st r e :
  si_FindByInventoryPath (world st) p = (r, Some e) ->
  createFolder_resolve (S fuel) dc base p folders st
  = (Returns (inl ("error " ++ e)), logged (CallFindByInventoryPath p) st).
Proof.
  intros H. cbn [createFolder_resolve]. unfold bind. unfold_calls.
  rewrite H. reflexivity.
Qed.

Lemma resolve_absent fuel dc base p name folders st :
  si_FindByInventoryPath (world st) (p // name) = (None, None) ->
  hasSlash name = false ->
  String.eqb p (InventoryPath dc) = false ->
  createFolder_resolve (S fuel) dc base (p // name) folders st
  = createFolder_resolve fuel dc base p (folders ++ [name])
      (logged (CallFindByInventoryPath (p // name)) st).
Proof.
  intros H Hn Hne. cbn [createFolder_resolve]. unfold bind at 1. unfold_calls.
  rewrite H. cbv beta iota. unfold child.
  rewrite (filepath_Split_last _ _ Hn), (LastIndex_last_slash _ _ Hn).
  destruct (Z.of_nat (String.length p) <? 0)%Z eqn:E;
    [apply Z.ltb_lt in E; lia|].
  rewrite Nat2Z.id, sliceTo_app, Hne. reflexivity.
Qed.

Lemma resolve_absent_base fuel dc base name folders st :
  si_FindByInventoryPath (world st) (InventoryPath dc // name) = (None, None) ->
  hasSlash name = false ->
  createFolder_resolve (S fuel) dc base (InventoryPath dc // name) folders st
  = (Returns (inl ("vSphere base path " ++ filepath.ToSlash base ++ " not found")),
     logged (CallFindByInventoryPath (InventoryPath dc // name)) st).
Proof.
  intros H Hn. cbn [createFolder_resolve]. unfold bind at 1. unfold_calls.
  rewrite H. cbv beta iota. unfold child.
  rewrite (filepath_Split_last _ _ Hn), (LastIndex_last_slash _ _ Hn).
  destruct (Z.of_nat (String.length (InventoryPath dc)) <? 0)%Z eqn:E;
    [apply Z.ltb_lt in E; lia|].
  rewrite Nat2Z.id, sliceTo_app, String.eqb_refl. reflexivity.
Qed.

Lemma create_ok folders i root st w' r' :
  folder_CreateFolder (world st) root (nth i folders "") = (w', (Some r', None)) ->
  createFolder_create folders (S i) (Some root) st
  = createFolder_create folders i (Some r')
      {| world := w'; calls := calls st ++ [CallCreateFolder root (nth i folders "")] |}.
Proof.
  intros H. cbn [createFolder_create]. unfold bind, deref, ret. unfold_calls.
  rewrite H. reflexivity.
Qed.

Lemma create_fails_nil folders i root st w' e :
  folder_CreateFolder (world st) root (nth i folders "") = (w', (None, Some e)) ->
  createFolder_create folders (S i) (Some root) st
  = (Panics "runtime error: invalid memory address or nil pointer dereference",
     {| world := w'; calls := calls st ++ [CallCreateFolder root (nth i folders "")] |}).
Proof.
  intros H. cbn [createFolder_create]. unfold bind, deref, ret, panic. unfold_calls.
  rewrite H. reflexivity.
Qed.

Lemma create_fails_with folders i root st w' r e :
  folder_CreateFolder (world st) root (nth i folders "") = (w', (Some r, Some e)) ->
  createFolder_create folders (S i) (Some root) st
  = (Returns (Some ("Failed to create folder at " ++ InventoryPath r ++ "; " ++ e)),
     {| world := w'; calls := calls st ++ [CallCreateFolder root (nth i folders "")] |}).
Proof.
  intros H. cbn [createFolder_create]. unfold bind, deref, ret. unfold_calls.
  rewrite H. reflexivity.
Qed.

(** One pass of the resolve loop, with the monad unfolded. *)
Lemma resolve_unfold fuel dc base p folders st :
  createFolder_resolve (S fuel) dc base p folders st =
  let st1 := logged (CallFindByInventoryPath p) st in
  match si_FindByInventoryPath (world st) p with
  | (_, Some e) => (Returns (inl ("error " ++ e)), st1)
  | (Some r, None) => (Returns (inr (r, folders)), st1)
  | (None, None) =>
      if (strings.LastIndex p "/" <? 0)%Z then
        (Panics "runtime error: slice bounds out of range", st1)
      else
        let p' := sliceTo p (Z.to_nat (strings.LastIndex p "/")) in
        if String.eqb p' (InventoryPath dc) then
          (Returns (inl ("vSphere base path " ++ filepath.ToSlash base
                           ++ " not found")), st1)
        else
          createFolder_resolve fuel dc base p'
            (folders ++ [snd (filepath.Split p)]) st1
  end.
Proof.
  cbn [createFolder_resolve]. unfold bind at 1. unfold_calls.
  destruct (si_FindByInventoryPath (world st) p) as [[r|] [e|]];
    cbv beta iota zeta; try reflexivity.
  destruct (filepath.Split p) as [dir name].
  destruct (strings.LastIndex p "/" <? 0)%Z; [reflexivity|].
  destruct (String.eqb _ _); reflexivity.
Qed.

(** More fuel does not change a run of the resolve loop that ended. *)
Lemma resolve_fuel_mono fuel :
  forall fuel' dc base p folders st,
    fuel <= fuel' ->
    fst (createFolder_resolve fuel dc base p folders st) <> OutOfFuel ->
    createFolder_resolve fuel' dc base p folders st
    = createFolder_resolve fuel dc base p folders st.
Proof.
  induction fuel as [|fuel IH]; intros fuel' dc base p folders st Hle Hne.
  - exfalso. apply Hne. reflexivity.
  - destruct fuel' as [|fuel']; [lia|].
    revert Hne. rewrite !resolve_unfold. cbv zeta.
    destruct (si_FindByInventoryPath (world st) p) as [[r|] [e|]];
      try reflexivity.
    destruct (strings.LastIndex p "/" <? 0)%Z; [reflexivity|].
    destruct (String.eqb _ _); [reflexivity|].
    intros Hne. apply IH; [lia | assumption].
Qed.

(** The resolve loop ends: each pass that goes on cuts the path before its
    last slash. *)
Lemma resolve_total fuel :
  forall dc base p folders st,
    String.length p < fuel ->
    fst (createFolder_resolve fuel dc base p folders st) <> OutOfFuel.
Proof.
  induction fuel as [|fuel IH]; intros dc base p folders st Hlen; [lia|].
  rewrite resolve_unfold. cbv zeta.
  destruct (si_FindByInventoryPath (world st) p) as [[r|] [e|]];
    try (simpl; discriminate).
  destruct (strings.LastIndex p "/" <? 0)%Z eqn:E; [simpl; discriminate|].
  destruct (String.eqb _ _); [simpl; discriminate|].
  apply IH. apply Z.ltb_ge in E.
  pose proof (LastIndexByte_lt p "/") as Hlt. unfold strings.LastIndex in *.
  pose proof (sliceTo_length p (Z.to_nat (strings.LastIndexByte p "/"))).
  lia.
Qed.

Ltac path_neq :=
  apply eqb_length_neq; rewrite ?child_length; lia.

(** ** Creation order (P2) *)

(** For a desired path a/b/c of which only a exists, [createFolder] looks up
    a/b/c, a/b and a, then creates b on the folder found at a and c on the
    folder the first creation returned, whatever the second creation
    answers. *)
Lemma createFolder_root_to_leaf
    (w w1 w2 : W) (dcName d : string) (ds : list string) (dc : Datacenter)
    (a b c : string) (fa fb : Folder) (r2 : option Folder * option error) :
  Forall (fun s => goodName s = true) (d :: ds) ->
  goodName a = true -> goodName b = true -> goodName c = true ->
  InventoryPath dc = slashed (d :: ds) ->
  finder_DatacenterOrDefault w dcName = (Some dc, None) ->
  si_FindByInventoryPath w (InventoryPath dc // "vm" // a // b // c) = (None, None) ->
  si_FindByInventoryPath w (InventoryPath dc // "vm" // a // b) = (None, None) ->
  si_FindByInventoryPath w (InventoryPath dc // "vm" // a) = (Some (IsFolder fa), None) ->
  folder_CreateFolder w fa b = (w1, (Some fb, None)) ->
  folder_CreateFolder w1 fb c = (w2, r2) ->
  let run := createFolder {| datacenter := dcName; existingPath := "";
                             path := a ++ "/" ++ b ++ "/" ++ c |}
                          {| world := w; calls := [] |} in
  calls (snd run)
  = [ CallDatacenterOrDefault dcName;
      CallFindByInventoryPath (InventoryPath dc // "vm" // a // b // c);
      CallFindByInventoryPath (InventoryPath dc // "vm" // a // b);
      CallFindByInventoryPath (InventoryPath dc // "vm" // a);
      CallCreateFolder fa b;
      CallCreateFolder fb c ]
  /\ filter isCreate (calls (snd run)) = [CallCreateFolder fa b; CallCreateFolder fb c]
  /\ world (snd run) = w2.
Proof.
  intros Hd Ha Hb Hc Hpath Hdc H3 H2 H1 Hcb Hcc run.
  assert (Hsegs : Forall (fun s => goodName s = true) [a; b; c])
    by (repeat constructor; assumption).
  destruct (createFolder_path (InventoryPath dc) d ds [a; b; c] Hd Hsegs Hpath)
    as [Ebase Ep].
  cbn [fold_left] in Ep.
  pose proof (goodName_spec a Ha) as (_ & Hna & _).
  pose proof (goodName_spec b Hb) as (_ & Hnb & _).
  pose proof (goodName_spec c Hc) as (_ & Hnc & _).
  set (st0 := logged (CallDatacenterOrDefault dcName) {| world := w; calls := [] |}).
  assert (R : createFolder_resolve 3 dc (InventoryPath dc // "vm")
                (InventoryPath dc // "vm" // a // b // c) [] st0
              = (Returns (inr (IsFolder fa, [c; b])),
                 {| world := w;
                    calls := [ CallDatacenterOrDefault dcName;
                               CallFindByInventoryPath (InventoryPath dc // "vm" // a // b // c);
                               CallFindByInventoryPath (InventoryPath dc // "vm" // a // b);
                               CallFindByInventoryPath (InventoryPath dc // "vm" // a) ] |})).
  { rewrite resolve_absent; [| exact H3 | exact Hnc | path_neq].
    rewrite resolve_absent; [| exact H2 | exact Hnb | path_neq].
    rewrite resolve_found with (r := IsFolder fa); [reflexivity | exact H1]. }
  assert (Run : run = bind (createFolder_create [c; b] 2 (Some fa))
                        (fun err => ret ({| datacenter := dcName; existingPath := "";
                                            path := a ++ "/" ++ b ++ "/" ++ c |}, err))
                        {| world := w;
                           calls := [ CallDatacenterOrDefault dcName;
                               CallFindByInventoryPath (InventoryPath dc // "vm" // a // b // c);
                               CallFindByInventoryPath (InventoryPath dc // "vm" // a // b);
                               CallFindByInventoryPath (InventoryPath dc // "vm" // a) ] |}).
  { subst run. unfold createFolder. unfold bind at 1. unfold_calls.
    cbn [world datacenter path]. rewrite Hdc. cbv beta iota zeta.
    unfold bind at 1. unfold deref at 1, ret at 1. cbv beta iota zeta.
    change (a ++ "/" ++ b ++ "/" ++ c) with (relPath [a; b; c]).
    rewrite Ep, Ebase.
    unfold bind at 1.
    rewrite (resolve_fuel_mono 3);
      [ | rewrite !child_length; lia | fold st0; rewrite R; discriminate ].
    fold st0. rewrite R. cbv beta iota.
    unfold bind at 1. unfold assertFolder, ret at 1. reflexivity. }
  assert (Fin : snd run
                = {| world := w2;
                     calls := [ CallDatacenterOrDefault dcName;
                                CallFindByInventoryPath (InventoryPath dc // "vm" // a // b // c);
                                CallFindByInventoryPath (InventoryPath dc // "vm" // a // b);
                                CallFindByInventoryPath (InventoryPath dc // "vm" // a);
                                CallCreateFolder fa b;
                                CallCreateFolder fb c ] |}).
  { rewrite Run. unfold bind at 1.
    rewrite (create_ok [c; b] 1 fa _ w1 fb) by exact Hcb.
    cbn [calls app world].
    cbn [createFolder_create]. unfold bind, deref, ret. unfold_calls.
    cbn [world nth calls app]. rewrite Hcc.
    destruct r2 as [[fc|] [e|]]; reflexivity. }
  rewrite Fin. cbn [calls world]. repeat split.
Qed.

(** ** Missing VM root (P6) *)

Lemma resolve_vm_root_absent dc base (segs : list string) :
  Forall (fun s => goodName s = true) segs ->
  forall folders st fuel,
    S (List.length segs) <= fuel ->
    Forall (fun p => si_FindByInventoryPath (world st) p = (None, None))
           (pathsDownTo (InventoryPath dc // "vm") segs) ->
    exists tr,
      createFolder_resolve fuel dc base
        (fold_left child segs (InventoryPath dc // "vm")) folders st
      = (Returns (inl ("vSphere base path " ++ filepath.ToSlash base ++ " not found")),
         {| world := world st; calls := calls st ++ tr |})
      /\ forallb isLookup tr = true.
Proof.
  induction segs as [|s segs IH] using rev_ind; intros Hgood folders st fuel Hfuel Habs.
  - destruct fuel as [|fuel]; [lia|]. cbn [fold_left].
    exists [CallFindByInventoryPath (InventoryPath dc // "vm")].
    split; [|reflexivity].
    apply resolve_absent_base; [|reflexivity].
    inversion Habs; assumption.
  - apply Forall_app in Hgood. destruct Hgood as [Hsegs Hs].
    inversion Hs as [|? ? Hs' _]; subst.
    pose proof (goodName_spec s Hs') as (_ & Hns & _).
    rewrite pathsDownTo_snoc in Habs. apply Forall_app in Habs.
    destruct Habs as [Hrest Hlast]. inversion Hlast as [|? ? Hl _]; subst.
    rewrite fold_child_snoc in Hl |- *.
    rewrite length_app in Hfuel. simpl in Hfuel.
    destruct fuel as [|fuel]; [lia|].
    rewrite resolve_absent; [| exact Hl | exact Hns | ].
    + destruct (IH Hsegs (folders ++ [s])%list
                   (logged (CallFindByInventoryPath
                              (fold_left child segs (InventoryPath dc // "vm") // s)) st)
                   fuel) as (tr & E & Htr); [lia | exact Hrest |].
      exists (CallFindByInventoryPath
                (fold_left child segs (InventoryPath dc // "vm") // s) :: tr).
      split; [|exact Htr].
      rewrite E. cbn [logged world calls]. rewrite <- app_assoc. reflexivity.
    + apply eqb_length_neq.
      pose proof (fold_child_length segs (InventoryPath dc // "vm")) as Hl'.
      rewrite child_length in Hl'. lia.
Qed.

(** C6, for a path that stays under the VM root. When the path, joined to
    the VM root and cleaned as line 85 does, lies at or below the VM root
    (it is the VM root followed by the folder names [segs]), and the VM
    root, and with it every path below it on the way to the desired folder,
    is not found, Create returns the error that names the missing base
    path, leaves the resource data and the inventory as they were, and
    issues lookups only: no [CreateFolder] call. Every path made of folder
    names is such a path ([createFolder_path]). *)
Theorem create_fails_without_vm_root
    (w : W) (d : ResourceData) (dc : Datacenter) (dn : string)
    (ds segs : list string) :
  Forall (fun s => goodName s = true) (dn :: ds) ->
  Forall (fun s => goodName s = true) segs ->
  InventoryPath dc = slashed (dn :: ds) ->
  filepath.ToSlash
    (filepath.Join [filepath.Join [InventoryPath dc; "vm"];
                    strings.TrimRight (d_path d) "/"])
  = fold_left child segs (InventoryPath dc // "vm") ->
  finder_DatacenterOrDefault w (d_datacenter d) = (Some dc, None) ->
  Forall (fun p => si_FindByInventoryPath w p = (None, None))
         (pathsDownTo (InventoryPath dc // "vm") segs) ->
  let run := resourceVSphereFolderCreate d {| world := w; calls := [] |} in
  fst run = Returns (d, Some ("vSphere base path " ++ (InventoryPath dc // "vm")
                                ++ " not found"))
  /\ world (snd run) = w
  /\ filter isCreate (calls (snd run)) = []
  /\ forallb isLookup (calls (snd run)) = true.
Proof.
  intros Hd Hsegs Hpath Ep Hdc Habs run.
  destruct (createFolder_path (InventoryPath dc) dn ds [] Hd (Forall_nil _) Hpath)
    as [Ebase _].
  set (st0 := logged (CallDatacenterOrDefault (d_datacenter d))
                     {| world := w; calls := [] |}).
  destruct (resolve_vm_root_absent dc (InventoryPath dc // "vm") segs Hsegs [] st0
              (S (String.length (fold_left child segs (InventoryPath dc // "vm")))))
    as (tr & E & Htr).
  { pose proof (slashed_length_ge segs Hsegs).
    assert (String.length (slashed segs)
            <= String.length (fold_left child segs (InventoryPath dc // "vm"))).
    { rewrite Hpath, <- slashed_snoc, <- slashed_fold_child, slashed_app, slength_app. lia. }
    lia. }
  { exact Habs. }
  assert (Run : run = (Returns (d, Some ("vSphere base path " ++ (InventoryPath dc // "vm")
                                           ++ " not found")),
                       {| world := w; calls := CallDatacenterOrDefault (d_datacenter d) :: tr |})).
  { subst run. unfold resourceVSphereFolderCreate.
    rewrite folder_of_data.
    unfold bind at 1. unfold createFolder. unfold bind at 1. unfold_calls.
    cbn [world datacenter path]. rewrite Hdc. cbv beta iota zeta.
    unfold bind at 1. unfold deref at 1, ret at 1. cbv beta iota zeta.
    rewrite Ep, Ebase. unfold bind at 1. fold st0. rewrite E.
    reflexivity. }
  rewrite Run. cbn [fst snd world calls]. repeat split.
  - clear - Htr. induction tr as [|c tr IH]; [reflexivity|].
    simpl in Htr. apply andb_true_iff in Htr. destruct Htr as [Hc Ht].
    simpl. destruct c; simpl in Hc; try discriminate; simpl; auto.
  - simpl. exact Htr.
Qed.

End Runs.

(** ** The prune loop *)

Section Prune.

Context {W : Type} {svc : InventoryService W}.

Implicit Types (st : St W) (f : folder) (s : pruneState).

Lemma getDatacenter_run name st :
  getDatacenter name st
  = (Returns (lookupDatacenter (world st) name), logged (datacenterCall name) st).
Proof.
  unfold getDatacenter, lookupDatacenter, datacenterCall.
  destruct (negb (String.eqb name "")); reflexivity.
Qed.

(** A pass on an empty folder whose destruction succeeds, the parent path
    resolving to a folder. *)
Lemma body_pass f s st w1 w2 t fo :
  folder_Children (world st) (cur_folder s) = ([], None) ->
  folder_Destroy (world st) (cur_folder s) = (w1, (Some t, None)) ->
  task_Wait w1 t = (w2, None) ->
  si_FindByInventoryPath w2 (datacenter f ++ "/vm/" ++ parentPath (currentPath s))
  = (Some (IsFolder fo), None) ->
  deleteFolder_body f s st
  = (Returns (inl {| cur_folder := fo; currentPath := parentPath (currentPath s) |}),
     {| world := w2;
        calls := calls st ++
                 [ CallChildren (cur_folder s); CallDestroy (cur_folder s); CallWait t;
                   CallFindByInventoryPath
                     (datacenter f ++ "/vm/" ++ parentPath (currentPath s)) ] |}).
Proof.
  intros Hc Hd Hw Hf.
  unfold deleteFolder_body, bind, deref, assertFolder, ret. unfold_calls.
  cbn [world calls logged]. rewrite Hc.
  change (0 <? List.length (@nil Reference))%nat with false.
  cbv beta iota. cbn [world calls logged]. rewrite Hd.
  cbv beta iota. cbn [world calls logged]. rewrite Hw.
  cbv beta iota. cbn [world calls logged]. rewrite Hf.
  cbv beta iota. unfold logged. cbn [world calls]. rewrite <- !app_assoc. reflexivity.
Qed.

(** A pass on a folder that has children. *)
Lemma body_nonempty f s st c cs :
  folder_Children (world st) (cur_folder s) = (c :: cs, None) ->
  deleteFolder_body f s st
  = (Returns (inr (Some ("Folder " ++ currentPath s
                           ++ " is non-empty and will not be deleted"))),
     logged (CallChildren (cur_folder s)) st).
Proof.
  intros Hc. unfold deleteFolder_body, bind, ret. unfold_calls.
  rewrite Hc. reflexivity.
Qed.

Lemma loop_done fuel f s st :
  String.eqb (currentPath s) (existingPath f) = true ->
  deleteFolder_loop fuel f s st = (Returns None, st).
Proof. intros H. destruct fuel; cbn [deleteFolder_loop]; rewrite H; reflexivity. Qed.

Lemma loop_unfold fuel f s st :
  String.eqb (currentPath s) (existingPath f) = false ->
  deleteFolder_loop (S fuel) f s st
  = match deleteFolder_body f s st with
    | (Returns (inl s'), st') => deleteFolder_loop fuel f s' st'
    | (Returns (inr e), st') => (Returns e, st')
    | (Panics m, st') => (Panics m, st')
    | (OutOfFuel, st') => (OutOfFuel, st')
    end.
Proof.
  intros H. cbn [deleteFolder_loop]. rewrite H. unfold bind.
  destruct (deleteFolder_body f s st) as [[[s'|e]|m|] st']; reflexivity.
Qed.

Lemma deleteFolder_found fuel f st odc fo :
  lookupDatacenter (world st) (datacenter f) = (odc, None) ->
  si_FindByInventoryPath (world st) (datacenter f ++ "/vm/" ++ path f)
  = (Some (IsFolder fo), None) ->
  deleteFolder fuel f st
  = deleteFolder_loop fuel f {| cur_folder := fo; currentPath := path f |}
      {| world := world st;
         calls := calls st ++
                  [ datacenterCall (datacenter f);
                    CallFindByInventoryPath (datacenter f ++ "/vm/" ++ path f) ] |}.
Proof.
  intros Hdc Hf. unfold deleteFolder. unfold bind at 1.
  rewrite getDatacenter_run, Hdc. unfold bind at 1. unfold_calls.
  unfold logged. cbn [world calls]. rewrite Hf. unfold bind at 1, assertFolder, ret.
  rewrite <- app_assoc. reflexivity.
Qed.

(** [resourceVSphereFolderDelete] with the monad unfolded, up to the loop. *)
Lemma delete_unfold fuel (d : ResourceData) st :
  resourceVSphereFolderDelete fuel d st =
  let f := {| datacenter := d_datacenter d; existingPath := d_existing_path d;
              path := strings.TrimRight (d_path d) "/" |} in
  let lookupPath := d_datacenter d ++ "/vm/" ++ strings.TrimRight (d_path d) "/" in
  let st1 := {| world := world st;
                calls := calls st ++ [datacenterCall (d_datacenter d)] |} in
  let st2 := {| world := world st;
                calls := calls st ++ [datacenterCall (d_datacenter d);
                                      CallFindByInventoryPath lookupPath] |} in
  match lookupDatacenter (world st) (d_datacenter d) with
  | (_, Some e) => (Returns (d, Some e), st1)
  | (_, None) =>
      match si_FindByInventoryPath (world st) lookupPath with
      | (_, Some e) =>
          (Returns (d, Some ("[ERROR] Could not locate folder "
                               ++ strings.TrimRight (d_path d) "/" ++ ": " ++ e)), st2)
      | (Some (IsFolder fo), None) =>
          match deleteFolder_loop fuel f
                  {| cur_folder := fo; currentPath := path f |} st2 with
          | (Returns (Some e), s') => (Returns (d, Some e), s')
          | (Returns None, s') => (Returns (SetId d "", None), s')
          | (Panics m, s') => (Panics m, s')
          | (OutOfFuel, s') => (OutOfFuel, s')
          end
      | (Some _, None) =>
          (Panics "interface conversion: object.Reference is not *object.Folder", st2)
      | (None, None) =>
          (Panics "interface conversion: object.Reference is nil, not *object.Folder", st2)
      end
  end.
Proof.
  unfold resourceVSphereFolderDelete. rewrite folder_of_data.
  unfold bind at 1. unfold deleteFolder. unfold bind at 1.
  rewrite getDatacenter_run. cbn [datacenter path]. cbv zeta.
  destruct (lookupDatacenter (world st) (d_datacenter d)) as [odc [e|]];
    [reflexivity|].
  unfold bind at 1. unfold_calls. unfold logged. cbn [world calls].
  rewrite <- app_assoc. cbn [app].
  destruct (si_FindByInventoryPath (world st) _) as [[[fo|dc|o]|] [e|]];
    try reflexivity.
  unfold bind at 1. unfold assertFolder, ret at 1.
  destruct (deleteFolder_loop fuel _ _ _) as [[[e|]|m|] s']; reflexivity.
Qed.

(** ** Boundary-respecting deletion (P3) *)

(** C3. Pruning a/b/c with boundary a, c being empty and b empty once c is
    gone: the run is exactly the calls below. The folder found at a/b/c is
    destroyed first, then the folder found at a/b; the loop then stops at
    the boundary. The folder at a is looked up once and nothing else: no
    children query and no destroy is issued on any object other than those
    two folders, so none on a or on a folder above it. *)
Theorem prune_child_before_parent
    (w w1 w2 w3 w4 : W) (dcName a b c : string) (odc : option Datacenter)
    (fa fb fc : Folder) (t1 t2 : Task) (fuel : nat) :
  goodName a = true -> goodName b = true -> goodName c = true ->
  lookupDatacenter w dcName = (odc, None) ->
  si_FindByInventoryPath w (dcName ++ "/vm/" ++ (a ++ "/" ++ b ++ "/" ++ c))
  = (Some (IsFolder fc), None) ->
  folder_Children w fc = ([], None) ->
  folder_Destroy w fc = (w1, (Some t1, None)) ->
  task_Wait w1 t1 = (w2, None) ->
  si_FindByInventoryPath w2 (dcName ++ "/vm/" ++ (a ++ "/" ++ b))
  = (Some (IsFolder fb), None) ->
  folder_Children w2 fb = ([], None) ->
  folder_Destroy w2 fb = (w3, (Some t2, None)) ->
  task_Wait w3 t2 = (w4, None) ->
  si_FindByInventoryPath w4 (dcName ++ "/vm/" ++ a) = (Some (IsFolder fa), None) ->
  2 <= fuel ->
  let run := deleteFolder fuel {| datacenter := dcName; existingPath := a;
                                  path := a ++ "/" ++ b ++ "/" ++ c |}
                          {| world := w; calls := [] |} in
  fst run = Returns None
  /\ world (snd run) = w4
  /\ calls (snd run)
     = [ datacenterCall dcName;
         CallFindByInventoryPath (dcName ++ "/vm/" ++ (a ++ "/" ++ b ++ "/" ++ c));
         CallChildren fc; CallDestroy fc; CallWait t1;
         CallFindByInventoryPath (dcName ++ "/vm/" ++ (a ++ "/" ++ b));
         CallChildren fb; CallDestroy fb; CallWait t2;
         CallFindByInventoryPath (dcName ++ "/vm/" ++ a) ]
  /\ filter isDestroy (calls (snd run)) = [CallDestroy fc; CallDestroy fb]
  /\ (forall x : Folder, moref x <> moref fc -> moref x <> moref fb ->
        existsb (touches x) (calls (snd run)) = false).
Proof.
  intros Ha Hb Hc Hdc Hfc Hcc Hdc1 Hw1 Hfb Hcb Hdb Hw2 Hfa Hfuel run.
  set (f := {| datacenter := dcName; existingPath := a;
               path := a ++ "/" ++ b ++ "/" ++ c |}) in *.
  assert (Pc : parentPath (a ++ "/" ++ b ++ "/" ++ c) = a ++ "/" ++ b).
  { apply (parentPath_snoc [a; b] c); [repeat constructor|]; assumption. }
  assert (Pb : parentPath (a ++ "/" ++ b) = a).
  { apply (parentPath_snoc [a] b); [repeat constructor|]; assumption. }
  apply goodName_length in Hb, Hc.
  assert (Run : run = (Returns None,
                       {| world := w4;
                          calls := [ datacenterCall dcName;
                            CallFindByInventoryPath (dcName ++ "/vm/" ++ (a ++ "/" ++ b ++ "/" ++ c));
                            CallChildren fc; CallDestroy fc; CallWait t1;
                            CallFindByInventoryPath (dcName ++ "/vm/" ++ (a ++ "/" ++ b));
                            CallChildren fb; CallDestroy fb; CallWait t2;
                            CallFindByInventoryPath (dcName ++ "/vm/" ++ a) ] |})).
  { subst run. destruct fuel as [|[|fuel]]; try lia.
    rewrite (deleteFolder_found _ f _ odc fc) by assumption.
    subst f. cbn [cur_folder currentPath world datacenter path calls app].
    rewrite loop_unfold
      by (apply eqb_length_neq; cbn [currentPath existingPath];
          rewrite !slength_app; simpl; lia).
    rewrite (body_pass _ _ _ w1 w2 t1 fb);
      cbn [cur_folder currentPath world datacenter calls app]; rewrite ?Pc;
      try assumption.
    rewrite loop_unfold
      by (apply eqb_length_neq; cbn [currentPath existingPath];
          rewrite !slength_app; simpl; lia).
    rewrite (body_pass _ _ _ w3 w4 t2 fa);
      cbn [cur_folder currentPath world datacenter calls app]; rewrite ?Pb;
      try assumption.
    rewrite loop_done by (cbn; apply String.eqb_refl).
    reflexivity. }
  rewrite Run. cbn [fst snd world calls]. repeat split.
  - unfold datacenterCall. destruct (negb (String.eqb dcName "")); reflexivity.
  - intros x Hxc Hxb. unfold datacenterCall.
    apply Nat.eqb_neq in Hxc, Hxb. rewrite Nat.eqb_sym in Hxc, Hxb.
    destruct (negb (String.eqb dcName "")); cbn; rewrite Hxc, Hxb; reflexivity.
Qed.

(** ** Abort on a non-empty folder (P4) *)

Lemma loop_aborts_on_nonempty (k : nat) f :
  forall fuel s0 st0 s st c cs,
    prune_passes k f s0 st0 = Some (s, st) ->
    String.eqb (currentPath s) (existingPath f) = false ->
    folder_Children (world st) (cur_folder s) = (c :: cs, None) ->
    k < fuel ->
    deleteFolder_loop fuel f s0 st0
    = (Returns (Some ("Folder " ++ currentPath s
                        ++ " is non-empty and will not be deleted")),
       {| world := world st; calls := calls st ++ [CallChildren (cur_folder s)] |}).
Proof.
  induction k as [|k IH]; intros fuel s0 st0 s st c cs Hreach Hguard Hch Hfuel;
    (destruct fuel as [|fuel]; [lia|]).
  - cbn [prune_passes] in Hreach. injection Hreach as -> ->.
    rewrite loop_unfold by assumption.
    rewrite (body_nonempty f s st c cs Hch). reflexivity.
  - cbn [prune_passes] in Hreach.
    destruct (String.eqb (currentPath s0) (existingPath f)) eqn:G; [discriminate|].
    rewrite loop_unfold by assumption.
    destruct (deleteFolder_body f s0 st0) as [[[s1|e]|m|] st1]; try discriminate.
    apply (IH fuel s1 st1 s st c cs); [assumption | assumption | assumption | lia].
Qed.

(** C4. Whenever the prune, after any number [k] of complete passes, is at a
    folder still short of the boundary whose children query returns at least
    one child, [deleteFolder] returns the non-empty error naming the current
    path. The run ends with that children query: the folder is not
    destroyed, the inventory is the one the earlier passes left (what they
    destroyed stays destroyed, the folder and its children stay), and no
    further call, hence no retry, is issued. *)
Theorem prune_aborts_on_nonempty
    (k fuel : nat) f st0 (odc : option Datacenter) (fo : Folder)
    s st (c : Reference) (cs : list Reference) :
  lookupDatacenter (world st0) (datacenter f) = (odc, None) ->
  si_FindByInventoryPath (world st0) (datacenter f ++ "/vm/" ++ path f)
  = (Some (IsFolder fo), None) ->
  prune_passes k f {| cur_folder := fo; currentPath := path f |}
    {| world := world st0;
       calls := calls st0 ++
                [ datacenterCall (datacenter f);
                  CallFindByInventoryPath (datacenter f ++ "/vm/" ++ path f) ] |}
  = Some (s, st) ->
  String.eqb (currentPath s) (existingPath f) = false ->
  folder_Children (world st) (cur_folder s) = (c :: cs, None) ->
  k < fuel ->
  deleteFolder fuel f st0
  = (Returns (Some ("Folder " ++ currentPath s
                      ++ " is non-empty and will not be deleted")),
     {| world := world st; calls := calls st ++ [CallChildren (cur_folder s)] |}).
Proof.
  intros Hdc Hf Hreach Hguard Hch Hfuel.
  rewrite (deleteFolder_found fuel f st0 odc fo Hdc Hf).
  exact (loop_aborts_on_nonempty k f fuel _ _ s st c cs Hreach Hguard Hch Hfuel).
Qed.

(** ** Nothing to prune (P5) *)

(** C5. When the recorded existing path is the (trimmed) path itself, the
    loop condition fails at once, whatever folder is held, so the body never
    runs; Delete issues lookups only (no children query, no destroy, no
    create) and leaves the inventory as it was; when it returns without
    error, all it did to the resource data is clear the identity, and it
    does return so whenever the datacenter and the leaf folder are found. *)
Theorem delete_noop_at_boundary (fuel : nat) (d : ResourceData) st :
  d_existing_path d = strings.TrimRight (d_path d) "/" ->
  let f := {| datacenter := d_datacenter d; existingPath := d_existing_path d;
              path := strings.TrimRight (d_path d) "/" |} in
  let run := resourceVSphereFolderDelete fuel d st in
  (forall fo st',
      deleteFolder_loop 0 f {| cur_folder := fo; currentPath := path f |} st'
      = (Returns None, st'))
  /\ world (snd run) = world st
  /\ (exists tr : list Call,
        calls (snd run) = (calls st ++ tr)%list
        /\ forallb isLookup tr = true
        /\ filter isMutation tr = [])
  /\ (forall d', fst run = Returns (d', None) -> d' = SetId d "")
  /\ (forall odc fo,
        lookupDatacenter (world st) (d_datacenter d) = (odc, None) ->
        si_FindByInventoryPath (world st)
          (d_datacenter d ++ "/vm/" ++ strings.TrimRight (d_path d) "/")
        = (Some (IsFolder fo), None) ->
        fst run = Returns (SetId d "", None)).
Proof.
  intros Hep f run.
  assert (Hguard : forall fo, String.eqb (currentPath {| cur_folder := fo; currentPath := path f |})
                                         (existingPath f) = true).
  { intros fo. unfold f. cbn. rewrite Hep. apply String.eqb_refl. }
  split; [intros fo st'; apply loop_done, Hguard|].
  assert (L1 : forallb isLookup [datacenterCall (d_datacenter d)] = true
               /\ filter isMutation [datacenterCall (d_datacenter d)] = [])
    by (unfold datacenterCall; destruct (negb _); split; reflexivity).
  assert (L2 : forall q,
             forallb isLookup [datacenterCall (d_datacenter d);
                               CallFindByInventoryPath q] = true
             /\ filter isMutation [datacenterCall (d_datacenter d);
                                   CallFindByInventoryPath q] = [])
    by (intros q; unfold datacenterCall; destruct (negb _); split; reflexivity).
  assert (Fin : forall (r : outcome (ResourceData * option error)) (tr : list Call),
             forallb isLookup tr = true /\ filter isMutation tr = [] ->
             (forall d', r = Returns (d', None) -> d' = SetId d "") ->
             (forall odc fo,
                 lookupDatacenter (world st) (d_datacenter d) = (odc, None) ->
                 si_FindByInventoryPath (world st)
                   (d_datacenter d ++ "/vm/" ++ strings.TrimRight (d_path d) "/")
                 = (Some (IsFolder fo), None) ->
                 r = Returns (SetId d "", None)) ->
             run = (r, {| world := world st; calls := calls st ++ tr |}) ->
             world (snd run) = world st
             /\ (exists tr : list Call,
                   calls (snd run) = (calls st ++ tr)%list
                   /\ forallb isLookup tr = true
                   /\ filter isMutation tr = [])
             /\ (forall d', fst run = Returns (d', None) -> d' = SetId d "")
             /\ (forall odc fo,
                   lookupDatacenter (world st) (d_datacenter d) = (odc, None) ->
                   si_FindByInventoryPath (world st)
                     (d_datacenter d ++ "/vm/" ++ strings.TrimRight (d_path d) "/")
                   = (Some (IsFolder fo), None) ->
                   fst run = Returns (SetId d "", None))).
  { intros r tr Htr H1 H2 ->. cbn [fst snd world calls].
    split; [reflexivity|]. split; [exists tr; split; [reflexivity | exact Htr]|].
    split; assumption. }
  assert (Run : run = resourceVSphereFolderDelete fuel d st) by reflexivity.
  rewrite delete_unfold in Run. cbv zeta in Run. fold f in Run.
  destruct (lookupDatacenter (world st) (d_datacenter d)) as [odc [e|]].
  { refine (Fin _ _ L1 _ _ Run); congruence. }
  destruct (si_FindByInventoryPath (world st) _) as [[[fo|dc|o]|] [e|]];
    try (refine (Fin _ _ (L2 _) _ _ Run); congruence).
  rewrite loop_done in Run by apply Hguard.
  refine (Fin _ _ (L2 _) _ _ Run); congruence.
Qed.

(** ** A vanished leaf folder *)

(** C10. When the leaf folder is gone, the first lookup of [deleteFolder]
    returns a nil reference and no error; the type assertion on it panics,
    and so does Delete: no error value reaches the caller, and nothing was
    asked of the inventory beyond the two lookups. *)
Theorem delete_panics_on_missing_leaf
    (fuel : nat) (d : ResourceData) st (odc : option Datacenter) :
  lookupDatacenter (world st) (d_datacenter d) = (odc, None) ->
  si_FindByInventoryPath (world st)
    (d_datacenter d ++ "/vm/" ++ strings.TrimRight (d_path d) "/")
  = (None, None) ->
  resourceVSphereFolderDelete fuel d st
  = (Panics "interface conversion: object.Reference is nil, not *object.Folder",
     {| world := world st;
        calls := calls st ++
                 [ datacenterCall (d_datacenter d);
                   CallFindByInventoryPath
                     (d_datacenter d ++ "/vm/" ++ strings.TrimRight (d_path d) "/") ] |}).
Proof.
  intros Hdc Hf. rewrite delete_unfold. cbv zeta. rewrite Hdc, Hf. reflexivity.
Qed.

(** ** Termination of the prune loop *)

Lemma passes_app (a b : list Call) : passes (a ++ b) = passes a + passes b.
Proof. unfold passes. rewrite filter_app, length_app. reflexivity. Qed.

(** Every pass issues exactly one children query, first; it ends, and when
    it asks for another pass the current path has become its parent. *)
Lemma body_facts f s st :
  passes (calls (snd (deleteFolder_body f s st))) = S (passes (calls st))
  /\ fst (deleteFolder_body f s st) <> OutOfFuel
  /\ fst (deleteFolder_body f s st) <> Returns (inr None)
  /\ (forall s', fst (deleteFolder_body f s st) = Returns (inl s') ->
                 currentPath s' = parentPath (currentPath s)).
Proof.
  unfold deleteFolder_body, bind, deref, assertFolder, ret, panic.
  unfold_calls. unfold logged. cbn [world calls].
  repeat match goal with
         | |- context [match ?x with _ => _ end] =>
             lazymatch x with
             | context [match _ with _ => _ end] => fail
             | _ => destruct x; cbn [fst snd world calls]
             end
         end;
    rewrite ?passes_app; cbn [passes filter isChildren List.length];
    (split; [unfold passes; cbn; lia|]);
    (split; [discriminate|]); (split; [discriminate|]);
    intros s' H; try discriminate; injection H as <-; reflexivity.
Qed.

(** [deleteFolder] with the monad unfolded, up to the loop. *)
Lemma deleteFolder_unfold fuel f st :
  deleteFolder fuel f st =
  let q := datacenter f ++ "/vm/" ++ path f in
  let st1 := {| world := world st;
                calls := calls st ++ [datacenterCall (datacenter f)] |} in
  let st2 := {| world := world st;
                calls := calls st ++ [datacenterCall (datacenter f);
                                      CallFindByInventoryPath q] |} in
  match lookupDatacenter (world st) (datacenter f) with
  | (_, Some e) => (Returns (Some e), st1)
  | (_, None) =>
      match si_FindByInventoryPath (world st) q with
      | (_, Some e) =>
          (Returns (Some ("[ERROR] Could not locate folder " ++ path f ++ ": " ++ e)),
           st2)
      | (Some (IsFolder fo), None) =>
          deleteFolder_loop fuel f {| cur_folder := fo; currentPath := path f |} st2
      | (Some _, None) =>
          (Panics "interface conversion: object.Reference is not *object.Folder", st2)
      | (None, None) =>
          (Panics "interface conversion: object.Reference is nil, not *object.Folder", st2)
      end
  end.
Proof.
  unfold deleteFolder. unfold bind at 1. rewrite getDatacenter_run. cbv zeta.
  destruct (lookupDatacenter (world st) (datacenter f)) as [odc [e|]];
    [reflexivity|].
  unfold bind at 1. unfold_calls. unfold logged. cbn [world calls].
  rewrite <- app_assoc. cbn [app].
  destruct (si_FindByInventoryPath (world st) _) as [[[fo|dc|o]|] [e|]];
    reflexivity.
Qed.

(** More fuel does not change a prune that ended. *)
Lemma loop_fuel_mono fuel :
  forall fuel' f s st,
    fuel <= fuel' ->
    fst (deleteFolder_loop fuel f s st) <> OutOfFuel ->
    deleteFolder_loop fuel' f s st = deleteFolder_loop fuel f s st.
Proof.
  induction fuel as [|fuel IH]; intros fuel' f s st Hle Hne;
    destruct (String.eqb (currentPath s) (existingPath f)) eqn:G;
    try (rewrite !loop_done by exact G; reflexivity).
  - exfalso. apply Hne. cbn [deleteFolder_loop]. rewrite G. reflexivity.
  - destruct fuel' as [|fuel']; [lia|].
    revert Hne. rewrite !loop_unfold by exact G.
    destruct (deleteFolder_body f s st) as [[[s'|e]|m|] st']; try reflexivity.
    intros Hne. apply IH; [lia | exact Hne].
Qed.

Lemma deleteFolder_fuel_mono fuel fuel' f st :
  fuel <= fuel' ->
  fst (deleteFolder fuel f st) <> OutOfFuel ->
  deleteFolder fuel' f st = deleteFolder fuel f st.
Proof.
  intros Hle. rewrite !deleteFolder_unfold. cbv zeta.
  destruct (lookupDatacenter (world st) (datacenter f)) as [odc [e|]];
    [reflexivity|].
  destruct (si_FindByInventoryPath (world st) _) as [[[fo|dc|o]|] [e|]];
    try reflexivity.
  intros Hne. apply loop_fuel_mono; assumption.
Qed.

(** From the path with [k + m] elements the loop needs at most [m] passes
    to reach the boundary with [k] elements, whatever the service answers,
    and exactly [m] when it returns without error. *)
Lemma prune_loop_bounded (segs : list string) (k : nat) f :
  Forall (fun x => goodName x = true) segs ->
  existingPath f = relPath (firstn k segs) ->
  forall m fo st fuel,
    k + m <= List.length segs -> m <= fuel ->
    let run := deleteFolder_loop fuel f
                 {| cur_folder := fo; currentPath := relPath (firstn (k + m) segs) |} st in
    fst run <> OutOfFuel
    /\ exists p, passes (calls (snd run)) = passes (calls st) + p
                 /\ p <= m
                 /\ (fst run = Returns None -> p = m).
Proof.
  intros Hgood Hex. induction m as [|m IH]; intros fo st fuel Hle Hfuel run.
  - subst run. rewrite loop_done.
    + cbn. split; [discriminate|]. exists 0. repeat split; lia.
    + cbn. rewrite Nat.add_0_r, Hex. apply String.eqb_refl.
  - subst run. destruct fuel as [|fuel]; [lia|].
    rewrite loop_unfold.
    2:{ cbn [currentPath]. rewrite Hex. apply eqb_length_neq.
        pose proof (relPath_firstn_lt segs k Hgood m Hle). lia. }
    pose proof (body_facts f {| cur_folder := fo;
                                currentPath := relPath (firstn (k + S m) segs) |} st)
      as (Hp & Hne & Hnn & Hnext).
    destruct (deleteFolder_body f _ st) as [[[s'|e]|msg|] st']; cbn [fst snd] in *.
    + specialize (Hnext s' eq_refl). cbn [currentPath] in Hnext.
      replace (k + S m) with (S (k + m)) in Hnext by lia.
      destruct (parentPath_firstn segs (k + m) Hgood ltac:(lia)) as [Epar _].
      rewrite Epar in Hnext. destruct s' as [fo' cp']. cbn in Hnext. subst cp'.
      destruct (IH fo' st' fuel ltac:(lia) ltac:(lia)) as (Hterm & p & Ep & Hpm & Hok).
      split; [exact Hterm|]. exists (S p). rewrite Ep, Hp.
      repeat split; try lia. intros Hr. specialize (Hok Hr). lia.
    + split; [discriminate|]. exists 1. rewrite Hp. repeat split; try lia.
      intros Hr. exfalso. apply Hnn. congruence.
    + split; [discriminate|]. exists 1. rewrite Hp. repeat split; try lia.
      intros Hr. discriminate.
    + exfalso. apply Hne. reflexivity.
Qed.

(** Before the loop, [deleteFolder] either hands over to it or ends with an
    error or a panic, having issued lookups only. *)
Lemma deleteFolder_cases fuel f st :
  (exists fo st2,
      deleteFolder fuel f st
      = deleteFolder_loop fuel f {| cur_folder := fo; currentPath := path f |} st2
      /\ passes (calls st2) = passes (calls st))
  \/ (fst (deleteFolder fuel f st) <> OutOfFuel
      /\ fst (deleteFolder fuel f st) <> Returns None
      /\ passes (calls (snd (deleteFolder fuel f st))) = passes (calls st)).
Proof.
  assert (Pdc : passes [datacenterCall (datacenter f)] = 0)
    by (unfold datacenterCall; destruct (negb _); reflexivity).
  remember (deleteFolder fuel f st) as run eqn:Run.
  unfold deleteFolder in Run. unfold bind at 1 in Run.
  rewrite getDatacenter_run in Run.
  destruct (lookupDatacenter (world st) (datacenter f)) as [odc [e|]].
  { right. subst run. unfold ret, logged. cbn [fst snd world calls].
    rewrite passes_app, Pdc. repeat split; try discriminate; lia. }
  unfold bind at 1 in Run. unfold FindByInventoryPath, query, logged in Run.
  cbn [world calls] in Run.
  destruct (si_FindByInventoryPath (world st) _) as [[[fo|dc|o]|] [e|]];
    try (right; subst run; unfold bind, assertFolder, ret, panic;
         cbn [fst snd world calls]; rewrite !passes_app, Pdc;
         repeat split; try discriminate; cbn; lia).
  left. unfold bind at 1, assertFolder, ret in Run.
  eexists. eexists. split; [exact Run|].
  cbn [calls]. rewrite !passes_app, Pdc. cbn. lia.
Qed.

(** The bound on the passes. For a prune whose path has the well-formed
    elements [segs] and whose boundary is the prefix with the first [k] of
    them: with room for (number of elements) - k passes the loop ends,
    whatever the service answers, after at most that many passes, and after
    exactly that many when the prune returns without error. More room
    changes nothing. *)
Lemma prune_loop_ends
    (segs : list string) (k fuel : nat) f st :
  Forall (fun x => goodName x = true) segs ->
  k <= List.length segs ->
  path f = relPath segs ->
  existingPath f = relPath (firstn k segs) ->
  List.length segs - k <= fuel ->
  (forall j, k <= j -> j < List.length segs ->
     parentPath (relPath (firstn (S j) segs)) = relPath (firstn j segs)
     /\ String.length (parentPath (relPath (firstn (S j) segs)))
        < String.length (relPath (firstn (S j) segs)))
  /\ fst (deleteFolder fuel f st) <> OutOfFuel
  /\ (forall fuel', fuel <= fuel' ->
                    deleteFolder fuel' f st = deleteFolder fuel f st)
  /\ exists p, passes (calls (snd (deleteFolder fuel f st))) = passes (calls st) + p
               /\ p <= List.length segs - k
               /\ (fst (deleteFolder fuel f st) = Returns None
                   -> p = List.length segs - k).
Proof.
  intros Hgood Hk Hpath Hex Hfuel. split.
  { intros j _ Hj. destruct (parentPath_firstn segs j Hgood Hj) as [E L].
    rewrite E. split; [reflexivity | exact L]. }
  assert (Hmain : fst (deleteFolder fuel f st) <> OutOfFuel
                  /\ exists p, passes (calls (snd (deleteFolder fuel f st)))
                               = passes (calls st) + p
                               /\ p <= List.length segs - k
                               /\ (fst (deleteFolder fuel f st) = Returns None
                                   -> p = List.length segs - k));
    [| destruct Hmain as [Hterm Hp]; split; [exact Hterm|];
       split; [intros fuel' Hle; apply deleteFolder_fuel_mono; assumption
              | exact Hp]].
  destruct (deleteFolder_cases fuel f st) as [(fo & st2 & E & P) | (H1 & H2 & P)].
  - rewrite E, Hpath.
    pose proof (prune_loop_bounded segs k f Hgood Hex (List.length segs - k) fo st2 fuel
                  ltac:(lia) Hfuel) as Hb.
    replace (k + (List.length segs - k)) with (List.length segs) in Hb by lia.
    rewrite firstn_all in Hb. cbv zeta in Hb. rewrite P in Hb. exact Hb.
  - split; [exact H1|]. exists 0. rewrite P. repeat split; try lia.
    intros Hr. contradiction.
Qed.

End Prune.

(** ** What Create records *)

Section Create.

Context {W : Type} {svc : InventoryService W}.

Implicit Types (st : St W) (f : folder) (d : ResourceData).

Ltac cases :=
  repeat match goal with
         | |- context [match ?x with _ => _ end] =>
             lazymatch x with
             | context [match _ with _ => _ end] => fail
             | _ => destruct x; cbn [fst snd world calls]
             end
         end.

(** [createFolder] hands back the struct it was given: it never assigns
    [f.existingPath]. *)
Lemma createFolder_keeps_struct f st f' e st' :
  createFolder f st = (Returns (f', e), st') -> f' = f.
Proof.
  unfold createFolder, bind, deref, assertFolder, ret, panic. unfold_calls.
  cases; intros H; try discriminate; injection H as <- _ _; reflexivity.
Qed.

(** [createFolder] always ends: its first loop cuts the path at each pass
    and its second loop counts down. *)
Lemma createFolder_total f st : fst (createFolder f st) <> OutOfFuel.
Proof.
  assert (Hc : forall folders n root st1,
             fst (createFolder_create folders n root st1) <> OutOfFuel).
  { intros folders n. induction n as [|n IH]; intros root st1; [discriminate|].
    cbn [createFolder_create]. unfold bind, deref, ret, panic. unfold_calls.
    destruct root as [r|]; [|discriminate].
    destruct (folder_CreateFolder (world st1) r _) as [w' [[r'|] [e|]]];
      try discriminate; apply IH. }
  unfold createFolder. unfold bind at 1. unfold_calls.
  destruct (finder_DatacenterOrDefault (world st) (datacenter f)) as [[dc|] [e|]];
    try discriminate.
  unfold bind at 1, deref, ret at 1. unfold bind at 1.
  match goal with
  | |- context [createFolder_resolve (S (String.length ?p)) ?dc ?b ?p ?l ?s] =>
      pose proof (resolve_total (S (String.length p)) dc b p l s
                    (Nat.lt_succ_diag_r _)) as Hr;
      destruct (createFolder_resolve (S (String.length p)) dc b p l s)
        as [[[e|[ref folders]]|m|] st1]
  end; try discriminate; [|exfalso; apply Hr; reflexivity].
  unfold bind at 1, assertFolder.
  destruct ref as [r|r|r]; try discriminate.
  unfold ret at 1, bind.
  specialize (Hc folders (List.length folders) (Some r) st1).
  destruct (createFolder_create folders (List.length folders) (Some r) st1)
    as [[err| |] st2]; try discriminate.
  exfalso. apply Hc. reflexivity.
Qed.

Lemma read_unfold d st :
  resourceVSphereFolderRead d st =
  let st1 := logged (datacenterCall (d_datacenter d)) st in
  match lookupDatacenter (world st) (d_datacenter d) with
  | (_, Some e) => (Returns (d, Some e), st1)
  | (_, None) =>
      let q := d_datacenter d ++ "/vm/" ++ d_path d in
      match si_FindByInventoryPath (world st) q with
      | (_, Some e) => (Returns (d, Some e), logged (CallFindByInventoryPath q) st1)
      | (None, None) => (Returns (SetId d "", None), logged (CallFindByInventoryPath q) st1)
      | (Some _, None) => (Returns (d, None), logged (CallFindByInventoryPath q) st1)
      end
  end.
Proof.
  unfold resourceVSphereFolderRead. unfold bind at 1. rewrite getDatacenter_run.
  cbv zeta. destruct (lookupDatacenter (world st) (d_datacenter d)) as [odc [e|]];
    [reflexivity|].
  unfold bind. unfold_calls. cbn [world logged].
  destruct (si_FindByInventoryPath (world st) _) as [[r|] [e|]]; reflexivity.
Qed.

(** What a Create that returns without error leaves in the resource data:
    the path and datacenter untouched, an empty [existing_path], and as
    identity the datacenter field, a slash and the trimmed path, unless the
    closing Read found nothing under "<datacenter field>/vm/<path>" and
    cleared it. *)
Lemma create_result d st d' st' :
  resourceVSphereFolderCreate d st = (Returns (d', None), st') ->
  d_datacenter d' = d_datacenter d
  /\ d_path d' = d_path d
  /\ d_existing_path d' = ""
  /\ d_id d'
     = match fst (si_FindByInventoryPath (world st')
                    (d_datacenter d ++ "/vm/" ++ d_path d)) with
       | Some _ => d_datacenter d ++ "/" ++ strings.TrimRight (d_path d) "/"
       | None => ""
       end.
Proof.
  unfold resourceVSphereFolderCreate. rewrite folder_of_data.
  unfold bind at 1.
  destruct (createFolder _ st) as [[[f' [e|]]|m|] st1] eqn:E;
    try (intros H; discriminate).
  apply createFolder_keeps_struct in E. subst f'.
  cbn [existingPath datacenter path]. rewrite read_unfold. cbv zeta.
  cbn [d_datacenter d_path SetId Set_existing_path].
  destruct (lookupDatacenter (world st1) (d_datacenter d)) as [odc [e|]];
    [intros H; discriminate|].
  destruct (si_FindByInventoryPath (world st1) _) as [[r|] [e|]] eqn:F;
    intros H; try discriminate; injection H as <- <-;
    cbn [world logged d_datacenter d_path d_existing_path d_id SetId Set_existing_path];
    rewrite F; repeat split.
Qed.

(** Around [createFolder], Create issues lookups only and leaves the
    inventory alone. *)
Lemma create_calls d st :
  let f := {| datacenter := d_datacenter d; existingPath := "";
              path := strings.TrimRight (d_path d) "/" |} in
  world (snd (resourceVSphereFolderCreate d st)) = world (snd (createFolder f st))
  /\ exists tr : list Call,
       calls (snd (resourceVSphereFolderCreate d st))
       = (calls (snd (createFolder f st)) ++ tr)%list
       /\ forallb isLookup tr = true.
Proof.
  cbv zeta. unfold resourceVSphereFolderCreate. rewrite folder_of_data.
  unfold bind at 1 2.
  destruct (createFolder _ st) as [[[f' [e|]]|m|] st1]; cbn [fst snd];
    try (split; [reflexivity | exists []; rewrite app_nil_r; split; reflexivity]).
  rewrite read_unfold. cbv zeta.
  assert (L : forall q, forallb isLookup
                          [datacenterCall (d_datacenter d); CallFindByInventoryPath q]
                        = true)
    by (intros q; unfold datacenterCall; destruct (negb _); reflexivity).
  cbn [d_datacenter d_path SetId Set_existing_path].
  destruct (lookupDatacenter (world st1) (d_datacenter d)) as [odc [e|]].
  { split; [reflexivity|]. exists [datacenterCall (d_datacenter d)].
    split; [reflexivity|]. unfold datacenterCall. destruct (negb _); reflexivity. }
  destruct (si_FindByInventoryPath (world st1) _) as [[r|] [e|]];
    (split; [reflexivity|]); eexists; unfold logged; cbn [fst snd world calls];
    rewrite <- app_assoc; (split; [reflexivity | apply L]).
Qed.

(** C2. For a desired path a/b/c of which only a exists, Create looks up
    a/b/c, a/b and a, then issues exactly two [CreateFolder] calls: b on the
    folder found at a, then c on the folder the first call returned. The
    run starts with exactly the calls listed and goes on with lookups only,
    so no other creation is issued and the order is never the reverse one;
    the inventory ends as the second call leaves it. *)
Theorem create_root_to_leaf
    (w w1 w2 : W) (d : ResourceData) (dn : string) (ds : list string)
    (dc : Datacenter) (a b c : string) (fa fb : Folder)
    (r2 : option Folder * option error) :
  Forall (fun x => goodName x = true) (dn :: ds) ->
  goodName a = true -> goodName b = true -> goodName c = true ->
  InventoryPath dc = slashed (dn :: ds) ->
  strings.TrimRight (d_path d) "/" = a ++ "/" ++ b ++ "/" ++ c ->
  finder_DatacenterOrDefault w (d_datacenter d) = (Some dc, None) ->
  si_FindByInventoryPath w (InventoryPath dc // "vm" // a // b // c) = (None, None) ->
  si_FindByInventoryPath w (InventoryPath dc // "vm" // a // b) = (None, None) ->
  si_FindByInventoryPath w (InventoryPath dc // "vm" // a) = (Some (IsFolder fa), None) ->
  folder_CreateFolder w fa b = (w1, (Some fb, None)) ->
  folder_CreateFolder w1 fb c = (w2, r2) ->
  let run := resourceVSphereFolderCreate d {| world := w; calls := [] |} in
  filter isCreate (calls (snd run)) = [CallCreateFolder fa b; CallCreateFolder fb c]
  /\ world (snd run) = w2
  /\ exists tr : list Call,
       calls (snd run)
       = ([ CallDatacenterOrDefault (d_datacenter d);
            CallFindByInventoryPath (InventoryPath dc // "vm" // a // b // c);
            CallFindByInventoryPath (InventoryPath dc // "vm" // a // b);
            CallFindByInventoryPath (InventoryPath dc // "vm" // a);
            CallCreateFolder fa b;
            CallCreateFolder fb c ] ++ tr)%list
       /\ forallb isLookup tr = true.
Proof.
  intros Hd Ha Hb Hc Hpath Htrim Hdc H3 H2 H1 Hcb Hcc run.
  destruct (createFolder_root_to_leaf w w1 w2 (d_datacenter d) dn ds dc a b c
              fa fb r2 Hd Ha Hb Hc Hpath Hdc H3 H2 H1 Hcb Hcc)
    as (Hcalls & _ & Hw).
  destruct (create_calls d {| world := w; calls := [] |}) as (Ew & tr & Ec & Htr).
  cbv zeta in Ew, Ec. rewrite Htrim in Ew, Ec.
  subst run. rewrite Ew, Ec, Hcalls, Hw.
  split; [|split; [reflexivity | exists tr; split; [reflexivity | exact Htr]]].
  rewrite filter_app. cbn [filter isCreate app].
  clear - Htr. induction tr as [|x tr IH]; [reflexivity|].
  simpl in Htr. apply andb_true_iff in Htr. destruct Htr as [Hx Ht].
  destruct x; simpl in Hx; try discriminate; simpl; auto.
Qed.

(** The identity without a datacenter field, for any service. After a
    Create with an empty datacenter field that returns without error, the
    identity is "/<path>" (the empty datacenter field, a slash, the trimmed
    path) when the closing Read finds an object under "/vm/<path>", and
    empty otherwise; the default datacenter's name is no part of it. *)
Theorem create_identity_without_datacenter d st d' st' :
  d_datacenter d = "" ->
  resourceVSphereFolderCreate d st = (Returns (d', None), st') ->
  d_id d'
  = match fst (si_FindByInventoryPath (world st') ("/vm/" ++ d_path d)) with
    | Some _ => "/" ++ strings.TrimRight (d_path d) "/"
    | None => ""
    end.
Proof.
  intros Hdc H. apply create_result in H. destruct H as (_ & _ & _ & Hid).
  rewrite Hdc in Hid. exact Hid.
Qed.

End Create.

(** * The properties on sample inventories *)

(** C2 on the inventory that holds only a: b is created on a, then c on the
    new b. *)
Lemma create_root_to_leaf_witness :
  let run := resourceVSphereFolderCreate (mkData "DC0" "a/b/c" "")
                                         (Sim.start Sim.withA) in
  filter isCreate (calls (snd run))
  = [CallCreateFolder folderA "b"; CallCreateFolder firstCreated "c"]
  /\ map Sim.n_path (Sim.nodes (world (snd run)))
     = ["/DC0"; "/DC0/vm"; "/DC0/vm/a"; "/DC0/vm/a/b"; "/DC0/vm/a/b/c"].
Proof.
  pose proof (@create_root_to_leaf _ Sim.service
                Sim.withA
                (fst (Sim.createFolder Sim.withA folderA "b"))
                (fst (Sim.createFolder (fst (Sim.createFolder Sim.withA folderA "b"))
                                       firstCreated "c"))
                (mkData "DC0" "a/b/c" "") "DC0" [] dc0 "a" "b" "c"
                folderA firstCreated
                (snd (Sim.createFolder (fst (Sim.createFolder Sim.withA folderA "b"))
                                       firstCreated "c"))
                ltac:(repeat constructor) eq_refl eq_refl eq_refl eq_refl eq_refl
                eq_refl eq_refl eq_refl eq_refl eq_refl eq_refl)
    as (Hcreate & Hw & _).
  split; [exact Hcreate|]. cbv zeta in Hw |- *. unfold Sim.start.
  rewrite Hw. reflexivity.
Defined.

(** C6 on a datacenter without VM root. *)
Lemma create_fails_without_vm_root_witness :
  let run := resourceVSphereFolderCreate (mkData "DC0" "a/b/c" "")
                                         (Sim.start Sim.noVmRoot) in
  fst run = Returns (mkData "DC0" "a/b/c" "",
                     Some "vSphere base path /DC0/vm not found")
  /\ world (snd run) = Sim.noVmRoot
  /\ filter isCreate (calls (snd run)) = []
  /\ forallb isLookup (calls (snd run)) = true.
Proof.
  refine (@create_fails_without_vm_root _ Sim.service Sim.noVmRoot
            (mkData "DC0" "a/b/c" "") dc0 "DC0" [] ["a"; "b"; "c"] _ _ _ _ _ _).
  - repeat constructor.
  - repeat constructor.
  - reflexivity.
  - reflexivity.
  - reflexivity.
  - repeat constructor.
Defined.

(** C3 on the tree a/b/c: c goes first, then b, and a is only looked up. *)
Lemma prune_child_before_parent_witness :
  let run := deleteFolder 2 pruneABC (Sim.start Sim.withABC) in
  fst run = Returns None
  /\ filter isDestroy (calls (snd run)) = [CallDestroy foundC; CallDestroy foundB]
  /\ existsb (touches foundA) (calls (snd run)) = false.
Proof.
  pose proof (@prune_child_before_parent _ Sim.service
                Sim.withABC
                (fst (Sim.destroy Sim.withABC foundC))
                (fst (Sim.destroy Sim.withABC foundC))
                (fst (Sim.destroy (fst (Sim.destroy Sim.withABC foundC)) foundB))
                (fst (Sim.destroy (fst (Sim.destroy Sim.withABC foundC)) foundB))
                "DC0" "a" "b" "c" (Some dc0) foundA foundB foundC
                {| task_id := 10 |} {| task_id := 11 |} 2
                eq_refl eq_refl eq_refl eq_refl eq_refl eq_refl eq_refl eq_refl
                eq_refl eq_refl eq_refl eq_refl eq_refl (le_n 2))
    as (Hret & _ & _ & Hdestroy & Hother).
  split; [exact Hret|]. split; [exact Hdestroy|].
  apply Hother; discriminate.
Defined.

(** C4 on the tree a/b/c with a virtual machine x under b: after one pass
    the prune stops at a/b. *)
Lemma prune_aborts_on_nonempty_witness :
  let run := deleteFolder 2 pruneABC (Sim.start Sim.withABCx) in
  fst run = Returns (Some "Folder a/b is non-empty and will not be deleted")
  /\ calls (snd run)
     = [ CallDatacenter "DC0"; CallFindByInventoryPath "DC0/vm/a/b/c";
         CallChildren foundC; CallDestroy foundC; CallWait {| task_id := 10 |};
         CallFindByInventoryPath "DC0/vm/a/b"; CallChildren foundB ]
  /\ map Sim.n_path (Sim.nodes (world (snd run)))
     = ["/DC0"; "/DC0/vm"; "/DC0/vm/a"; "/DC0/vm/a/b"; "/DC0/vm/a/b/x"].
Proof.
  pose proof (@prune_aborts_on_nonempty _ Sim.service 1 2 pruneABC
                (Sim.start Sim.withABCx) (Some dc0) foundC
                {| cur_folder := foundB; currentPath := "a/b" |}
                {| world := fst (Sim.destroy Sim.withABCx foundC);
                   calls := [ CallDatacenter "DC0";
                              CallFindByInventoryPath "DC0/vm/a/b/c";
                              CallChildren foundC; CallDestroy foundC;
                              CallWait {| task_id := 10 |};
                              CallFindByInventoryPath "DC0/vm/a/b" ] |}
                (IsOther {| moref := 6; InventoryPath := "/DC0/vm/a/b/x" |}) []
                eq_refl eq_refl eq_refl eq_refl eq_refl (le_n 2))
    as H.
  cbv zeta. rewrite H. repeat split.
Defined.

(** C5 on the tree a/b/c with all of it recorded as existing. *)
Lemma delete_noop_at_boundary_witness :
  let run := resourceVSphereFolderDelete 0 (mkData "DC0" "a/b/c" "a/b/c")
                                         (Sim.start Sim.withABC) in
  fst run = Returns (SetId (mkData "DC0" "a/b/c" "a/b/c") "", None)
  /\ world (snd run) = Sim.withABC.
Proof.
  pose proof (@delete_noop_at_boundary _ Sim.service 0
                (mkData "DC0" "a/b/c" "a/b/c") (Sim.start Sim.withABC) eq_refl)
    as (_ & Hw & _ & _ & Hok).
  split; [|exact Hw].
  exact (Hok (Some dc0) foundC eq_refl eq_refl).
Defined.

(** C10 on the inventory that holds only a. *)
Lemma delete_panics_on_missing_leaf_witness :
  resourceVSphereFolderDelete 1 (mkData "DC0" "a/b/c" "a") (Sim.start Sim.withA)
  = (Panics "interface conversion: object.Reference is nil, not *object.Folder",
     {| world := Sim.withA;
        calls := [CallDatacenter "DC0"; CallFindByInventoryPath "DC0/vm/a/b/c"] |}).
Proof.
  exact (@delete_panics_on_missing_leaf _ Sim.service 1
           (mkData "DC0" "a/b/c" "a") (Sim.start Sim.withA) (Some dc0)
           eq_refl eq_refl).
Defined.

(** The end-to-end scenario: path dev/team-a, no datacenter given, nothing
    under the VM root of the default datacenter DC0. The identity ends
    empty. *)
Lemma create_identity_without_datacenter_witness :
  let run := resourceVSphereFolderCreate (mkData "" "dev/team-a" "")
                                         (Sim.start Sim.dcOnly) in
  exists d', fst run = Returns (d', None)
             /\ Sim.findByInventoryPath (world (snd run)) "/vm/dev/team-a" = (None, None)
             /\ d_id d' = "".
Proof.
  exists (mkData "" "dev/team-a" "").
  split; [reflexivity|]. split; [reflexivity|].
  exact (@create_identity_without_datacenter _ Sim.service
           (mkData "" "dev/team-a" "") (Sim.start Sim.dcOnly)
           (mkData "" "dev/team-a" "")
           (snd (resourceVSphereFolderCreate (mkData "" "dev/team-a" "")
                                             (Sim.start Sim.dcOnly)))
           eq_refl eq_refl).
Defined.

(** On that scenario Create returns without error, the default datacenter
    is DC0, and the identity is not "DC0/dev/team-a". *)
Lemma identity_lacks_default_datacenter :
  let run := resourceVSphereFolderCreate (mkData "" "dev/team-a" "")
                                         (Sim.start Sim.dcOnly) in
  Sim.defaultDatacenter Sim.dcOnly = (Some dc0, None)
  /\ path.Base (InventoryPath dc0) = "DC0"
  /\ exists d', fst run = Returns (d', None)
                /\ d_id d' <> "DC0" ++ "/" ++ "dev/team-a".
Proof.
  split; [reflexivity|]. split; [reflexivity|].
  exists (mkData "" "dev/team-a" ""). split; [reflexivity | discriminate].
Qed.

(** The identity survives the closing Read only where "/vm/<path>" names
    some object: here a datacenter that has nothing to do with the folder
    created. *)
Example identity_kept_when_read_finds :
  let run := resourceVSphereFolderCreate (mkData "" "dev/team-a" "")
                                         (Sim.start Sim.shadowed) in
  exists d', fst run = Returns (d', None) /\ d_id d' = "/dev/team-a".
Proof. eexists. split; reflexivity. Qed.

(** ** Where the code departs from its own intent *)

(** C1 at a/b/c with only a present: Create returns without error and the
    recorded [existing_path] is empty, not a; [createFolder] never assigns
    the field it is meant to compute. *)
Theorem create_records_empty_existing_path :
  let run := resourceVSphereFolderCreate (mkData "DC0" "a/b/c" "")
                                         (Sim.start Sim.withA) in
  Sim.findByInventoryPath Sim.withA "/DC0/vm/a" = (Some (IsFolder folderA), None)
  /\ Sim.findByInventoryPath Sim.withA "/DC0/vm/a/b" = (None, None)
  /\ exists d', fst run = Returns (d', None)
                /\ d_existing_path d' = ""
                /\ d_existing_path d' <> "a".
Proof.
  split; [reflexivity|]. split; [reflexivity|].
  eexists. split; [reflexivity|]. split; [reflexivity | discriminate].
Qed.

(** What that costs: a Delete that follows such a Create prunes down to the
    empty path, and destroys the folder a that was there before. *)
Example delete_after_create_destroys_preexisting :
  let created := resourceVSphereFolderCreate (mkData "DC0" "a/b/c" "")
                                             (Sim.start Sim.withA) in
  let deleted := resourceVSphereFolderDelete 3
                   {| d_datacenter := "DC0"; d_path := "a/b/c";
                      d_existing_path := ""; d_id := "DC0/a/b/c" |}
                   (Sim.start (world (snd created))) in
  fst created = Returns ({| d_datacenter := "DC0"; d_path := "a/b/c";
                            d_existing_path := ""; d_id := "DC0/a/b/c" |}, None)
  /\ fst deleted = Returns ({| d_datacenter := "DC0"; d_path := "a/b/c";
                               d_existing_path := ""; d_id := "" |}, None)
  /\ map Sim.n_path (Sim.nodes (world (snd deleted))) = ["/DC0"; "/DC0/vm"].
Proof. repeat split. Qed.

(** C9 at a/b under the VM root, the service refusing to create b: the
    failed call returns a nil folder with its error, the code has already
    stored that nil in [root], and reading [root.InventoryPath] for the
    message panics. No error value is returned and no parent path is named.
    The folder a created before stays (no destroy is issued). *)
Theorem create_failure_panics :
  let run := resourceVSphereFolderCreate (mkData "DC0" "a/b" "")
                                         (Sim.start Sim.refusesB) in
  Sim.createFolder (world (snd run)) firstCreated "b"
  = (world (snd run), (None, Some "permission denied"))
  /\ fst run = Panics "runtime error: invalid memory address or nil pointer dereference"
  /\ filter isCreate (calls (snd run))
     = [ CallCreateFolder {| moref := 2; InventoryPath := "/DC0/vm" |} "a";
         CallCreateFolder firstCreated "b" ]
  /\ filter isDestroy (calls (snd run)) = []
  /\ map Sim.n_path (Sim.nodes (world (snd run))) = ["/DC0"; "/DC0/vm"; "/DC0/vm/a"].
Proof. repeat split. Qed.

(** ** The end-to-end scenario *)

Example e2e_create :
  let run := resourceVSphereFolderCreate (mkData "" "dev/team-a" "")
                                         (Sim.start Sim.dcOnly) in
  filter isCreate (calls (snd run))
  = [ CallCreateFolder {| moref := 2; InventoryPath := "/DC0/vm" |} "dev";
      CallCreateFolder firstCreated "team-a" ]
  /\ map Sim.n_path (Sim.nodes (world (snd run)))
     = ["/DC0"; "/DC0/vm"; "/DC0/vm/dev"; "/DC0/vm/dev/team-a"].
Proof. repeat split. Qed.

(** * Further properties of the resource *)

(** ** Create: what it calls, and that its loops end *)

Section CreateCalls.

Context {W : Type} {svc : InventoryService W}.

Implicit Types (st : St W) (f : folder) (d : ResourceData) (dc : Datacenter).

Lemma forallb_weaken (p q : Call -> bool) (l : list Call) :
  (forall c, p c = true -> q c = true) ->
  forallb p l = true -> forallb q l = true.
Proof.
  intros H. induction l as [|c l IH]; simpl; [reflexivity|].
  intros E. apply andb_true_iff in E. destruct E as [Ec El].
  rewrite (H c Ec), (IH El). reflexivity.
Qed.

(** What a run of the resolve loop adds to the state: lookups only, at most
    one per unit of fuel, and names appended to the list it was given. *)
Lemma resolve_calls fuel :
  forall dc base p folders st,
  exists tr : list Call,
    calls (snd (createFolder_resolve fuel dc base p folders st)) = (calls st ++ tr)%list
    /\ world (snd (createFolder_resolve fuel dc base p folders st)) = world st
    /\ forallb isLookup tr = true
    /\ List.length tr <= fuel.
Proof.
  induction fuel as [|fuel IH]; intros dc base p folders st.
  - exists []. cbn. rewrite app_nil_r. repeat split. lia.
  - rewrite resolve_unfold. cbv zeta.
    destruct (si_FindByInventoryPath (world st) p) as [[r|] [e|]];
      try (exists [CallFindByInventoryPath p]; cbn; repeat split; lia).
    destruct (strings.LastIndex p "/" <? 0)%Z;
      [exists [CallFindByInventoryPath p]; cbn; repeat split; lia|].
    destruct (String.eqb _ _);
      [exists [CallFindByInventoryPath p]; cbn; repeat split; lia|].
    destruct (IH dc base (sliceTo p (Z.to_nat (strings.LastIndex p "/")))
                 (folders ++ [snd (filepath.Split p)])%list
                 (logged (CallFindByInventoryPath p) st))
      as (tr & Ec & Ew & Hl & Hn).
    exists (CallFindByInventoryPath p :: tr).
    rewrite Ec, Ew. cbn [logged calls world]. rewrite <- app_assoc.
    repeat split; [exact Hl | simpl; lia].
Qed.

(** X5. The first loop of [createFolder], written [for { ... }] in the
    source, ends for every service and every path: with fuel beyond the
    length of the path the run is the one with fuel length + 1, it is not
    cut short, it issues at most length + 1 lookups and it leaves the
    inventory alone. *)
Theorem resolve_loop_ends fuel dc base p folders st :
  String.length p < fuel ->
  createFolder_resolve fuel dc base p folders st
  = createFolder_resolve (S (String.length p)) dc base p folders st
  /\ fst (createFolder_resolve fuel dc base p folders st) <> OutOfFuel
  /\ List.length (calls (snd (createFolder_resolve fuel dc base p folders st)))
     <= List.length (calls st) + S (String.length p)
  /\ world (snd (createFolder_resolve fuel dc base p folders st)) = world st.
Proof.
  intros Hfuel.
  assert (E : createFolder_resolve fuel dc base p folders st
              = createFolder_resolve (S (String.length p)) dc base p folders st).
  { apply resolve_fuel_mono; [lia|]. apply resolve_total. lia. }
  rewrite E. split; [reflexivity|]. split; [apply resolve_total; lia|].
  destruct (resolve_calls (S (String.length p)) dc base p folders st)
    as (tr & Ec & Ew & _ & Hn).
  rewrite Ec, Ew, length_app. split; [lia | reflexivity].
Qed.

Lemma create_loop_calls folders n :
  forall root st,
  exists tr : list Call,
    calls (snd (createFolder_create folders n root st)) = (calls st ++ tr)%list
    /\ forallb isCreate tr = true.
Proof.
  induction n as [|n IH]; intros root st.
  - exists []. cbn. rewrite app_nil_r. split; reflexivity.
  - cbn [createFolder_create]. unfold bind, deref, ret, panic. unfold_calls.
    destruct root as [r|];
      [|exists []; cbn; rewrite app_nil_r; split; reflexivity].
    destruct (folder_CreateFolder (world st) r (nth n folders "")) as [w' [[r'|] [e|]]];
      try (exists [CallCreateFolder r (nth n folders "")]; cbn; split; reflexivity).
    + destruct (IH (Some r') {| world := w';
                                calls := calls st ++ [CallCreateFolder r (nth n folders "")] |})
        as (tr & Ec & Hl).
      exists (CallCreateFolder r (nth n folders "") :: tr).
      unfold bind, deref, ret, panic, CreateFolder, command in Ec. rewrite Ec.
      cbn [calls]. rewrite <- app_assoc. split; [reflexivity | exact Hl].
    + destruct (IH None {| world := w';
                           calls := calls st ++ [CallCreateFolder r (nth n folders "")] |})
        as (tr & Ec & Hl).
      exists (CallCreateFolder r (nth n folders "") :: tr).
      unfold bind, deref, ret, panic, CreateFolder, command in Ec. rewrite Ec.
      cbn [calls]. rewrite <- app_assoc. split; [reflexivity | exact Hl].
Qed.

Lemma createFolder_calls f st :
  exists tr : list Call,
    calls (snd (createFolder f st)) = (calls st ++ tr)%list
    /\ forallb createCall tr = true.
Proof.
  assert (Lk : forall l, forallb isLookup l = true -> forallb createCall l = true).
  { intros l. apply forallb_weaken. intros c H. unfold createCall. rewrite H. reflexivity. }
  assert (Cr : forall l, forallb isCreate l = true -> forallb createCall l = true).
  { intros l. apply forallb_weaken. intros c H. unfold createCall. rewrite H. apply orb_true_r. }
  remember (createFolder f st) as run eqn:Run.
  unfold createFolder in Run. unfold bind at 1 in Run.
  unfold DatacenterOrDefault, query in Run.
  set (st0 := logged (CallDatacenterOrDefault (datacenter f)) st) in *.
  assert (H0 : calls st0 = (calls st ++ [CallDatacenterOrDefault (datacenter f)])%list)
    by reflexivity.
  destruct (finder_DatacenterOrDefault (world st) (datacenter f)) as [[dc|] [e|]];
    try (subst run; exists [CallDatacenterOrDefault (datacenter f)];
         split; reflexivity).
  unfold bind at 1, deref, ret at 1 in Run. unfold bind at 1 in Run.
  match type of Run with
  | context [createFolder_resolve ?n ?dc ?b ?p ?l st0] =>
      destruct (resolve_calls n dc b p l st0) as (tr1 & Ec1 & _ & Hl1 & _);
      destruct (createFolder_resolve n dc b p l st0) as [[[e|[ref folders]]|m|] st1]
  end; cbn [fst snd] in Ec1;
    try (subst run; exists (CallDatacenterOrDefault (datacenter f) :: tr1);
         cbn [snd ret]; rewrite Ec1, H0, <- app_assoc;
         split; [reflexivity | cbn; apply Lk, Hl1]).
  unfold bind at 1, assertFolder in Run.
  destruct ref as [r|r|r];
    try (subst run; exists (CallDatacenterOrDefault (datacenter f) :: tr1);
         cbn [snd panic]; rewrite Ec1, H0, <- app_assoc;
         split; [reflexivity | cbn; apply Lk, Hl1]).
  unfold ret at 1, bind in Run.
  destruct (create_loop_calls folders (List.length folders) (Some r) st1)
    as (tr2 & Ec2 & Hl2).
  exists (CallDatacenterOrDefault (datacenter f) :: tr1 ++ tr2)%list.
  assert (Es : calls (snd run) = (calls st1 ++ tr2)%list).
  { subst run. rewrite <- Ec2.
    destruct (createFolder_create folders (List.length folders) (Some r) st1)
      as [[err| |] st2]; reflexivity. }
  rewrite Es, Ec1, H0, <- !app_assoc. split; [reflexivity|].
  cbn. rewrite forallb_app, (Lk _ Hl1), (Cr _ Hl2). reflexivity.
Qed.

(** X1. Whatever the service answers and whatever the input, Create ends,
    and the calls it issues are lookups and [CreateFolder] calls only: it
    never asks for children, never destroys and never waits on a task. *)
Theorem create_only_looks_up_and_creates d st :
  fst (resourceVSphereFolderCreate d st) <> OutOfFuel
  /\ exists tr : list Call,
       calls (snd (resourceVSphereFolderCreate d st)) = (calls st ++ tr)%list
       /\ forallb createCall tr = true
       /\ filter isDestroy tr = []
       /\ filter isChildren tr = [].
Proof.
  split.
  { unfold resourceVSphereFolderCreate. rewrite folder_of_data. unfold bind at 1.
    pose proof (createFolder_total
                  {| datacenter := d_datacenter d; existingPath := "";
                     path := strings.TrimRight (d_path d) "/" |} st) as Ht.
    destruct (createFolder _ st) as [[[f' [e|]]|m|] st1]; try discriminate;
      [|exfalso; apply Ht; reflexivity].
    rewrite read_unfold. cbv zeta.
    destruct (lookupDatacenter _ _) as [odc [e|]]; [discriminate|].
    destruct (si_FindByInventoryPath _ _) as [[r|] [e|]]; discriminate. }
  destruct (create_calls d st) as (_ & tr2 & Ec2 & Hl2).
  destruct (createFolder_calls
              {| datacenter := d_datacenter d; existingPath := "";
                 path := strings.TrimRight (d_path d) "/" |} st)
    as (tr1 & Ec1 & Hl1).
  cbv zeta in Ec2. rewrite Ec1 in Ec2.
  exists (tr1 ++ tr2)%list. rewrite Ec2, <- app_assoc.
  assert (Hall : forallb createCall (tr1 ++ tr2) = true).
  { rewrite forallb_app, Hl1. simpl.
    revert Hl2. apply forallb_weaken. intros c H. unfold createCall.
    rewrite H. reflexivity. }
  split; [reflexivity|]. split; [exact Hall|].
  clear - Hall. induction (tr1 ++ tr2)%list as [|c l IH]; [split; reflexivity|].
  simpl in Hall. apply andb_true_iff in Hall. destruct Hall as [Hc Hl].
  destruct (IH Hl) as [I1 I2].
  destruct c; simpl in Hc; try discriminate; simpl; rewrite ?I1, ?I2; split; reflexivity.
Qed.

End CreateCalls.

(** ** Create: a path that is already there, and a path held by something
    that is not a folder *)

Section CreateFound.

Context {W : Type} {svc : InventoryService W}.

Implicit Types (st : St W) (f : folder) (d : ResourceData) (dc : Datacenter).

(** The path [createFolder] looks up first. *)
Lemma createFolder_first_found f st dc r :
  finder_DatacenterOrDefault (world st) (datacenter f) = (Some dc, None) ->
  si_FindByInventoryPath (world st)
    (filepath.ToSlash (filepath.Join [filepath.Join [InventoryPath dc; "vm"]; path f]))
  = (Some r, None) ->
  createFolder f st
  = match r with
    | IsFolder _ =>
        (Returns (f, None),
         {| world := world st;
            calls := calls st ++
                     [ CallDatacenterOrDefault (datacenter f);
                       CallFindByInventoryPath
                         (filepath.ToSlash
                            (filepath.Join [filepath.Join [InventoryPath dc; "vm"];
                                            path f])) ] |})
    | _ =>
        (Panics "interface conversion: object.Reference is not *object.Folder",
         {| world := world st;
            calls := calls st ++
                     [ CallDatacenterOrDefault (datacenter f);
                       CallFindByInventoryPath
                         (filepath.ToSlash
                            (filepath.Join [filepath.Join [InventoryPath dc; "vm"];
                                            path f])) ] |})
    end.
Proof.
  intros Hdc Hf. unfold createFolder. unfold bind at 1. unfold_calls.
  rewrite Hdc. cbv beta iota zeta. unfold bind at 1. unfold deref at 1, ret at 1.
  cbv beta iota zeta. unfold bind at 1.
  rewrite resolve_found with (r := r) by exact Hf.
  unfold logged. cbn [world calls]. rewrite <- app_assoc. cbn [app].
  destruct r as [fo|x|x]; reflexivity.
Qed.

(** X4. When the desired path already names a folder, Create finds it with
    its first lookup, issues no [CreateFolder] call at all (lookups only)
    and leaves the inventory as it was, for any path, well-formed or not. *)
Theorem create_existing_folder_creates_nothing d st dc (fo : Folder) :
  finder_DatacenterOrDefault (world st) (d_datacenter d) = (Some dc, None) ->
  si_FindByInventoryPath (world st)
    (filepath.ToSlash
       (filepath.Join [filepath.Join [InventoryPath dc; "vm"];
                       strings.TrimRight (d_path d) "/"]))
  = (Some (IsFolder fo), None) ->
  let run := resourceVSphereFolderCreate d st in
  world (snd run) = world st
  /\ exists tr : list Call,
       calls (snd run)
       = (calls st ++
          [ CallDatacenterOrDefault (d_datacenter d);
            CallFindByInventoryPath
              (filepath.ToSlash
                 (filepath.Join [filepath.Join [InventoryPath dc; "vm"];
                                 strings.TrimRight (d_path d) "/"])) ] ++ tr)%list
       /\ forallb isLookup tr = true.
Proof.
  intros Hdc Hf run.
  destruct (create_calls d st) as (Ew & tr & Ec & Hl). cbv zeta in Ew, Ec.
  rewrite (createFolder_first_found
             {| datacenter := d_datacenter d; existingPath := "";
                path := strings.TrimRight (d_path d) "/" |}
             st dc (IsFolder fo) Hdc Hf) in Ew, Ec.
  cbn [snd world calls datacenter path] in Ew, Ec. subst run.
  split; [exact Ew|]. exists tr. rewrite Ec, <- app_assoc.
  split; [reflexivity | exact Hl].
Qed.

(** X7. When the desired path names an object that is not a folder (a
    virtual machine, a datacenter), the type assertion of line 111 panics:
    Create ends in that panic after its two lookups, with the inventory
    untouched and no error value for the caller. *)
Theorem create_panics_on_non_folder d st dc (r : Reference) :
  finder_DatacenterOrDefault (world st) (d_datacenter d) = (Some dc, None) ->
  si_FindByInventoryPath (world st)
    (filepath.ToSlash
       (filepath.Join [filepath.Join [InventoryPath dc; "vm"];
                       strings.TrimRight (d_path d) "/"]))
  = (Some r, None) ->
  (forall fo, r <> IsFolder fo) ->
  resourceVSphereFolderCreate d st
  = (Panics "interface conversion: object.Reference is not *object.Folder",
     {| world := world st;
        calls := calls st ++
                 [ CallDatacenterOrDefault (d_datacenter d);
                   CallFindByInventoryPath
                     (filepath.ToSlash
                        (filepath.Join [filepath.Join [InventoryPath dc; "vm"];
                                        strings.TrimRight (d_path d) "/"])) ] |}).
Proof.
  intros Hdc Hf Hr. unfold resourceVSphereFolderCreate. rewrite folder_of_data.
  unfold bind at 1.
  rewrite (createFolder_first_found
             {| datacenter := d_datacenter d; existingPath := "";
                path := strings.TrimRight (d_path d) "/" |}
             st dc r Hdc Hf).
  destruct r as [fo|x|x]; [exfalso; apply (Hr fo); reflexivity | |]; reflexivity.
Qed.

End CreateFound.

(** ** Create at any depth: the missing suffix is created root-to-leaf *)

Lemma createdNames_app (a b : list Call) :
  createdNames (a ++ b) = (createdNames a ++ createdNames b)%list.
Proof. unfold createdNames. apply flat_map_app. Qed.

Lemma createdNames_lookups (l : list Call) :
  forallb isLookup l = true -> createdNames l = [].
Proof.
  induction l as [|c l IH]; [reflexivity|]. simpl. intros H.
  apply andb_true_iff in H. destruct H as [Hc Hl].
  rewrite (IH Hl). destruct c; simpl in Hc; try discriminate; reflexivity.
Qed.

Lemma pathsDownTo_cons (base : string) (segs : list string) :
  pathsDownTo base segs = base :: tl (pathsDownTo base segs).
Proof. destruct segs; reflexivity. Qed.

Lemma rev_firstn_snoc (l : list string) (i : nat) :
  i < List.length l ->
  rev (firstn (S i) l) = nth i l "" :: rev (firstn i l).
Proof.
  intros H. rewrite firstn_snoc_nth by exact H. rewrite rev_app_distr. reflexivity.
Qed.

Lemma fold_child_grows (segs : list string) :
  forall base,
    String.length base + List.length segs
    <= String.length (fold_left child segs base).
Proof.
  induction segs as [|s r IH]; intros base; simpl; [lia|].
  specialize (IH (base // s)). rewrite child_length in IH. lia.
Qed.

Section CreateDepth.

Context {W : Type} {svc : InventoryService W}.

Implicit Types (st : St W) (f : folder) (d : ResourceData) (dc : Datacenter).

(** The resolve loop from a leaf below an existing ancestor [root]: it looks
    up every path from the leaf up to [root] and returns what it found at
    [root] with the missing names, leaf first. *)
Lemma resolve_finds_ancestor dc base (root : string) (r : Reference)
      (missing : list string) :
  Forall (fun x => goodName x = true) missing ->
  String.length (InventoryPath dc) < String.length root ->
  forall folders st fuel,
    S (List.length missing) <= fuel ->
    si_FindByInventoryPath (world st) root = (Some r, None) ->
    Forall (fun p => si_FindByInventoryPath (world st) p = (None, None))
           (tl (pathsDownTo root missing)) ->
    createFolder_resolve fuel dc base (fold_left child missing root) folders st
    = (Returns (inr (r, (folders ++ rev missing)%list)),
       {| world := world st;
          calls := calls st ++
                   map CallFindByInventoryPath (rev (pathsDownTo root missing)) |}).
Proof.
  intros Hgood Hlen.
  induction missing as [|s missing IH] using rev_ind;
    intros folders st fuel Hfuel Hroot Habs.
  - destruct fuel as [|fuel]; [simpl in Hfuel; lia|].
    cbn [fold_left]. rewrite resolve_found with (r := r) by exact Hroot.
    cbn. rewrite app_nil_r. reflexivity.
  - apply Forall_app in Hgood. destruct Hgood as [Hm Hs].
    inversion Hs as [|? ? Hs' _]; subst.
    pose proof (goodName_spec s Hs') as (_ & Hns & _).
    rewrite pathsDownTo_snoc in Habs |- *.
    rewrite (pathsDownTo_cons root missing) in Habs. cbn [tl app] in Habs.
    apply Forall_app in Habs. destruct Habs as [Hrest Hleaf].
    inversion Hleaf as [|? ? Hl _]; subst.
    rewrite fold_child_snoc in Hl |- *.
    rewrite length_app in Hfuel. simpl in Hfuel.
    destruct fuel as [|fuel]; [lia|].
    rewrite resolve_absent; [| exact Hl | exact Hns | ].
    + rewrite (IH Hm (folders ++ [s])%list
                 (logged (CallFindByInventoryPath
                            (fold_left child missing root // s)) st)
                 fuel); [| lia | exact Hroot | exact Hrest].
      cbn [logged world calls]. rewrite !rev_app_distr. cbn [rev app map].
      rewrite <- !app_assoc. reflexivity.
    + apply eqb_length_neq.
      pose proof (fold_child_length missing root). lia.
Qed.

(** The names the second loop creates are, in order, the list read from its
    end, up to the first failure. *)
Lemma create_loop_names folders n :
  n <= List.length folders ->
  forall root st,
  exists m,
    m <= n
    /\ createdNames (calls (snd (createFolder_create folders n root st)))
       = (createdNames (calls st) ++ firstn m (rev (firstn n folders)))%list
    /\ (fst (createFolder_create folders n root st) = Returns None -> m = n).
Proof.
  induction n as [|n IH]; intros Hn root st.
  - exists 0. cbn. rewrite app_nil_r. split; [lia|]. split; reflexivity.
  - rewrite rev_firstn_snoc by lia.
    cbn [createFolder_create]. unfold bind, deref, ret, panic. unfold_calls.
    destruct root as [r|].
    2:{ exists 0. cbn. rewrite app_nil_r. repeat split; [lia | discriminate]. }
    destruct (folder_CreateFolder (world st) r (nth n folders "")) as [w' [[r'|] [e|]]];
      try (exists 1; cbn [fst snd calls]; rewrite createdNames_app;
           repeat split; [lia | discriminate]).
    + destruct (IH ltac:(lia) (Some r')
                   {| world := w';
                      calls := calls st ++ [CallCreateFolder r (nth n folders "")] |})
        as (m & Hm & En & Hok).
      unfold bind, deref, ret, panic, CreateFolder, command in En, Hok.
      exists (S m). split; [lia|]. split.
      * rewrite En. cbn [calls]. rewrite createdNames_app, <- app_assoc. reflexivity.
      * intros H. rewrite (Hok H). reflexivity.
    + destruct (IH ltac:(lia) None
                   {| world := w';
                      calls := calls st ++ [CallCreateFolder r (nth n folders "")] |})
        as (m & Hm & En & Hok).
      unfold bind, deref, ret, panic, CreateFolder, command in En, Hok.
      exists (S m). split; [lia|]. split.
      * rewrite En. cbn [calls]. rewrite createdNames_app, <- app_assoc. reflexivity.
      * intros H. rewrite (Hok H). reflexivity.
Qed.

(** X6. At any depth: when the first elements [pre] of the desired path name
    an existing folder and nothing below it on the way to the leaf is found,
    Create looks the paths up from the leaf upwards, and the folders it then
    creates are the missing elements in root-to-leaf order: a leading part
    of [missing] in every run, all of [missing] when Create returns without
    error. *)
Theorem create_missing_suffix_in_order
    (w : W) (d : ResourceData) (dn : string) (ds pre missing : list string)
    (dc : Datacenter) (fo : Folder) :
  Forall (fun x => goodName x = true) (dn :: ds) ->
  Forall (fun x => goodName x = true) pre ->
  Forall (fun x => goodName x = true) missing ->
  InventoryPath dc = slashed (dn :: ds) ->
  strings.TrimRight (d_path d) "/" = relPath (pre ++ missing) ->
  finder_DatacenterOrDefault w (d_datacenter d) = (Some dc, None) ->
  si_FindByInventoryPath w (fold_left child pre (InventoryPath dc // "vm"))
  = (Some (IsFolder fo), None) ->
  Forall (fun p => si_FindByInventoryPath w p = (None, None))
         (tl (pathsDownTo (fold_left child pre (InventoryPath dc // "vm")) missing)) ->
  let run := resourceVSphereFolderCreate d {| world := w; calls := [] |} in
  (exists tr : list Call,
      calls (snd run)
      = (CallDatacenterOrDefault (d_datacenter d)
           :: map CallFindByInventoryPath
                (rev (pathsDownTo (fold_left child pre (InventoryPath dc // "vm"))
                                  missing)) ++ tr)%list)
  /\ exists m,
       createdNames (calls (snd run)) = firstn m missing
       /\ (forall d', fst run = Returns (d', None) -> createdNames (calls (snd run)) = missing).
Proof.
  intros Hd Hpre Hmiss Hpath Htrim Hdc Hroot Habs run.
  set (f := {| datacenter := d_datacenter d; existingPath := "";
               path := strings.TrimRight (d_path d) "/" |}).
  set (root := fold_left child pre (InventoryPath dc // "vm")) in *.
  set (looked := (CallDatacenterOrDefault (d_datacenter d)
                    :: map CallFindByInventoryPath (rev (pathsDownTo root missing)))).
  set (st1 := {| world := w; calls := looked |}).
  destruct (createFolder_path (InventoryPath dc) dn ds (pre ++ missing) Hd
              (Forall_goodName_app pre missing Hpre Hmiss) Hpath) as [Ebase Ep].
  rewrite fold_left_app in Ep. fold root in Ep.
  assert (Hlen : String.length (InventoryPath dc) < String.length root).
  { pose proof (fold_child_length pre (InventoryPath dc // "vm")) as H.
    rewrite child_length in H. unfold root. lia. }
  assert (Run : createFolder f {| world := w; calls := [] |}
                = bind (createFolder_create (rev missing) (List.length (rev missing))
                                            (Some fo))
                       (fun err => ret (f, err)) st1).
  { unfold createFolder. unfold bind at 1. unfold_calls.
    cbn [world datacenter path f]. rewrite Hdc. cbv beta iota zeta.
    unfold bind at 1. unfold deref at 1, ret at 1. cbv beta iota zeta.
    rewrite Htrim, Ep, Ebase. unfold bind at 1.
    rewrite (resolve_finds_ancestor dc _ root (IsFolder fo) missing Hmiss Hlen);
      [| cbn [logged world];
         pose proof (fold_child_grows missing root) as Hgrow; lia
       | exact Hroot | exact Habs ].
    cbn [logged world calls app]. unfold bind at 1, assertFolder, ret at 1.
    reflexivity. }
  destruct (create_calls d {| world := w; calls := [] |}) as (_ & tr & Ec & Hl).
  cbv zeta in Ec. fold f in Ec. rewrite Run in Ec.
  destruct (create_loop_names (rev missing) (List.length (rev missing)) (le_n _)
              (Some fo) st1) as (m & Hm & En & Hok).
  rewrite firstn_all, rev_involutive in En.
  assert (Es : calls (snd (bind (createFolder_create (rev missing)
                                   (List.length (rev missing)) (Some fo))
                                (fun err => ret (f, err)) st1))
               = calls (snd (createFolder_create (rev missing)
                               (List.length (rev missing)) (Some fo) st1))).
  { unfold bind, ret.
    destruct (createFolder_create _ _ _ st1) as [[err| |] st2]; reflexivity. }
  rewrite Es in Ec.
  destruct (create_loop_calls (rev missing) (List.length (rev missing)) (Some fo) st1)
    as (tr2 & Ec2 & _).
  assert (Hnames : createdNames (calls (snd run)) = firstn m missing).
  { subst run. rewrite Ec, createdNames_app, En, (createdNames_lookups tr Hl).
    rewrite app_nil_r. unfold st1, looked. cbn [calls].
    change (createdNames (CallDatacenterOrDefault (d_datacenter d)
                            :: map CallFindByInventoryPath (rev (pathsDownTo root missing))))
      with (createdNames (map CallFindByInventoryPath (rev (pathsDownTo root missing)))).
    rewrite createdNames_lookups; [reflexivity|].
    clear. induction (rev (pathsDownTo root missing)); simpl; auto. }
  split.
  - exists (tr2 ++ tr)%list. subst run. rewrite Ec, Ec2. unfold st1, looked.
    cbn [calls]. rewrite <- !app_assoc. reflexivity.
  - exists m. split; [exact Hnames|].
    intros d' Hret. rewrite Hnames.
    assert (Hnone : fst (createFolder_create (rev missing) (List.length (rev missing))
                                             (Some fo) st1) = Returns None).
    { subst run. unfold resourceVSphereFolderCreate in Hret.
      rewrite folder_of_data in Hret. fold f in Hret.
      unfold bind at 1 in Hret. rewrite Run in Hret.
      unfold bind at 1, ret at 1 in Hret.
      destruct (createFolder_create _ _ _ st1) as [[[e|]| |] st2];
        try discriminate; reflexivity. }
    rewrite (Hok Hnone), length_rev. apply firstn_all.
Qed.

End CreateDepth.

(** ** Read, and what Create leaves in the resource data *)

Section DataEffects.

Context {W : Type} {svc : InventoryService W}.

Implicit Types (st : St W) (f : folder) (d : ResourceData).

(** X3. Read never changes the inventory, never panics and issues at most
    two calls, both lookups. It keeps the identity whenever its lookup of
    "<datacenter field>/vm/<path>" finds an object of any kind, folder or
    not, clears it when the lookup finds nothing, and touches no other
    field. *)
Theorem read_only_looks_up d st :
  let run := resourceVSphereFolderRead d st in
  world (snd run) = world st
  /\ (exists tr : list Call,
         calls (snd run) = (calls st ++ tr)%list
         /\ forallb isLookup tr = true /\ List.length tr <= 2)
  /\ (exists d' e,
         fst run = Returns (d', e)
         /\ d_datacenter d' = d_datacenter d /\ d_path d' = d_path d
         /\ d_existing_path d' = d_existing_path d
         /\ (d' = d \/ (d' = SetId d "" /\ e = None)))
  /\ (forall odc r,
         lookupDatacenter (world st) (d_datacenter d) = (odc, None) ->
         si_FindByInventoryPath (world st) (d_datacenter d ++ "/vm/" ++ d_path d)
         = (Some r, None) ->
         fst run = Returns (d, None))
  /\ (forall odc,
         lookupDatacenter (world st) (d_datacenter d) = (odc, None) ->
         si_FindByInventoryPath (world st) (d_datacenter d ++ "/vm/" ++ d_path d)
         = (None, None) ->
         fst run = Returns (SetId d "", None)).
Proof.
  cbv zeta. rewrite read_unfold. cbv zeta.
  assert (L1 : forallb isLookup [datacenterCall (d_datacenter d)] = true)
    by (unfold datacenterCall; destruct (negb _); reflexivity).
  assert (L2 : forall q, forallb isLookup
                           [datacenterCall (d_datacenter d); CallFindByInventoryPath q]
                         = true)
    by (intros q; unfold datacenterCall; destruct (negb _); reflexivity).
  destruct (lookupDatacenter (world st) (d_datacenter d)) as [odc [e|]].
  { split; [reflexivity|].
    split; [exists [datacenterCall (d_datacenter d)]; repeat split; [exact L1 | simpl; lia]|].
    split; [exists d, (Some e); repeat split; left; reflexivity|].
    split; intros; discriminate. }
  destruct (si_FindByInventoryPath (world st) _) as [[r|] [e|]];
    (split; [reflexivity|]);
    (split; [eexists; unfold logged; cbn [snd calls]; rewrite <- app_assoc;
             split; [reflexivity | split; [apply L2 | simpl; lia]]|]).
  - split; [exists d, (Some e); repeat split; left; reflexivity|].
    split; intros; discriminate.
  - split; [exists d, None; repeat split; left; reflexivity|].
    split; intros; [reflexivity | discriminate].
  - split; [exists d, (Some e); repeat split; left; reflexivity|].
    split; intros; discriminate.
  - split; [exists (SetId d ""), None; repeat split; right; split; reflexivity|].
    split; intros; [discriminate | reflexivity].
Qed.

(** X8. Whatever path existed before, Create never records a non-empty
    [existing_path]. When [createFolder] fails the resource data come back
    untouched; otherwise [existing_path] is set to the empty string and the
    identity to "<datacenter field>/<trimmed path>", and this also when the
    closing Read fails; only a Read that finds nothing clears the identity
    again. The datacenter and path fields are never changed. *)
Theorem create_data_effects d st d' e st' :
  resourceVSphereFolderCreate d st = (Returns (d', e), st') ->
  d_datacenter d' = d_datacenter d
  /\ d_path d' = d_path d
  /\ ((d' = d /\ e <> None)
      \/ (d_existing_path d' = ""
          /\ (d_id d' = d_datacenter d ++ "/" ++ strings.TrimRight (d_path d) "/"
              \/ (d_id d' = "" /\ e = None)))).
Proof.
  unfold resourceVSphereFolderCreate. rewrite folder_of_data. unfold bind at 1.
  destruct (createFolder _ st) as [[[f' [e1|]]|m|] st1] eqn:E;
    try (intros H; discriminate).
  { intros H. injection H as <- <- _.
    repeat split. left. split; [reflexivity | discriminate]. }
  apply createFolder_keeps_struct in E. subst f'.
  cbn [existingPath datacenter path]. rewrite read_unfold. cbv zeta.
  cbn [d_datacenter d_path SetId Set_existing_path].
  destruct (lookupDatacenter (world st1) (d_datacenter d)) as [odc [e1|]].
  { intros H. injection H as <- <- _. cbn. repeat split. right.
    split; [reflexivity | left; reflexivity]. }
  destruct (si_FindByInventoryPath (world st1) _) as [[r|] [e1|]];
    intros H; injection H as <- <- _; cbn; repeat split; right;
    (split; [reflexivity|]);
    first [left; reflexivity | right; split; reflexivity].
Qed.

End DataEffects.

(** ** Delete: what it calls, where it stops, and what it cannot do *)

Lemma TrimRight_slash_snoc (p : string) :
  strings.TrimRight (p ++ "/") "/" = strings.TrimRight p "/".
Proof.
  induction p as [|c p IH]; [reflexivity|].
  change (String c p ++ "/") with (String c (p ++ "/")).
  cbn [strings.TrimRight]. rewrite IH. reflexivity.
Qed.

Section DeleteProps.

Context {W : Type} {svc : InventoryService W}.

Implicit Types (st : St W) (f : folder) (s : pruneState) (d : ResourceData).

Ltac cases :=
  repeat match goal with
         | |- context [match ?x with _ => _ end] =>
             lazymatch x with
             | context [match _ with _ => _ end] => fail
             | _ => destruct x; cbn [fst snd world calls]
             end
         end.

(** Every pass starts with the children query on the folder it holds, and
    what follows are destroys, waits and lookups. *)
Lemma body_calls f s st :
  exists tr : list Call,
    calls (snd (deleteFolder_body f s st))
    = (calls st ++ CallChildren (cur_folder s) :: tr)%list
    /\ forallb pruneCall tr = true.
Proof.
  unfold deleteFolder_body, bind, deref, assertFolder, ret, panic.
  unfold_calls. unfold logged. cbn [world calls].
  cases; rewrite <- ?app_assoc; cbn [app];
    eexists; (split; [reflexivity | reflexivity]).
Qed.

Lemma loop_calls fuel :
  forall f s st,
  exists tr : list Call,
    calls (snd (deleteFolder_loop fuel f s st)) = (calls st ++ tr)%list
    /\ forallb pruneCall tr = true.
Proof.
  induction fuel as [|fuel IH]; intros f s st;
    destruct (String.eqb (currentPath s) (existingPath f)) eqn:G;
    try (rewrite loop_done by exact G; exists []; cbn; rewrite app_nil_r;
         split; reflexivity).
  - cbn [deleteFolder_loop]. rewrite G. exists []. cbn. rewrite app_nil_r.
    split; reflexivity.
  - rewrite loop_unfold by exact G.
    destruct (body_calls f s st) as (tr1 & E1 & H1).
    destruct (deleteFolder_body f s st) as [[[s'|e]|m|] st1]; cbn [snd] in E1;
      try (exists (CallChildren (cur_folder s) :: tr1); cbn [snd];
           split; [exact E1 | exact H1]).
    destruct (IH f s' st1) as (tr2 & E2 & H2).
    exists ((CallChildren (cur_folder s) :: tr1) ++ tr2)%list.
    rewrite E2, E1, <- app_assoc. split; [reflexivity|].
    rewrite forallb_app. cbn [forallb]. cbn [forallb] in H1.
    change (pruneCall (CallChildren (cur_folder s))) with true.
    simpl. rewrite H1, H2. reflexivity.
Qed.

(** X2. Whatever the service answers, Delete issues lookups, children
    queries, destroys and waits only, never a [CreateFolder]; and what it
    does to the resource data is decided by its result alone: the identity
    is cleared when it returns no error, and nothing at all is changed when
    it returns one. *)
Theorem delete_never_creates fuel d st :
  (exists tr : list Call,
      calls (snd (resourceVSphereFolderDelete fuel d st)) = (calls st ++ tr)%list
      /\ forallb pruneCall tr = true
      /\ filter isCreate tr = [])
  /\ (forall d' e,
         fst (resourceVSphereFolderDelete fuel d st) = Returns (d', e) ->
         (e = None /\ d' = SetId d "") \/ (e <> None /\ d' = d)).
Proof.
  assert (NoCreate : forall l, forallb pruneCall l = true -> filter isCreate l = []).
  { induction l as [|c l IH]; [reflexivity|]. simpl. intros H.
    apply andb_true_iff in H. destruct H as [Hc Hl]. rewrite (IH Hl).
    destruct c; simpl in Hc; try discriminate; reflexivity. }
  assert (L1 : forallb pruneCall [datacenterCall (d_datacenter d)] = true)
    by (unfold datacenterCall; destruct (negb _); reflexivity).
  assert (L2 : forall q, forallb pruneCall
                           [datacenterCall (d_datacenter d); CallFindByInventoryPath q]
                         = true)
    by (intros q; unfold datacenterCall; destruct (negb _); reflexivity).
  remember (resourceVSphereFolderDelete fuel d st) as run eqn:Run.
  assert (Close : forall (r : outcome (ResourceData * option error)) (w : W)
                         (tr : list Call),
             forallb pruneCall tr = true ->
             (forall d' e, r = Returns (d', e) ->
                           (e = None /\ d' = SetId d "") \/ (e <> None /\ d' = d)) ->
             run = (r, {| world := w; calls := calls st ++ tr |}) ->
             (exists tr : list Call,
                 calls (snd run) = (calls st ++ tr)%list
                 /\ forallb pruneCall tr = true
                 /\ filter isCreate tr = [])
             /\ (forall d' e,
                    fst run = Returns (d', e) ->
                    (e = None /\ d' = SetId d "") \/ (e <> None /\ d' = d))).
  { intros r w tr Htr Hr ->. cbn [fst snd calls]. split; [|exact Hr].
    exists tr. split; [reflexivity|]. split; [exact Htr | apply NoCreate, Htr]. }
  rewrite delete_unfold in Run. cbv zeta in Run.
  destruct (lookupDatacenter (world st) (d_datacenter d)) as [odc [e|]].
  { refine (Close _ _ _ L1 _ Run). intros d' e' H. injection H as <- <-.
    right. split; [discriminate | reflexivity]. }
  destruct (si_FindByInventoryPath (world st) _) as [[[fo|dc|o]|] [e|]];
    try (refine (Close _ _ _ (L2 _) _ Run); intros d' e' H;
         first [ discriminate
               | injection H as <- <-; right; split; [discriminate | reflexivity] ]).
  match type of Run with
  | context [deleteFolder_loop fuel ?f ?s ?st2] =>
      destruct (loop_calls fuel f s st2) as (tr & Ec & Hl);
      destruct (deleteFolder_loop fuel f s st2) as [[[e|]|m|] [w3 c3]]
  end; cbn [snd calls] in Ec; subst c3; rewrite <- app_assoc in Run;
    (refine (Close _ _ _ _ _ Run);
     [ rewrite forallb_app, (L2 _), Hl; reflexivity
     | intros d' e' H;
       first [ discriminate
             | injection H as <- <-;
               first [ right; split; [discriminate | reflexivity]
                     | left; split; reflexivity ] ] ]).
Qed.

(** [k] complete passes take [k] units of fuel and lead to the state
    [prune_passes] gives. *)
Lemma loop_skip_passes (k : nat) f :
  forall fuel s0 st0 s st,
    prune_passes k f s0 st0 = Some (s, st) ->
    deleteFolder_loop (k + fuel) f s0 st0 = deleteFolder_loop fuel f s st.
Proof.
  induction k as [|k IH]; intros fuel s0 st0 s st H.
  - cbn in H. injection H as -> ->. reflexivity.
  - cbn [prune_passes] in H.
    destruct (String.eqb (currentPath s0) (existingPath f)) eqn:G; [discriminate|].
    change (S k + fuel) with (S (k + fuel)). rewrite loop_unfold by exact G.
    destruct (deleteFolder_body f s0 st0) as [[[s1|e]|m|] st1]; try discriminate.
    apply IH. exact H.
Qed.

(** X9. A destroy that fails stops the prune at once: [deleteFolder] returns
    the service's error as it is, after the children query and the destroy
    call of that pass and nothing more (no wait, no further lookup), with
    the inventory as the failed call left it; the folders destroyed by the
    earlier passes stay destroyed. *)
Theorem prune_stops_when_destroy_fails
    (k fuel : nat) f st0 (odc : option Datacenter) (fo : Folder)
    s st (w' : W) (t : option Task) (e : error) :
  lookupDatacenter (world st0) (datacenter f) = (odc, None) ->
  si_FindByInventoryPath (world st0) (datacenter f ++ "/vm/" ++ path f)
  = (Some (IsFolder fo), None) ->
  prune_passes k f {| cur_folder := fo; currentPath := path f |}
    {| world := world st0;
       calls := calls st0 ++
                [ datacenterCall (datacenter f);
                  CallFindByInventoryPath (datacenter f ++ "/vm/" ++ path f) ] |}
  = Some (s, st) ->
  String.eqb (currentPath s) (existingPath f) = false ->
  folder_Children (world st) (cur_folder s) = ([], None) ->
  folder_Destroy (world st) (cur_folder s) = (w', (t, Some e)) ->
  k < fuel ->
  deleteFolder fuel f st0
  = (Returns (Some e),
     {| world := w';
        calls := calls st ++ [CallChildren (cur_folder s); CallDestroy (cur_folder s)] |}).
Proof.
  intros Hdc Hf Hreach Hguard Hch Hd Hfuel.
  rewrite (deleteFolder_found fuel f st0 odc fo Hdc Hf).
  replace fuel with (k + S (fuel - S k)) by lia.
  rewrite (loop_skip_passes k f _ _ _ s st Hreach).
  rewrite loop_unfold by exact Hguard.
  unfold deleteFolder_body, bind, ret. unfold_calls. unfold logged.
  cbn [world calls]. rewrite Hch.
  change (0 <? List.length (@nil Reference))%nat with false. cbv beta iota.
  cbn [world calls]. rewrite Hd. cbv beta iota. cbn [world calls].
  rewrite <- app_assoc. reflexivity.
Qed.

End DeleteProps.

(** ** Delete: edges of the prune loop *)

Section DeleteEdges.

Context {W : Type} {svc : InventoryService W}.

Implicit Types (st : St W) (f : folder) (s : pruneState) (d : ResourceData).

(** A pass whose parent lookup finds nothing keeps the folder it held. *)
Lemma body_pass_orphan f s st w1 w2 t :
  folder_Children (world st) (cur_folder s) = ([], None) ->
  folder_Destroy (world st) (cur_folder s) = (w1, (Some t, None)) ->
  task_Wait w1 t = (w2, None) ->
  si_FindByInventoryPath w2 (datacenter f ++ "/vm/" ++ parentPath (currentPath s))
  = (None, None) ->
  deleteFolder_body f s st
  = (Returns (inl {| cur_folder := cur_folder s;
                     currentPath := parentPath (currentPath s) |}),
     {| world := w2;
        calls := calls st ++
                 [ CallChildren (cur_folder s); CallDestroy (cur_folder s); CallWait t;
                   CallFindByInventoryPath
                     (datacenter f ++ "/vm/" ++ parentPath (currentPath s)) ] |}).
Proof.
  intros Hc Hd Hw Hf.
  unfold deleteFolder_body, bind, deref, assertFolder, ret. unfold_calls.
  cbn [world calls logged]. rewrite Hc.
  change (0 <? List.length (@nil Reference))%nat with false.
  cbv beta iota. cbn [world calls logged]. rewrite Hd.
  cbv beta iota. cbn [world calls logged]. rewrite Hw.
  cbv beta iota. cbn [world calls logged]. rewrite Hf.
  cbv beta iota. unfold logged. cbn [world calls]. rewrite <- !app_assoc. reflexivity.
Qed.

(** X10. When the lookup of the parent path finds nothing and the boundary
    is not yet reached, the loop goes on with the folder object it already
    holds: the next pass puts its children query to the very folder the
    previous pass destroyed. *)
Theorem prune_reuses_destroyed_folder f s st (w1 w2 : W) (t : Task) (fuel : nat) :
  String.eqb (currentPath s) (existingPath f) = false ->
  String.eqb (parentPath (currentPath s)) (existingPath f) = false ->
  folder_Children (world st) (cur_folder s) = ([], None) ->
  folder_Destroy (world st) (cur_folder s) = (w1, (Some t, None)) ->
  task_Wait w1 t = (w2, None) ->
  si_FindByInventoryPath w2 (datacenter f ++ "/vm/" ++ parentPath (currentPath s))
  = (None, None) ->
  exists tr : list Call,
    calls (snd (deleteFolder_loop (S (S fuel)) f s st))
    = (calls st ++
       [ CallChildren (cur_folder s); CallDestroy (cur_folder s); CallWait t;
         CallFindByInventoryPath (datacenter f ++ "/vm/" ++ parentPath (currentPath s));
         CallChildren (cur_folder s) ] ++ tr)%list.
Proof.
  intros G1 G2 Hc Hd Hw Hf.
  rewrite loop_unfold by exact G1.
  rewrite (body_pass_orphan f s st w1 w2 t Hc Hd Hw Hf).
  rewrite loop_unfold by exact G2.
  match goal with
  | |- context [deleteFolder_body f ?s1 ?st1] =>
      destruct (body_calls f s1 st1) as (tr1 & E1 & _);
      destruct (deleteFolder_body f s1 st1) as [[[s2|e]|m|] st2]
  end; cbn [snd calls cur_folder] in E1;
    try (exists tr1; cbn [snd]; rewrite E1, <- !app_assoc; reflexivity).
  destruct (loop_calls fuel f s2 st2) as (tr2 & E2 & _).
  exists (tr1 ++ tr2)%list. rewrite E2, E1, <- !app_assoc. reflexivity.
Qed.

(** X11. When the recorded boundary is none of the prefixes of the path (the
    empty one included), the loop condition can never become false: the
    current path walks down the prefixes to the empty path and stays there.
    The prune then never returns without error, whatever room it is given:
    it ends in an error or a panic of the service calls, or not at all. *)
Theorem prune_never_succeeds_off_boundary (segs : list string) f (fuel : nat) st :
  Forall (fun x => goodName x = true) segs ->
  path f = relPath segs ->
  forallb (fun j => negb (String.eqb (relPath (firstn j segs)) (existingPath f)))
          (seq 0 (S (List.length segs))) = true ->
  fst (deleteFolder fuel f st) <> Returns None.
Proof.
  intros Hgood Hpath Hoff.
  assert (Hguard : forall j, j <= List.length segs ->
                             String.eqb (relPath (firstn j segs)) (existingPath f) = false).
  { intros j Hj. rewrite forallb_forall in Hoff.
    apply negb_true_iff. apply Hoff. apply in_seq. lia. }
  assert (Hloop : forall fuel0 j fo st0,
             j <= List.length segs ->
             fst (deleteFolder_loop fuel0 f
                    {| cur_folder := fo; currentPath := relPath (firstn j segs) |} st0)
             <> Returns None).
  { induction fuel0 as [|fuel0 IH]; intros j fo st0 Hj.
    - cbn [deleteFolder_loop currentPath]. rewrite (Hguard j Hj). discriminate.
    - rewrite loop_unfold by (cbn [currentPath]; apply Hguard; exact Hj).
      pose proof (body_facts f {| cur_folder := fo;
                                  currentPath := relPath (firstn j segs) |} st0)
        as (_ & _ & Hnn & Hnext).
      destruct (deleteFolder_body f _ st0) as [[[s'|e]|m|] st1]; cbn [fst] in *;
        try discriminate.
      + specialize (Hnext s' eq_refl). cbn [currentPath] in Hnext.
        destruct s' as [fo' cp']. cbn [currentPath] in Hnext. subst cp'.
        destruct j as [|j].
        * change (parentPath (relPath (firstn 0 segs))) with (relPath (firstn 0 segs)).
          apply IH. lia.
        * destruct (parentPath_firstn segs j Hgood ltac:(lia)) as [E _].
          rewrite E. apply IH. lia.
      + intros H. apply Hnn. congruence. }
  rewrite deleteFolder_unfold. cbv zeta.
  destruct (lookupDatacenter (world st) (datacenter f)) as [odc [e|]];
    [discriminate|].
  destruct (si_FindByInventoryPath (world st) _) as [[[fo|dc|o]|] [e|]];
    try discriminate.
  rewrite Hpath.
  match goal with
  | |- fst (deleteFolder_loop _ _ _ ?st2) <> _ =>
      pose proof (Hloop fuel (List.length segs) fo st2 (le_n _)) as H
  end.
  rewrite firstn_all in H. exact H.
Qed.

(** X12. Delete reads the path through [strings.TrimRight]: a trailing slash
    on the configured path changes nothing in what Delete asks of the
    service, in the inventory it leaves, or in the error it returns. *)
Theorem delete_ignores_trailing_slash fuel d st :
  let d2 := {| d_datacenter := d_datacenter d; d_path := d_path d ++ "/";
               d_existing_path := d_existing_path d; d_id := d_id d |} in
  snd (resourceVSphereFolderDelete fuel d2 st) = snd (resourceVSphereFolderDelete fuel d st)
  /\ (forall d' e,
         fst (resourceVSphereFolderDelete fuel d st) = Returns (d', e) ->
         exists d'', fst (resourceVSphereFolderDelete fuel d2 st) = Returns (d'', e))
  /\ (forall m,
         fst (resourceVSphereFolderDelete fuel d st) = Panics m ->
         fst (resourceVSphereFolderDelete fuel d2 st) = Panics m).
Proof.
  cbv zeta. rewrite !delete_unfold. cbv zeta.
  cbn [d_datacenter d_path d_existing_path]. rewrite TrimRight_slash_snoc.
  destruct (lookupDatacenter (world st) (d_datacenter d)) as [odc [e|]];
    [|destruct (si_FindByInventoryPath (world st) _) as [[[fo|dc|o]|] [e|]];
      [| destruct (deleteFolder_loop fuel _ _ _) as [[[e|]|m|] st3] | | | | | | ]];
    cbn [fst snd];
    (split; [reflexivity|]; split; intros; try discriminate; try assumption;
     match goal with H : Returns _ = Returns _ |- _ => injection H as <- <- end;
     eexists; reflexivity).
Qed.

End DeleteEdges.

(** ** Create: a path that climbs out of the VM root *)

Lemma get_app_right (a b : string) (i : nat) :
  String.get (String.length a + i) (a ++ b) = String.get i b.
Proof. induction a as [|c a IH]; simpl; [reflexivity | exact IH]. Qed.

(** The loop of [Clean] over well-formed elements followed by more input. *)
Lemma cleanLoop_prefix (segs : list string) :
  Forall (fun s => goodName s = true) segs ->
  forall (fuel : nat) (rooted : bool) (rest out : string) (dd : nat),
    path.slashNeeded rooted out = true ->
    path.endOrSlash rest = true ->
    path.cleanLoop (2 * List.length segs + fuel) rooted (slashed segs ++ rest) out dd
    = path.cleanLoop fuel rooted rest (out ++ slashed segs) dd.
Proof.
  induction 1 as [|s r Hs _ IH]; intros fuel rooted rest out dd Hout Hrest.
  - simpl. rewrite sapp_nil_r. reflexivity.
  - replace (2 * List.length (s :: r) + fuel)
      with (S (S (2 * List.length r + fuel))) by (simpl; lia).
    cbn [slashed]. rewrite !sapp_assoc.
    change ("/" ++ s ++ slashed r ++ rest) with ("/" ++ (s ++ (slashed r ++ rest))).
    rewrite cleanLoop_slash.
    rewrite cleanLoop_elem; [|assumption|].
    + rewrite Hout, IH.
      * rewrite ?sapp_assoc. reflexivity.
      * unfold path.slashNeeded. rewrite !slength_app. apply goodName_length in Hs.
        destruct rooted; simpl.
        -- destruct (String.length out + 1 + String.length s) as [|[|n]] eqn:E;
             try lia; reflexivity.
        -- destruct (String.length out + 1 + String.length s) as [|n] eqn:E;
             try lia; reflexivity.
      * exact Hrest.
    + destruct r as [|s2 r2]; simpl; [exact Hrest | reflexivity].
Qed.

Lemma cleanLoop_slash' (fuel : nat) (rooted : bool) (t out : string) (dd : nat) :
  path.cleanLoop (S fuel) rooted (String "/" t) out dd
  = path.cleanLoop fuel rooted t out dd.
Proof. reflexivity. Qed.

Lemma backtrack_stop (out : string) (dd w : nat) :
  0 < w -> slashAt out w = true -> path.backtrack out dd w = w.
Proof.
  intros Hw H. destruct w as [|w]; [lia|].
  cbn [path.backtrack]. rewrite H, andb_false_r. reflexivity.
Qed.

(** The ".." element with something written to back out of. *)
Lemma cleanLoop_dotdot (fuel : nat) (rooted : bool) (t out : string) (dd : nat) :
  path.endOrSlash t = true ->
  (dd <? String.length out)%nat = true ->
  path.cleanLoop (S fuel) rooted (String "." (String "." t)) out dd
  = path.cleanLoop fuel rooted t
      (sliceTo out (path.backtrack out dd (String.length out - 1))) dd.
Proof.
  intros Ht Hdd. cbn [path.cleanLoop].
  change (isSlash ".") with false. change (isDot ".") with true.
  cbn [andb path.endOrSlash path.dotThenEnd].
  change (isSlash ".") with false. change (isDot ".") with true.
  cbn [andb sliceFrom]. rewrite Ht, Hdd. destruct t; reflexivity.
Qed.

(** Backing out of the element [vm]: the output is cut before its slash. *)
Lemma backtrack_vm (p : string) :
  2 <= String.length p ->
  path.backtrack (p ++ "/vm") 1 (String.length (p ++ "/vm") - 1) = String.length p.
Proof.
  intros Hp.
  replace (String.length (p ++ "/vm") - 1) with (S (S (String.length p)))
    by (rewrite slength_app; simpl; lia).
  assert (G : forall i, slashAt (p ++ "/vm") (String.length p + i)
                        = match String.get i "/vm" with
                          | Some c => isSlash c
                          | None => false
                          end).
  { intros i. unfold slashAt. rewrite get_app_right. reflexivity. }
  cbn [path.backtrack].
  replace (S (S (String.length p))) with (String.length p + 2) at 2 by lia.
  rewrite G.
  replace (1 <? S (S (String.length p)))%nat with true
    by (symmetry; apply Nat.ltb_lt; lia).
  change (match String.get 2 "/vm" with
          | Some c => isSlash c
          | None => false
          end) with false.
  cbn [andb negb].
  replace (S (String.length p)) with (String.length p + 1) at 2 by lia.
  rewrite G.
  replace (1 <? S (String.length p))%nat with true
    by (symmetry; apply Nat.ltb_lt; lia).
  change (match String.get 1 "/vm" with
          | Some c => isSlash c
          | None => false
          end) with false.
  cbn [andb negb].
  apply backtrack_stop; [lia|].
  pose proof (G 0) as G0. rewrite Nat.add_0_r in G0. rewrite G0. reflexivity.
Qed.

(** [Clean] of "<datacenter path>/vm/../x" is "<datacenter path>/x". *)
Lemma Clean_climbs_out (d : string) (ds : list string) (x : string) :
  Forall (fun s => goodName s = true) (d :: ds) ->
  goodName x = true ->
  path.Clean ((slashed (d :: ds) // "vm") ++ "/" ++ ("../" ++ x))
  = slashed (d :: ds) // x.
Proof.
  intros Hd Hx. inversion Hd as [|? ? Hd1 Hds]; subst.
  assert (Hvm : Forall (fun s => goodName s = true) (ds ++ ["vm"]))
    by (apply Forall_goodName_app; [assumption | repeat constructor]).
  pose proof (goodName_length d Hd1) as Ld.
  pose proof (goodName_length x Hx) as Lx.
  assert (Ein : (slashed (d :: ds) // "vm") ++ "/" ++ ("../" ++ x)
                = String "/" (d ++ (slashed (ds ++ ["vm"]) ++ "/../" ++ x))).
  { unfold child. cbn [slashed]. rewrite slashed_app. cbn [slashed].
    rewrite ?sapp_assoc. cbn. rewrite ?sapp_assoc. reflexivity. }
  rewrite Ein. unfold path.Clean. change (isSlash "/") with true. cbv iota.
  assert (Hfuel : exists k,
             String.length (String "/" (d ++ (slashed (ds ++ ["vm"]) ++ "/../" ++ x)))
             = S (2 * List.length (ds ++ ["vm"]) + S (S (S (S k))))).
  { pose proof (slashed_length_ge (ds ++ ["vm"]) Hvm) as Hge.
    exists (String.length d + String.length (slashed (ds ++ ["vm"]))
            - 2 * List.length (ds ++ ["vm"]) + String.length x).
    cbn [String.length]. rewrite !slength_app. simpl String.length. lia. }
  destruct Hfuel as [k Ek]. rewrite Ek.
  rewrite cleanLoop_elem; [| exact Hd1 | ].
  2:{ destruct (ds ++ ["vm"])%list eqn:El; [destruct ds; discriminate | reflexivity]. }
  change (path.slashNeeded true "/") with false. cbv iota.
  rewrite cleanLoop_prefix; [| exact Hvm | | reflexivity].
  2:{ unfold path.slashNeeded. simpl.
      destruct (String.length d) eqn:E; [lia | reflexivity]. }
  (* the ".." element *)
  change ("/../" ++ x) with (String "/" (String "." (String "." (String "/" x)))).
  rewrite cleanLoop_slash'.
  rewrite slashed_app. cbn [slashed]. rewrite sapp_nil_r.
  replace (("/" ++ d) ++ slashed ds ++ "/" ++ "vm")
    with ((("/" ++ d) ++ slashed ds) ++ "/vm")
    by (rewrite ?sapp_assoc; reflexivity).
  set (p := ("/" ++ d) ++ slashed ds).
  assert (Lp : 2 <= String.length p)
    by (unfold p; rewrite !slength_app; simpl; lia).
  rewrite cleanLoop_dotdot;
    [| reflexivity | apply Nat.ltb_lt; rewrite slength_app; simpl; lia].
  rewrite (backtrack_vm p Lp), sliceTo_app.
  (* the last element *)
  rewrite cleanLoop_slash'.
  pose proof (cleanLoop_elem k true x "" p 1 Hx eq_refl) as Elast.
  rewrite sapp_nil_r in Elast. rewrite Elast. clear Elast.
  replace (path.slashNeeded true p) with true.
  2:{ unfold path.slashNeeded. cbn [andb negb orb].
      destruct (String.length p =? 1)%nat eqn:E; [| reflexivity].
      apply Nat.eqb_eq in E. lia. }
  assert (Eout : (p ++ "/") ++ x = slashed (d :: ds) // x).
  { unfold p, child. cbn [slashed]. rewrite ?sapp_assoc. reflexivity. }
  rewrite Eout.
  destruct k; cbn [path.cleanLoop];
    (destruct (String.length (slashed (d :: ds) // x) =? 0)%nat eqn:E0;
     [ apply Nat.eqb_eq in E0; rewrite child_length in E0; lia | reflexivity ]).
Qed.

Section CreateEscape.

Context {W : Type} {svc : InventoryService W}.

Implicit Types (st : St W) (f : folder) (dc : Datacenter).

(** The first path [createFolder] looks up for the path "../x". *)
Lemma createFolder_path_dotdot (dcPath d : string) (ds : list string) (x : string) :
  Forall (fun s => goodName s = true) (d :: ds) ->
  goodName x = true ->
  dcPath = slashed (d :: ds) ->
  filepath.ToSlash (filepath.Join [filepath.Join [dcPath; "vm"]; "../" ++ x])
  = dcPath // x.
Proof.
  intros Hd Hx ->.
  destruct (createFolder_path (slashed (d :: ds)) d ds [] Hd (Forall_nil _) eq_refl)
    as [Hb _].
  rewrite Hb. unfold filepath.ToSlash.
  change (filepath.Join [slashed (d :: ds) // "vm"; "../" ++ x])
    with (path.Clean ((slashed (d :: ds) // "vm") ++ "/" ++ ("../" ++ x))).
  apply Clean_climbs_out; assumption.
Qed.

(** X13. The path is joined to the VM root and cleaned before the first
    lookup, so a path "../x" leaves the VM root: [createFolder] looks up
    x directly under the datacenter. If a folder is there, it returns
    without error after that one lookup, never having looked at the VM
    root; if nothing is there, it reports that the VM root was not found,
    again without having looked it up. The inventory is unchanged. *)
Theorem createFolder_climbs_out_of_vm_root f st dc (dn : string)
        (ds : list string) (x : string) :
  Forall (fun s => goodName s = true) (dn :: ds) ->
  goodName x = true ->
  InventoryPath dc = slashed (dn :: ds) ->
  path f = "../" ++ x ->
  finder_DatacenterOrDefault (world st) (datacenter f) = (Some dc, None) ->
  (forall fo : Folder,
      si_FindByInventoryPath (world st) (InventoryPath dc // x)
      = (Some (IsFolder fo), None) ->
      createFolder f st
      = (Returns (f, None),
         {| world := world st;
            calls := calls st ++
                     [ CallDatacenterOrDefault (datacenter f);
                       CallFindByInventoryPath (InventoryPath dc // x) ] |}))
  /\ (si_FindByInventoryPath (world st) (InventoryPath dc // x) = (None, None) ->
      createFolder f st
      = (Returns (f, Some ("vSphere base path " ++ InventoryPath dc // "vm"
                           ++ " not found")),
         {| world := world st;
            calls := calls st ++
                     [ CallDatacenterOrDefault (datacenter f);
                       CallFindByInventoryPath (InventoryPath dc // x) ] |})).
Proof.
  intros Hd Hx Hdc Hp Hfind.
  pose proof (createFolder_path_dotdot (InventoryPath dc) dn ds x Hd Hx Hdc) as Ep.
  destruct (createFolder_path (InventoryPath dc) dn ds [] Hd (Forall_nil _) Hdc)
    as [Hb _].
  split.
  - intros fo Hf.
    pose proof (createFolder_first_found f st dc (IsFolder fo) Hfind) as Run.
    rewrite Hp, Ep in Run. exact (Run Hf).
  - intros Hf. unfold createFolder. unfold bind at 1. unfold_calls.
    rewrite Hfind. cbv beta iota zeta. unfold bind at 1.
    unfold deref at 1, ret at 1. cbv beta iota zeta. unfold bind at 1.
    rewrite Hp, Ep.
    rewrite resolve_absent_base.
    + rewrite Hb. unfold filepath.ToSlash, logged, ret. cbn [world calls].
      rewrite <- app_assoc. reflexivity.
    + exact Hf.
    + apply goodName_spec in Hx. apply Hx.
Qed.

End CreateEscape.

(** ** The prune loop, pass by pass *)

Section PruneExact.

Context {W : Type} {svc : InventoryService W}.

Implicit Types (st : St W) (f : folder) (s : pruneState).

Lemma prune_passes_unfold (j : nat) f s st :
  prune_passes (S j) f s st
  = if String.eqb (currentPath s) (existingPath f) then None
    else match deleteFolder_body f s st with
         | (Returns (inl s'), st') => prune_passes j f s' st'
         | _ => None
         end.
Proof. reflexivity. Qed.

(** One more pass at the end of [j] passes. *)
Lemma prune_passes_snoc (j : nat) :
  forall f s0 st0,
    prune_passes (S j) f s0 st0
    = match prune_passes j f s0 st0 with
      | Some (s, st) =>
          if String.eqb (currentPath s) (existingPath f) then None
          else match deleteFolder_body f s st with
               | (Returns (inl s'), st') => Some (s', st')
               | _ => None
               end
      | None => None
      end.
Proof.
  induction j as [|j IH]; intros f s0 st0.
  - rewrite prune_passes_unfold. cbn [prune_passes].
    destruct (String.eqb (currentPath s0) (existingPath f)); [reflexivity|].
    destruct (deleteFolder_body f s0 st0) as [[[s'|e]|m|] st']; reflexivity.
  - rewrite (prune_passes_unfold (S j) f s0 st0), (prune_passes_unfold j f s0 st0).
    destruct (String.eqb (currentPath s0) (existingPath f)); [reflexivity|].
    destruct (deleteFolder_body f s0 st0) as [[[s'|e]|m|] st']; try reflexivity.
    apply IH.
Qed.

(** A pass reaches the end of the body exactly when the service answers it
    so. *)
Lemma body_completes f s st :
  if passAnswered f s st
  then exists s' st', deleteFolder_body f s st = (Returns (inl s'), st')
  else forall s', fst (deleteFolder_body f s st) <> Returns (inl s').
Proof.
  unfold passAnswered, deleteFolder_body, bind, deref, assertFolder, ret, panic.
  unfold_calls. unfold logged. cbn [world calls].
  destruct (folder_Children (world st) (cur_folder s)) as [[|c cs] [e|]];
    cbn [List.length Nat.ltb Nat.leb fst snd world calls];
    try (intros s' H; discriminate).
  destruct (folder_Destroy (world st) (cur_folder s)) as [w1 [[t|] [e|]]];
    cbn [fst snd world calls]; try (intros s' H; discriminate).
  destruct (task_Wait w1 t) as [w2 [e|]];
    cbn [fst snd world calls]; try (intros s' H; discriminate).
  destruct (si_FindByInventoryPath w2 _) as [[[fo|dc|o]|] [e|]];
    cbn [fst snd world calls]; try (intros s' H; discriminate);
    eexists; eexists; reflexivity.
Qed.

(** After [j] complete passes from the prefix with [a] elements the current
    path is the prefix with [a - j] elements, and [j] children queries were
    issued. *)
Lemma prune_passes_path (segs : list string) (k : nat) f :
  Forall (fun x => goodName x = true) segs ->
  existingPath f = relPath (firstn k segs) ->
  forall j a s0 st0 s st,
    k <= a -> a <= List.length segs ->
    currentPath s0 = relPath (firstn a segs) ->
    prune_passes j f s0 st0 = Some (s, st) ->
    j <= a - k
    /\ currentPath s = relPath (firstn (a - j) segs)
    /\ passes (calls st) = passes (calls st0) + j.
Proof.
  intros Hgood Hex. induction j as [|j IH]; intros a s0 st0 s st Hk Ha Hcur H.
  - cbn [prune_passes] in H. injection H as <- <-.
    rewrite Nat.sub_0_r. repeat split; [lia | exact Hcur | lia].
  - rewrite prune_passes_unfold in H.
    destruct (String.eqb (currentPath s0) (existingPath f)) eqn:G; [discriminate|].
    assert (Hak : k < a).
    { destruct (Nat.eq_dec a k) as [->|]; [|lia].
      rewrite Hcur, Hex, String.eqb_refl in G. discriminate. }
    destruct a as [|a]; [lia|].
    pose proof (body_facts f s0 st0) as (Hp & _ & _ & Hnext).
    destruct (deleteFolder_body f s0 st0) as [[[s1|e]|m|] st1]; try discriminate.
    cbn [fst snd] in Hp, Hnext. specialize (Hnext s1 eq_refl).
    destruct (parentPath_firstn segs a Hgood ltac:(lia)) as [Epar _].
    rewrite Hcur, Epar in Hnext.
    destruct (IH a s1 st1 s st ltac:(lia) ltac:(lia) Hnext H) as (Hj & Hc & Hps).
    split; [lia|]. split; [exact Hc|]. rewrite Hps, Hp. lia.
Qed.

(** C7, for a prune inside its data model. For a prune whose path has the
    well-formed elements [segs] and whose boundary is the prefix with the
    first [k] of them, with room for (number of elements) - k passes:
    the loop ends, whatever the service answers, and more room changes
    nothing. After [j] complete passes the current path is the prefix with
    [j] elements less, so every pass replaces the current path by its
    parent, which is strictly shorter. Short of the boundary a pass is
    completed exactly when the service answers it (no children, destroy
    and wait without error, parent lookup without error); the first pass
    not so answered ends the prune with the error or panic of that pass,
    after one children query more than the passes completed. After
    (number of elements) - k complete passes the prune returns without
    error, and it returns without error in no other way. *)
Theorem prune_pass_by_pass (segs : list string) (k fuel : nat) f st :
  Forall (fun x => goodName x = true) segs ->
  k <= List.length segs ->
  path f = relPath segs ->
  existingPath f = relPath (firstn k segs) ->
  List.length segs - k <= fuel ->
  let run := deleteFolder fuel f st in
  let q := datacenter f ++ "/vm/" ++ path f in
  let st2 := {| world := world st;
                calls := calls st ++ [datacenterCall (datacenter f);
                                      CallFindByInventoryPath q] |} in
  fst run <> OutOfFuel
  /\ (forall fuel', fuel <= fuel' -> deleteFolder fuel' f st = run)
  /\ (exists p, passes (calls (snd run)) = passes (calls st) + p
                /\ p <= List.length segs - k
                /\ (fst run = Returns None -> p = List.length segs - k))
  /\ forall odc fo j s st',
       lookupDatacenter (world st) (datacenter f) = (odc, None) ->
       si_FindByInventoryPath (world st) q = (Some (IsFolder fo), None) ->
       prune_passes j f {| cur_folder := fo; currentPath := path f |} st2
       = Some (s, st') ->
       j <= List.length segs - k
       /\ currentPath s = relPath (firstn (List.length segs - j) segs)
       /\ passes (calls st') = passes (calls st) + j
       /\ (j = List.length segs - k -> run = (Returns None, st'))
       /\ (j < List.length segs - k ->
           String.length (parentPath (currentPath s)) < String.length (currentPath s)
           /\ if passAnswered f s st'
              then exists s1 st1,
                     deleteFolder_body f s st' = (Returns (inl s1), st1)
                     /\ currentPath s1 = parentPath (currentPath s)
                     /\ prune_passes (S j) f
                          {| cur_folder := fo; currentPath := path f |} st2
                        = Some (s1, st1)
              else fst run <> Returns None
                   /\ snd run = snd (deleteFolder_body f s st')
                   /\ passes (calls (snd run)) = passes (calls st) + S j
                   /\ match fst (deleteFolder_body f s st') with
                      | Returns (inr e) => fst run = Returns e
                      | Panics m => fst run = Panics m
                      | _ => False
                      end).
Proof.
  intros Hgood Hk Hpath Hex Hfuel run q st2.
  destruct (prune_loop_ends segs k fuel f st Hgood Hk Hpath Hex Hfuel)
    as (_ & Hterm & Hmono & Hp).
  split; [exact Hterm|]. split; [exact Hmono|]. split; [exact Hp|].
  intros odc fo j s st' Hdc Hf Hreach.
  assert (P2 : passes (calls st2) = passes (calls st)).
  { subst st2. cbn [calls]. rewrite passes_app. unfold datacenterCall.
    destruct (negb _); cbn; lia. }
  destruct (prune_passes_path segs k f Hgood Hex j (List.length segs)
              {| cur_folder := fo; currentPath := path f |} st2 s st'
              Hk (le_n _)) as (Hj & Hcur & Hps).
  { cbn [currentPath]. rewrite firstn_all. exact Hpath. }
  { exact Hreach. }
  rewrite P2 in Hps.
  assert (Run : run = deleteFolder_loop (fuel - j) f s st').
  { subst run. rewrite (deleteFolder_found fuel f st odc fo Hdc Hf).
    fold q. fold st2.
    replace fuel with (j + (fuel - j)) at 1 by lia.
    apply loop_skip_passes. exact Hreach. }
  split; [exact Hj|]. split; [exact Hcur|]. split; [exact Hps|]. split.
  - intros ->. rewrite Run. apply loop_done.
    rewrite Hcur, Hex.
    replace (List.length segs - (List.length segs - k)) with k by lia.
    apply String.eqb_refl.
  - intros Hlt.
    assert (Hcur' : currentPath s
                    = relPath (firstn (S (List.length segs - S j)) segs)).
    { rewrite Hcur. f_equal. f_equal. lia. }
    destruct (parentPath_firstn segs (List.length segs - S j) Hgood ltac:(lia))
      as [Epar Hshort].
    rewrite <- Hcur' in Epar, Hshort.
    split; [rewrite Epar; exact Hshort|].
    assert (G : String.eqb (currentPath s) (existingPath f) = false).
    { rewrite Hcur, Hex. apply eqb_length_neq.
      pose proof (relPath_firstn_lt segs k Hgood (List.length segs - j - k - 1)
                    ltac:(lia)) as Hl.
      replace (k + S (List.length segs - j - k - 1)) with (List.length segs - j)
        in Hl by lia.
      lia. }
    pose proof (body_completes f s st') as Hc.
    pose proof (body_facts f s st') as (Hpb & Hnf & Hnn & Hnext).
    destruct (passAnswered f s st').
    + destruct Hc as (s1 & st1 & E). exists s1, st1.
      split; [exact E|]. split; [apply Hnext; rewrite E; reflexivity|].
      rewrite prune_passes_snoc, Hreach, G, E. reflexivity.
    + replace (fuel - j) with (S (fuel - S j)) in Run by lia.
      rewrite loop_unfold in Run by exact G.
      destruct (deleteFolder_body f s st') as [[[s1|e]|m|] st1];
        cbn [fst snd] in *.
      * exfalso. apply (Hc s1). reflexivity.
      * rewrite Run. cbn [fst snd]. split.
        { intros H. apply Hnn. congruence. }
        split; [reflexivity|]. split; [rewrite Hpb, Hps; lia | reflexivity].
      * rewrite Run. cbn [fst snd]. split; [discriminate|].
        split; [reflexivity|]. split; [rewrite Hpb, Hps; lia | reflexivity].
      * exfalso. apply Hnf. reflexivity.
Qed.

End PruneExact.

(** * The further properties on sample inventories *)

(** X5 on the inventory that holds only a, with far more fuel than needed. *)
Lemma resolve_loop_ends_witness :
  let run := createFolder_resolve 100 dc0 "/DC0/vm" "/DC0/vm/a/b/c" []
               (Sim.start Sim.withA) in
  fst run = Returns (inr (IsFolder folderA, ["c"; "b"]))
  /\ List.length (calls (snd run)) <= 14.
Proof.
  pose proof (@resolve_loop_ends _ Sim.service 100 dc0 "/DC0/vm" "/DC0/vm/a/b/c" []
                (Sim.start Sim.withA) ltac:(simpl; lia))
    as (E & _ & Hn & _).
  cbv zeta. split; [rewrite E; reflexivity | exact Hn].
Defined.

(** X4 on the tree a/b/c. *)
Lemma create_existing_folder_creates_nothing_witness :
  let run := resourceVSphereFolderCreate (mkData "DC0" "a/b/c" "")
                                         (Sim.start Sim.withABC) in
  world (snd run) = Sim.withABC
  /\ filter isCreate (calls (snd run)) = [].
Proof.
  pose proof (@create_existing_folder_creates_nothing _ Sim.service
                (mkData "DC0" "a/b/c" "") (Sim.start Sim.withABC) dc0 folderC
                eq_refl eq_refl)
    as (Hw & _).
  cbv zeta. split; [exact Hw | reflexivity].
Defined.

(** X7 on a virtual machine a under the VM root. *)
Lemma create_panics_on_non_folder_witness :
  resourceVSphereFolderCreate (mkData "DC0" "a" "") (Sim.start withVmA)
  = (Panics "interface conversion: object.Reference is not *object.Folder",
     {| world := withVmA;
        calls := [CallDatacenterOrDefault "DC0"; CallFindByInventoryPath "/DC0/vm/a"] |}).
Proof.
  exact (@create_panics_on_non_folder _ Sim.service
           (mkData "DC0" "a" "") (Sim.start withVmA) dc0 vmA
           eq_refl eq_refl ltac:(intros fo; discriminate)).
Defined.

(** X6 on the inventory that holds only a: b, then c. *)
Lemma create_missing_suffix_in_order_witness :
  let run := resourceVSphereFolderCreate (mkData "DC0" "a/b/c" "")
                                         (Sim.start Sim.withA) in
  createdNames (calls (snd run)) = ["b"; "c"].
Proof.
  pose proof (@create_missing_suffix_in_order _ Sim.service Sim.withA
                (mkData "DC0" "a/b/c" "") "DC0" [] ["a"] ["b"; "c"] dc0 folderA
                ltac:(repeat constructor) ltac:(repeat constructor)
                ltac:(repeat constructor) eq_refl eq_refl eq_refl eq_refl
                ltac:(repeat constructor))
    as (_ & m & _ & Hall).
  cbv zeta in Hall |- *.
  exact (Hall {| d_datacenter := "DC0"; d_path := "a/b/c"; d_existing_path := "";
                 d_id := "DC0/a/b/c" |} eq_refl).
Defined.

(** X8 on the inventory that holds only a, with a recorded as existing
    beforehand: the record is overwritten by the empty string. *)
Lemma create_data_effects_witness :
  let d' := {| d_datacenter := "DC0"; d_path := "a/b/c"; d_existing_path := "";
               d_id := "DC0/a/b/c" |} in
  fst (resourceVSphereFolderCreate (mkData "DC0" "a/b/c" "a") (Sim.start Sim.withA))
  = Returns (d', None)
  /\ d_existing_path d' = "".
Proof.
  pose proof (@create_data_effects _ Sim.service
                (mkData "DC0" "a/b/c" "a") (Sim.start Sim.withA)
                {| d_datacenter := "DC0"; d_path := "a/b/c"; d_existing_path := "";
                   d_id := "DC0/a/b/c" |}
                None
                (snd (resourceVSphereFolderCreate (mkData "DC0" "a/b/c" "a")
                                                  (Sim.start Sim.withA)))
                eq_refl)
    as (_ & _ & H).
  cbv zeta. split; [reflexivity|].
  destruct H as [[_ H] | [H _]]; [exfalso; apply H; reflexivity | exact H].
Defined.

(** X9 on the service that lets nothing be destroyed: the first pass fails. *)
Lemma prune_stops_when_destroy_fails_witness :
  @deleteFolder _ readOnly 3 pruneABC {| world := tt; calls := [] |}
  = (Returns (Some "permission denied"),
     {| world := tt;
        calls := [ CallDatacenter "DC0"; CallFindByInventoryPath "DC0/vm/a/b/c";
                   CallChildren foundC; CallDestroy foundC ] |}).
Proof.
  exact (@prune_stops_when_destroy_fails _ readOnly 0 3 pruneABC
           {| world := tt; calls := [] |} (Some dc0) foundC
           {| cur_folder := foundC; currentPath := "a/b/c" |}
           {| world := tt;
              calls := [ CallDatacenter "DC0";
                         CallFindByInventoryPath "DC0/vm/a/b/c" ] |}
           tt None "permission denied"
           eq_refl eq_refl eq_refl eq_refl eq_refl eq_refl ltac:(lia)).
Defined.

(** X10 on the service whose parents never resolve: the folder found at
    a/b/c is asked for its children twice. *)
Lemma prune_reuses_destroyed_folder_witness :
  filter isChildren
    (firstn 5 (calls (snd (@deleteFolder_loop _ orphan 2 pruneABC
                             {| cur_folder := foundC; currentPath := "a/b/c" |}
                             {| world := tt; calls := [] |}))))
  = [CallChildren foundC; CallChildren foundC].
Proof.
  destruct (@prune_reuses_destroyed_folder _ orphan pruneABC
              {| cur_folder := foundC; currentPath := "a/b/c" |}
              {| world := tt; calls := [] |} tt tt {| task_id := 0 |} 0
              eq_refl eq_refl eq_refl eq_refl eq_refl eq_refl)
    as (tr & E).
  rewrite E. reflexivity.
Defined.

(** X11 on the tree a/b/c with the boundary x, which is no prefix of a/b/c. *)
Lemma prune_never_succeeds_off_boundary_witness :
  fst (deleteFolder 10 pruneOff (Sim.start Sim.withABC)) <> Returns None.
Proof.
  exact (@prune_never_succeeds_off_boundary _ Sim.service ["a"; "b"; "c"] pruneOff 10
           (Sim.start Sim.withABC) ltac:(repeat constructor) eq_refl eq_refl).
Defined.

(** X13 on DC0 with its host folder: the path ../host is accepted as an
    existing folder after one lookup outside the VM root. *)
Lemma createFolder_climbs_out_of_vm_root_witness :
  createFolder {| datacenter := "DC0"; existingPath := ""; path := "../host" |}
               (Sim.start withHost)
  = (Returns ({| datacenter := "DC0"; existingPath := ""; path := "../host" |}, None),
     {| world := withHost;
        calls := [CallDatacenterOrDefault "DC0"; CallFindByInventoryPath "/DC0/host"] |}).
Proof.
  exact (proj1 (@createFolder_climbs_out_of_vm_root _ Sim.service
                  {| datacenter := "DC0"; existingPath := ""; path := "../host" |}
                  (Sim.start withHost) dc0 "DC0" [] "host"
                  ltac:(repeat constructor) eq_refl eq_refl eq_refl eq_refl)
               hostFolder eq_refl).
Defined.

(** * The claims that meet the code only in part *)

(** C6 as stated fails for a path that leaves the VM root. DC0 has a host
    folder and no VM root; the path ../host/x is joined to the VM root and
    cleaned to /DC0/host/x, the resolve loop finds /DC0/host, and Create
    creates x there and returns without error. *)
Lemma create_outside_missing_vm_root :
  let run := resourceVSphereFolderCreate (mkData "DC0" "../host/x" "")
                                         (Sim.start hostNoVm) in
  Sim.findByInventoryPath hostNoVm "/DC0/vm" = (None, None)
  /\ fst run = Returns ({| d_datacenter := "DC0"; d_path := "../host/x";
                           d_existing_path := ""; d_id := "DC0/../host/x" |}, None)
  /\ filter isCreate (calls (snd run)) = [CallCreateFolder hostFolder "x"]
  /\ map Sim.n_path (Sim.nodes (world (snd run)))
     = ["/DC0"; "/DC0/host"; "/DC0/host/x"].
Proof. repeat split. Qed.

(** C7 on the tree a/b/c with boundary a: the prune returns without error
    after exactly two passes. *)
Lemma prune_pass_by_pass_witness :
  let run := deleteFolder 2 pruneABC (Sim.start Sim.withABC) in
  fst run = Returns None
  /\ passes (calls (snd run)) = 2
  /\ String.length (parentPath "a/b") < String.length "a/b".
Proof.
  pose proof (@prune_pass_by_pass _ Sim.service ["a"; "b"; "c"] 1 2 pruneABC
                (Sim.start Sim.withABC)
                ltac:(repeat constructor) ltac:(simpl; lia)
                eq_refl eq_refl ltac:(simpl; lia))
    as (_ & _ & _ & H).
  cbv zeta in H.
  destruct (H (Some dc0) foundC 2
              {| cur_folder := foundA; currentPath := "a" |}
              (snd (@deleteFolder _ Sim.service 2 pruneABC (Sim.start Sim.withABC)))
              eq_refl eq_refl eq_refl)
    as (_ & _ & Hp & Hend & _).
  destruct (H (Some dc0) foundC 1
              {| cur_folder := foundB; currentPath := "a/b" |}
              {| world := fst (Sim.destroy Sim.withABC foundC);
                 calls := [ CallDatacenter "DC0";
                            CallFindByInventoryPath "DC0/vm/a/b/c";
                            CallChildren foundC; CallDestroy foundC;
                            CallWait {| task_id := 10 |};
                            CallFindByInventoryPath "DC0/vm/a/b" ] |}
              eq_refl eq_refl eq_refl)
    as (_ & _ & _ & _ & Hshort).
  cbv zeta. split; [rewrite (Hend eq_refl); reflexivity|].
  split; [exact Hp|].
  exact (proj1 (Hshort ltac:(simpl; lia))).
Defined.

(** C7 as stated fails outside the data model. First a path written with a
    leading slash: Create accepts /a, creates a under the VM root and
    records the empty boundary; the prune of /a then destroys a, goes on at
    "/", whose parent is "/" again, destroys the VM root, and ends only
    because the service then fails: three passes for one folder, the
    second of which leaves the current path as it was. Then a boundary that
    is no prefix of the path: pruning a/b/c with boundary x takes five
    passes, the fourth of which leaves the current path empty as it was. *)
Lemma prune_outside_data_model :
  let created := resourceVSphereFolderCreate (mkData "DC0" "/a" "")
                                             (Sim.start Sim.dcOnly) in
  let d' := {| d_datacenter := "DC0"; d_path := "/a"; d_existing_path := "";
               d_id := "DC0//a" |} in
  let del := resourceVSphereFolderDelete 10 d' (Sim.start (world (snd created))) in
  let s0 := {| cur_folder := {| moref := 10; InventoryPath := "DC0/vm//a" |};
               currentPath := "/a" |} in
  let st2 := {| world := world (snd created);
                calls := [CallDatacenter "DC0"; CallFindByInventoryPath "DC0/vm//a"] |} in
  let off := deleteFolder 10 pruneOff (Sim.start Sim.withABC) in
  let t0 := {| cur_folder := foundC; currentPath := "a/b/c" |} in
  let st3 := {| world := Sim.withABC;
                calls := [CallDatacenter "DC0";
                          CallFindByInventoryPath "DC0/vm/a/b/c"] |} in
  (fst created = Returns (d', None)
   /\ option_map (fun x => currentPath (fst x)) (prune_passes 1 pruneAbs s0 st2)
      = Some "/"
   /\ option_map (fun x => currentPath (fst x)) (prune_passes 2 pruneAbs s0 st2)
      = Some "/"
   /\ fst del = Returns (d', Some "managed object not found")
   /\ passes (calls (snd del)) = 3
   /\ map Sim.n_path (Sim.nodes (world (snd del))) = ["/DC0"])
  /\ (option_map (fun x => currentPath (fst x)) (prune_passes 3 pruneOff t0 st3)
      = Some ""
      /\ option_map (fun x => currentPath (fst x)) (prune_passes 4 pruneOff t0 st3)
         = Some ""
      /\ fst off = Returns (Some "managed object not found")
      /\ passes (calls (snd off)) = 5).
Proof. repeat split. Qed.

(** C8 on the end-to-end scenario: path dev/team-a, no datacenter given,
    nothing under the VM root of the default datacenter DC0. Create makes
    dev and team-a under the VM root of DC0 and sets the identity to
    "/dev/team-a", formatted from the empty field; the closing Read then
    looks up "/vm/dev/team-a", built from the empty field although it has
    just resolved the default datacenter, finds nothing and clears the
    identity: Create returns without error with an empty identity, not
    "DC0/dev/team-a". With the datacenter named, the same Create keeps
    "DC0/dev/team-a". *)
Theorem create_default_datacenter_clears_identity :
  let run := resourceVSphereFolderCreate (mkData "" "dev/team-a" "")
                                         (Sim.start Sim.dcOnly) in
  let named := resourceVSphereFolderCreate (mkData "DC0" "dev/team-a" "")
                                           (Sim.start Sim.dcOnly) in
  Sim.defaultDatacenter Sim.dcOnly = (Some dc0, None)
  /\ createdNames (calls (snd run)) = ["dev"; "team-a"]
  /\ map Sim.n_path (Sim.nodes (world (snd run)))
     = ["/DC0"; "/DC0/vm"; "/DC0/vm/dev"; "/DC0/vm/dev/team-a"]
  /\ last (calls (snd run)) CallDefaultDatacenter
     = CallFindByInventoryPath "/vm/dev/team-a"
  /\ fst run = Returns ({| d_datacenter := ""; d_path := "dev/team-a";
                           d_existing_path := ""; d_id := "" |}, None)
  /\ world (snd named) = world (snd run)
  /\ fst named = Returns ({| d_datacenter := "DC0"; d_path := "dev/team-a";
                             d_existing_path := ""; d_id := "DC0/dev/team-a" |}, None).
Proof. repeat split. Qed.
